(** * A key-management service: envelope encryption, algorithm dispatch,
      key lifecycle and audit signing

    Shallow embedding of [backend/utils/crypto.py], [backend/utils/rotation.py],
    [backend/utils/audit.py], [backend/routers/keys.py] and
    [backend/routers/encrypt.py].

    Conventions of the embedding:
    - Python [bytes] is [list byte]; Python [str] is the list of its Unicode
      code points ([pystr]); [s.encode('utf-8')] and [b.decode('utf-8')] are
      written out;
    - an exception is a value of [PyExn]; a function that may raise returns a
      [result];
    - the primitives of the [cryptography], [hmac] and [secrets] libraries are
      the fields of the class [CryptoLib]; the argument checks that the Python
      wrappers of these primitives perform are written out in the functions
      named [lib_...];
    - the operating system's random source and the wall clock are threaded
      explicitly. *)

From Stdlib Require Import ZArith NArith Lia Bool String Ascii.
From Stdlib Require Import Strings.Byte.
From Stdlib Require Import List.
Import ListNotations.

Set Implicit Arguments.

(* ------------------------------------------------------------------------- *)
(** ** Bytes, text and exceptions *)

Definition bytes := list byte.

Definition b_ (s : string) : bytes := list_byte_of_string s.

Fixpoint bytes_eqb (a b : bytes) : bool :=
  match a, b with
  | [], [] => true
  | x :: a', y :: b' => Byte.eqb x y && bytes_eqb a' b'
  | _, _ => false
  end.

Definition byte_val (b : byte) : N := Byte.to_N b.

Definition byte_of_N (n : N) : byte :=
  match Byte.of_N (n mod 256) with
  | Some b => b
  | None => x00
  end.

(** Python [str]: a sequence of code points. *)
Definition pystr := list N.

Definition py (s : string) : pystr :=
  map (fun b => byte_val b) (list_byte_of_string s).

Fixpoint pystr_eqb (a b : pystr) : bool :=
  match a, b with
  | [], [] => true
  | x :: a', y :: b' => N.eqb x y && pystr_eqb a' b'
  | _, _ => false
  end.

Infix "=?s" := pystr_eqb (at level 70, no associativity).

(** [x in [a; b; ...]] on strings. *)
Definition str_in (x : pystr) (l : list pystr) : bool := existsb (pystr_eqb x) l.

Inductive PyExn : Type :=
| ValueError (msg : pystr)
| TypeError
| AttributeError
| OverflowError
| UnicodeEncodeError
| UnicodeDecodeError
| InvalidTag                 (* cryptography.exceptions.InvalidTag *)
| InvalidSignature           (* cryptography.exceptions.InvalidSignature *)
| LibUnsupportedAlgorithm.   (* cryptography.exceptions.UnsupportedAlgorithm *)

(** The name of the exception's class, as [type(e).__name__] gives it. *)
Definition exn_class (e : PyExn) : string :=
  match e with
  | ValueError _ => "ValueError"
  | TypeError => "TypeError"
  | AttributeError => "AttributeError"
  | OverflowError => "OverflowError"
  | UnicodeEncodeError => "UnicodeEncodeError"
  | UnicodeDecodeError => "UnicodeDecodeError"
  | InvalidTag => "InvalidTag"
  | InvalidSignature => "InvalidSignature"
  | LibUnsupportedAlgorithm => "UnsupportedAlgorithm"
  end.

(** [str(e)]. *)
Definition exn_str (e : PyExn) : pystr :=
  match e with
  | ValueError msg => msg
  | _ => []
  end.

Inductive result (A : Type) : Type :=
| Ok (a : A)
| Err (e : PyExn).
Arguments Ok {A} a.
Arguments Err {A} e.

Definition bind {A B} (r : result A) (k : A -> result B) : result B :=
  match r with
  | Ok a => k a
  | Err e => Err e
  end.

Declare Scope py_scope.
Delimit Scope py_scope with py.
Notation "x <- e ;; k" := (bind e (fun x => k))
  (at level 61, e at next level, right associativity) : py_scope.
Notation "e ;;; k" := (bind e (fun _ => k))
  (at level 61, right associativity) : py_scope.

Definition is_ok {A} (r : result A) : bool :=
  match r with Ok _ => true | Err _ => false end.

(* ------------------------------------------------------------------------- *)
(** ** UTF-8 *)

Module Utf8.

(** The encoding of one code point; surrogates and values past U+10FFFF
    have none. *)
Definition encode_cp (c : N) : option bytes :=
  (if c <? 0x80 then Some [byte_of_N c]
   else if c <? 0x800 then
     Some [byte_of_N (0xC0 + c / 64); byte_of_N (0x80 + c mod 64)]
   else if c <? 0x10000 then
     if (0xD800 <=? c) && (c <=? 0xDFFF) then None
     else Some [byte_of_N (0xE0 + c / 4096);
                byte_of_N (0x80 + (c / 64) mod 64);
                byte_of_N (0x80 + c mod 64)]
   else if c <? 0x110000 then
     Some [byte_of_N (0xF0 + c / 262144);
           byte_of_N (0x80 + (c / 4096) mod 64);
           byte_of_N (0x80 + (c / 64) mod 64);
           byte_of_N (0x80 + c mod 64)]
   else None)%N.

(** [s.encode('utf-8')] *)
Fixpoint encode (s : pystr) : result bytes :=
  match s with
  | [] => Ok []
  | c :: s' =>
      match encode_cp c with
      | None => Err UnicodeEncodeError
      | Some bs =>
          match encode s' with
          | Ok rest => Ok (bs ++ rest)
          | Err e => Err e
          end
      end
  end.

Definition in_range (lo hi x : N) : bool := ((lo <=? x) && (x <=? hi))%N.
Definition cont (x : N) : bool := in_range 0x80 0xBF x.

(** [b.decode('utf-8')], strict: overlong forms, surrogates and values
    past U+10FFFF are refused. *)
Fixpoint decode (bs : bytes) : result pystr :=
  match bs with
  | [] => Ok []
  | b0 :: r0 =>
      let v0 := byte_val b0 in
      if (v0 <? 0x80)%N then
        match decode r0 with Ok s => Ok (v0 :: s) | Err e => Err e end
      else if in_range 0xC2 0xDF v0 then
        match r0 with
        | b1 :: r1 =>
            let v1 := byte_val b1 in
            if cont v1 then
              match decode r1 with
              | Ok s => Ok (((v0 - 0xC0) * 64 + (v1 - 0x80))%N :: s)
              | Err e => Err e
              end
            else Err UnicodeDecodeError
        | _ => Err UnicodeDecodeError
        end
      else if in_range 0xE0 0xEF v0 then
        match r0 with
        | b1 :: b2 :: r2 =>
            let v1 := byte_val b1 in
            let v2 := byte_val b2 in
            let lo := if (v0 =? 0xE0)%N then 0xA0%N else 0x80%N in
            let hi := if (v0 =? 0xED)%N then 0x9F%N else 0xBF%N in
            if in_range lo hi v1 && cont v2 then
              match decode r2 with
              | Ok s =>
                  Ok (((v0 - 0xE0) * 4096 + (v1 - 0x80) * 64 + (v2 - 0x80))%N :: s)
              | Err e => Err e
              end
            else Err UnicodeDecodeError
        | _ => Err UnicodeDecodeError
        end
      else if in_range 0xF0 0xF4 v0 then
        match r0 with
        | b1 :: b2 :: b3 :: r3 =>
            let v1 := byte_val b1 in
            let v2 := byte_val b2 in
            let v3 := byte_val b3 in
            let lo := if (v0 =? 0xF0)%N then 0x90%N else 0x80%N in
            let hi := if (v0 =? 0xF4)%N then 0x8F%N else 0xBF%N in
            if in_range lo hi v1 && cont v2 && cont v3 then
              match decode r3 with
              | Ok s =>
                  Ok (((v0 - 0xF0) * 262144 + (v1 - 0x80) * 4096
                       + (v2 - 0x80) * 64 + (v3 - 0x80))%N :: s)
              | Err e => Err e
              end
            else Err UnicodeDecodeError
        | _ => Err UnicodeDecodeError
        end
      else Err UnicodeDecodeError
  end.

End Utf8.

(* ------------------------------------------------------------------------- *)
(** ** The primitives of the libraries

    What [secrets], [hmac]/[hashlib] and [cryptography] compute is not code
    of this repository: the primitives are the operations of a class, and the
    facts about them that the proofs use are its laws.  [RNG] is the state of
    the operating system's random source. *)

Inductive Curve : Type := SECP256R1 | SECP384R1.

(** A private key object is an RSA, an elliptic-curve or an Ed25519 key. *)
Inductive PrivateKeyOf (R E D : Type) : Type :=
| RSAPrivateKey (k : R)
| ECPrivateKey (k : E)
| Ed25519PrivateKey (k : D).
Arguments RSAPrivateKey {R E D} k.
Arguments ECPrivateKey {R E D} k.
Arguments Ed25519PrivateKey {R E D} k.

Class CryptoLib : Type := {
  RNG : Type;
  (** [secrets.token_bytes(n)] *)
  token_bytes : nat -> RNG -> bytes * RNG;
  token_bytes_length : forall n g, length (fst (token_bytes n g)) = n;

  (** AES in Galois/Counter mode: key, nonce, plaintext to (ciphertext, tag);
      key, nonce, tag, ciphertext to the plaintext when the tag authenticates. *)
  gcm_encrypt : bytes -> bytes -> bytes -> bytes * bytes;
  gcm_decrypt : bytes -> bytes -> bytes -> bytes -> option bytes;
  gcm_tag_length : forall k n p, length (snd (gcm_encrypt k n p)) = 16;
  gcm_decrypt_encrypt : forall k n p,
    gcm_decrypt k n (snd (gcm_encrypt k n p)) (fst (gcm_encrypt k n p)) = Some p;

  (** AES in CBC mode on whole blocks: key, IV, data. *)
  cbc_encrypt : bytes -> bytes -> bytes -> bytes;
  cbc_decrypt : bytes -> bytes -> bytes -> bytes;
  cbc_encrypt_length : forall k iv d, length (cbc_encrypt k iv d) = length d;
  cbc_decrypt_encrypt : forall k iv d,
    length d mod 16 = 0 -> cbc_decrypt k iv (cbc_encrypt k iv d) = d;

  (** ChaCha20-Poly1305: key, nonce, data; the tag is part of the output. *)
  chacha_encrypt : bytes -> bytes -> bytes -> bytes;
  chacha_decrypt : bytes -> bytes -> bytes -> option bytes;
  chacha_decrypt_encrypt : forall k n p,
    chacha_decrypt k n (chacha_encrypt k n p) = Some p;

  (** [hmac.new(key, msg, hashlib.sha256).digest()] and the SHA-512 one. *)
  hmac_sha256 : bytes -> bytes -> bytes;
  hmac_sha512 : bytes -> bytes -> bytes;
  hmac_sha256_length : forall k m, length (hmac_sha256 k m) = 32;
  hmac_sha512_length : forall k m, length (hmac_sha512 k m) = 64;

  (** Asymmetric keys. *)
  RSAKey : Type;
  ECKey : Type;
  EdKey : Type;
  RSAPub : Type;
  ECPub : Type;
  EdPub : Type;
  rsa_generate : nat -> RNG -> RSAKey * RNG;
  ec_generate : Curve -> RNG -> ECKey * RNG;
  ed_generate : RNG -> EdKey * RNG;
  rsa_public : RSAKey -> RSAPub;
  ec_public : ECKey -> ECPub;
  ed_public : EdKey -> EdPub;

  (** [private_bytes(PEM, PKCS8, NoEncryption())] and the parser of
      [load_pem_private_key]. *)
  private_bytes : PrivateKeyOf RSAKey ECKey EdKey -> bytes;
  pem_parse : bytes -> option (PrivateKeyOf RSAKey ECKey EdKey);
  pem_parse_private_bytes : forall k, pem_parse (private_bytes k) = Some k;

  (** OAEP with MGF1-SHA256 and SHA256; encryption has no result when the
      message is too long for the modulus (of [k] bytes, the message may have
      [k - 2 * 32 - 2]), decryption none when it fails. *)
  rsa_modulus_bytes : RSAPub -> nat;
  rsa_generate_modulus : forall bits g,
    rsa_modulus_bytes (rsa_public (fst (rsa_generate bits g))) = bits / 8;
  rsa_oaep_encrypt : RSAPub -> bytes -> RNG -> option bytes * RNG;
  rsa_oaep_decrypt : RSAKey -> bytes -> option bytes;
  rsa_oaep_capacity : forall pk m g c g',
    rsa_oaep_encrypt pk m g = (Some c, g') -> length m + 66 <= rsa_modulus_bytes pk;
  rsa_oaep_decrypt_encrypt : forall k m g c g',
    rsa_oaep_encrypt (rsa_public k) m g = (Some c, g') -> rsa_oaep_decrypt k c = Some m;

  (** ECDSA with SHA256, signatures in DER (an ASN.1 SEQUENCE, first byte
      0x30). *)
  ecdsa_sign : ECKey -> bytes -> RNG -> bytes * RNG;
  ecdsa_verify : ECPub -> bytes -> bytes -> bool;
  ecdsa_verify_sign : forall k m g,
    ecdsa_verify (ec_public k) (fst (ecdsa_sign k m g)) m = true;
  ecdsa_verify_der : forall pk sig m,
    ecdsa_verify pk sig m = true -> exists rest, sig = x30 :: rest;

  (** Ed25519: signatures of 64 bytes. *)
  ed_sign : EdKey -> bytes -> bytes;
  ed_verify : EdPub -> bytes -> bytes -> bool;
  ed_verify_sign : forall k m, ed_verify (ed_public k) (ed_sign k m) m = true;
  ed_sign_length : forall k m, length (ed_sign k m) = 64;
  ed_verify_length : forall pk sig m,
    ed_verify pk sig m = true -> length sig = 64
}.

Section Kms.

Context {L : CryptoLib}.

Definition PrivateKey : Type := PrivateKeyOf RSAKey ECKey EdKey.

Inductive PublicKey : Type :=
| RSAPublicKey (k : RSAPub)
| ECPublicKey (k : ECPub)
| Ed25519PublicKey (k : EdPub).

(** Computations that draw from the random source and may raise. *)
Definition Rand (A : Type) : Type := RNG -> result A * RNG.

Definition ret {A} (a : A) : Rand A := fun g => (Ok a, g).
Definition raise {A} (e : PyExn) : Rand A := fun g => (Err e, g).
Definition bindR {A B} (m : Rand A) (k : A -> Rand B) : Rand B :=
  fun g => match m g with
           | (Ok a, g') => k a g'
           | (Err e, g') => (Err e, g')
           end.
Definition lift {A} (r : result A) : Rand A := fun g => (r, g).
Definition draw (n : nat) : Rand bytes :=
  fun g => let (b, g') := token_bytes n g in (Ok b, g').

Declare Scope rand_scope.
Delimit Scope rand_scope with rand.
Notation "x <- e ;; k" := (bindR e (fun x => k))
  (at level 61, e at next level, right associativity) : rand_scope.

(** *** The argument checks of the library's wrappers *)

(** [algorithms.AES(key)] accepts 128, 192, 256 and 512 bits; no cipher of
    the backend takes the 512-bit key in GCM or CBC mode. *)
Definition lib_aes (key : bytes) : result unit :=
  let n := length key in
  if (n =? 16) || (n =? 24) || (n =? 32) then Ok tt
  else if n =? 64 then Err LibUnsupportedAlgorithm
  else Err (ValueError (py "Invalid key size for AES.")).

(** [modes.GCM(nonce, tag)]: a nonce of 8 to 128 bytes, a tag of at least 16. *)
Definition lib_gcm_mode (nonce : bytes) (tag : option bytes) : result unit :=
  let n := length nonce in
  if (n <? 8) || (128 <? n) then
    Err (ValueError (py "initialization_vector must be between 8 and 128 bytes (64 and 1024 bits)."))
  else match tag with
       | Some t =>
           if length t <? 16 then
             Err (ValueError (py "Authentication tag must be 16 bytes or longer."))
           else Ok tt
       | None => Ok tt
       end.

(** [Cipher(AES(key), GCM(nonce)).encryptor()], [update], [finalize], [tag]. *)
Definition lib_gcm_encryptor (key nonce data : bytes) : result (bytes * bytes) :=
  (lib_aes key ;;;
   lib_gcm_mode nonce None ;;;
   Ok (gcm_encrypt key nonce data))%py.

(** [Cipher(AES(key), GCM(nonce, tag)).decryptor()], [update], [finalize]. *)
Definition lib_gcm_decryptor (key nonce tag data : bytes) : result bytes :=
  (lib_aes key ;;;
   lib_gcm_mode nonce (Some tag) ;;;
   match gcm_decrypt key nonce tag data with
   | Some p => Ok p
   | None => Err InvalidTag
   end)%py.

(** [Cipher(AES(key), CBC(iv))]: an IV of one block; [finalize] refuses data
    that is not a whole number of blocks. *)
Definition lib_cbc (enc : bool) (key iv data : bytes) : result bytes :=
  (lib_aes key ;;;
   if negb (length iv =? 16) then Err (ValueError (py "Invalid IV size (16) for CBC."))
   else if negb (length data mod 16 =? 0) then
     Err (ValueError (py "The length of the provided data is not a multiple of the block length."))
   else Ok (if enc then cbc_encrypt key iv data else cbc_decrypt key iv data))%py.

(** [padding.PKCS7(128).padder()]: [update] and [finalize]. *)
Definition pkcs7_pad (data : bytes) : bytes :=
  let n := 16 - length data mod 16 in
  data ++ repeat (byte_of_N (N.of_nat n)) n.

(** [padding.PKCS7(128).unpadder()]: [update] and [finalize]. *)
Definition pkcs7_unpad (data : bytes) : result bytes :=
  let len := length data in
  if (len =? 0) || negb (len mod 16 =? 0) then
    Err (ValueError (py "Invalid padding bytes."))
  else
    let v := N.to_nat (byte_val (last data x00)) in
    if (v =? 0) || (16 <? v) then Err (ValueError (py "Invalid padding bytes."))
    else if forallb (fun b => N.to_nat (byte_val b) =? v) (skipn (len - v) data)
    then Ok (firstn (len - v) data)
    else Err (ValueError (py "Invalid padding bytes.")).

(** [ChaCha20Poly1305(key)]: a key of 32 bytes; a nonce of 12 bytes. *)
Definition lib_chacha_key (key : bytes) : result unit :=
  if length key =? 32 then Ok tt
  else Err (ValueError (py "ChaCha20Poly1305 key must be 32 bytes.")).

Definition lib_chacha_nonce (nonce : bytes) : result unit :=
  if length nonce =? 12 then Ok tt
  else Err (ValueError (py "Nonce must be 12 bytes")).

Definition lib_chacha_encrypt (key nonce data : bytes) : result bytes :=
  (lib_chacha_key key ;;;
   lib_chacha_nonce nonce ;;;
   Ok (chacha_encrypt key nonce data))%py.

Definition lib_chacha_decrypt (key nonce data : bytes) : result bytes :=
  (lib_chacha_key key ;;;
   lib_chacha_nonce nonce ;;;
   match chacha_decrypt key nonce data with
   | Some p => Ok p
   | None => Err InvalidTag
   end)%py.

(** [serialization.load_pem_private_key(data, password=None)] *)
Definition load_pem_private_key (data : bytes) : result PrivateKey :=
  match pem_parse data with
  | Some k => Ok k
  | None => Err (ValueError (py "Could not deserialize key data."))
  end.

(** [private_key.public_key()] *)
Definition public_key (k : PrivateKey) : PublicKey :=
  match k with
  | RSAPrivateKey r => RSAPublicKey (rsa_public r)
  | ECPrivateKey e => ECPublicKey (ec_public e)
  | Ed25519PrivateKey d => Ed25519PublicKey (ed_public d)
  end.

(** [public_key.encrypt(data, padding.OAEP(...))]: only an RSA key has the
    method. *)
Definition lib_rsa_encrypt (pk : PublicKey) (data : bytes) : Rand bytes :=
  match pk with
  | RSAPublicKey r =>
      fun g => match rsa_oaep_encrypt r data g with
               | (Some c, g') => (Ok c, g')
               | (None, g') => (Err (ValueError (py "Encryption failed")), g')
               end
  | _ => raise AttributeError
  end.

(** [private_key.decrypt(data, padding.OAEP(...))] *)
Definition lib_rsa_decrypt (k : PrivateKey) (data : bytes) : result bytes :=
  match k with
  | RSAPrivateKey r =>
      match rsa_oaep_decrypt r data with
      | Some p => Ok p
      | None => Err (ValueError (py "Decryption failed"))
      end
  | _ => Err AttributeError
  end.

(** [private_key.sign(data, ec.ECDSA(hashes.SHA256()))]: the two-argument
    call fits an elliptic-curve key only. *)
Definition lib_ec_sign (k : PrivateKey) (data : bytes) : Rand bytes :=
  match k with
  | ECPrivateKey e => fun g => let (sg, g') := ecdsa_sign e data g in (Ok sg, g')
  | _ => raise TypeError
  end.

(** [public_key.verify(signature, data, ec.ECDSA(hashes.SHA256()))] *)
Definition lib_ec_verify (pk : PublicKey) (sig data : bytes) : result unit :=
  match pk with
  | ECPublicKey e => if ecdsa_verify e sig data then Ok tt else Err InvalidSignature
  | _ => Err TypeError
  end.

(** [private_key.sign(data)]: the one-argument call fits an Ed25519 key only. *)
Definition lib_ed_sign (k : PrivateKey) (data : bytes) : result bytes :=
  match k with
  | Ed25519PrivateKey d => Ok (ed_sign d data)
  | _ => Err TypeError
  end.

(** [public_key.verify(signature, data)] *)
Definition lib_ed_verify (pk : PublicKey) (sig data : bytes) : result unit :=
  match pk with
  | Ed25519PublicKey d => if ed_verify d sig data then Ok tt else Err InvalidSignature
  | _ => Err TypeError
  end.

(** [hmac.compare_digest(a, b)] on bytes. *)
Definition compare_digest (a b : bytes) : bool := bytes_eqb a b.

(** *** Python's slices and [bytes.split] *)

(** [data[:n]], [data[i:j]] for [i <= j], [data[n:]]. *)
Definition slice_to (n : nat) (data : bytes) : bytes := firstn n data.
Definition slice (i j : nat) (data : bytes) : bytes := firstn (j - i) (skipn i data).
Definition slice_from (n : nat) (data : bytes) : bytes := skipn n data.

Fixpoint starts_with (sep s : bytes) : bool :=
  match sep, s with
  | [], _ => true
  | x :: sep', y :: s' => Byte.eqb x y && starts_with sep' s'
  | _ :: _, [] => false
  end.

(** [data.split(sep, 1)] for a separator that is not empty: the parts
    before and after the first occurrence of [sep], or the whole of [data]
    when there is none. *)
Fixpoint split_once (sep s : bytes) : option (bytes * bytes) :=
  if starts_with sep s then Some ([], skipn (length sep) s)
  else match s with
       | [] => None
       | x :: s' =>
           match split_once sep s' with
           | Some (a, b) => Some (x :: a, b)
           | None => None
           end
       end.

(** [a, b = data.split(sep, 1)]: unpacking a list of one element raises
    [ValueError]. *)
Definition split_unpack (sep data : bytes) : result (bytes * bytes) :=
  match split_once sep data with
  | Some ab => Ok ab
  | None => Err (ValueError (py "not enough values to unpack (expected 2, got 1)"))
  end.

(** [try: body except ValueError: handler] and
    [try: body except Exception: handler]. *)
Definition try_except_ValueError {A} (body : result A) (handler : result A) : result A :=
  match body with
  | Err (ValueError _) => handler
  | r => r
  end.

Definition try_except_Exception {A} (body : result A) (handler : result A) : result A :=
  match body with
  | Err _ => handler
  | r => r
  end.

(* ------------------------------------------------------------------------- *)
(** ** [utils/crypto.py] *)

(** The value of the module's global [MASTER_KEY] once the module is loaded
    (see [load_master_key] below for the loading). *)
Variable MASTER_KEY : bytes.

Definition unsupported_key_type {A} (key_type : pystr) : result A :=
  Err (ValueError (py "Unsupported key type: " ++ key_type)).

Definition generate_rsa (bits : nat) : Rand bytes :=
  fun g => let (k, g') := rsa_generate bits g in
           (Ok (private_bytes (RSAPrivateKey k)), g').

Definition generate_ec (c : Curve) : Rand bytes :=
  fun g => let (k, g') := ec_generate c g in
           (Ok (private_bytes (ECPrivateKey k)), g').

Definition generate_ed : Rand bytes :=
  fun g => let (k, g') := ed_generate g in
           (Ok (private_bytes (Ed25519PrivateKey k)), g').

Definition generate_key (key_type : pystr) : Rand bytes :=
  if key_type =?s py "AES128GCM" then draw 16
  else if key_type =?s py "AES256GCM" then draw 32
  else if key_type =?s py "AES256CBC" then draw 32
  else if key_type =?s py "ChaCha20Poly1305" then draw 32
  else if key_type =?s py "HMAC256" then draw 32
  else if key_type =?s py "HMAC512" then draw 64
  else if key_type =?s py "RSA2048" then generate_rsa 2048
  else if key_type =?s py "RSA4096" then generate_rsa 4096
  else if key_type =?s py "ECC256" then generate_ec SECP256R1
  else if key_type =?s py "ECC384" then generate_ec SECP384R1
  else if key_type =?s py "Ed25519" then generate_ed
  else if key_type =?s py "RSA" then generate_rsa 2048
  else lift (unsupported_key_type key_type).

Definition encrypt_key_with_master (key_data : bytes) : Rand bytes :=
  (nonce <- draw 12 ;;
   ct_tag <- lift (lib_gcm_encryptor (slice_to 32 MASTER_KEY) nonce key_data) ;;
   let (ciphertext, tag) := (ct_tag : bytes * bytes) in
   ret (nonce ++ tag ++ ciphertext))%rand.

Definition decrypt_key_with_master (encrypted_data : bytes) : result bytes :=
  let nonce := slice_to 12 encrypted_data in
  let tag := slice 12 28 encrypted_data in
  let ciphertext := slice_from 28 encrypted_data in
  lib_gcm_decryptor (slice_to 32 MASTER_KEY) nonce tag ciphertext.

Definition HMAC_MARKER : bytes := b_ "|HMAC|".
Definition ECC_MARKER : bytes := b_ "|ECC|".
Definition ED25519_MARKER : bytes := b_ "|Ed25519|".

Definition rsa_encrypt_branch (plaintext_bytes key_data : bytes) : Rand bytes :=
  (private_key <- lift (load_pem_private_key key_data) ;;
   lib_rsa_encrypt (public_key private_key) plaintext_bytes)%rand.

Definition encrypt_with_key (plaintext : pystr) (key_data : bytes) (key_type : pystr)
  : Rand bytes :=
  (plaintext_bytes <- lift (Utf8.encode plaintext) ;;
   if str_in key_type [py "AES128GCM"; py "AES256GCM"] then
     nonce <- draw 12 ;;
     ct_tag <- lift (lib_gcm_encryptor key_data nonce plaintext_bytes) ;;
     let (ciphertext, tag) := (ct_tag : bytes * bytes) in
     ret (nonce ++ tag ++ ciphertext)
   else if key_type =?s py "AES256CBC" then
     iv <- draw 16 ;;
     let padded_data := pkcs7_pad plaintext_bytes in
     ciphertext <- lift (lib_cbc true key_data iv padded_data) ;;
     ret (iv ++ ciphertext)
   else if key_type =?s py "ChaCha20Poly1305" then
     nonce <- draw 12 ;;
     ciphertext <- lift (lib_chacha_encrypt key_data nonce plaintext_bytes) ;;
     ret (nonce ++ ciphertext)
   else if str_in key_type [py "HMAC256"; py "HMAC512"] then
     let digest :=
       if key_type =?s py "HMAC256" then hmac_sha256 key_data plaintext_bytes
       else hmac_sha512 key_data plaintext_bytes in
     ret (plaintext_bytes ++ HMAC_MARKER ++ digest)
   else if str_in key_type [py "RSA2048"; py "RSA4096"] then
     rsa_encrypt_branch plaintext_bytes key_data
   else if str_in key_type [py "ECC256"; py "ECC384"] then
     private_key <- lift (load_pem_private_key key_data) ;;
     signature <- lib_ec_sign private_key plaintext_bytes ;;
     ret (plaintext_bytes ++ ECC_MARKER ++ signature)
   else if key_type =?s py "Ed25519" then
     private_key <- lift (load_pem_private_key key_data) ;;
     signature <- lift (lib_ed_sign private_key plaintext_bytes) ;;
     ret (plaintext_bytes ++ ED25519_MARKER ++ signature)
   else if key_type =?s py "RSA" then
     rsa_encrypt_branch plaintext_bytes key_data
   else lift (unsupported_key_type key_type))%rand.

Definition rsa_decrypt_branch (ciphertext key_data : bytes) : result pystr :=
  (private_key <- load_pem_private_key key_data ;;
   plaintext_bytes <- lib_rsa_decrypt private_key ciphertext ;;
   Utf8.decode plaintext_bytes)%py.

Definition decrypt_with_key (ciphertext key_data : bytes) (key_type : pystr)
  : result pystr :=
  (if str_in key_type [py "AES128GCM"; py "AES256GCM"] then
     let nonce := slice_to 12 ciphertext in
     let tag := slice 12 28 ciphertext in
     let actual_ciphertext := slice_from 28 ciphertext in
     plaintext_bytes <- lib_gcm_decryptor key_data nonce tag actual_ciphertext ;;
     Utf8.decode plaintext_bytes
   else if key_type =?s py "AES256CBC" then
     let iv := slice_to 16 ciphertext in
     let actual_ciphertext := slice_from 16 ciphertext in
     padded_plaintext <- lib_cbc false key_data iv actual_ciphertext ;;
     plaintext_bytes <- pkcs7_unpad padded_plaintext ;;
     Utf8.decode plaintext_bytes
   else if key_type =?s py "ChaCha20Poly1305" then
     let nonce := slice_to 12 ciphertext in
     let actual_ciphertext := slice_from 12 ciphertext in
     plaintext_bytes <- lib_chacha_decrypt key_data nonce actual_ciphertext ;;
     Utf8.decode plaintext_bytes
   else if str_in key_type [py "HMAC256"; py "HMAC512"] then
     parts <- try_except_ValueError (split_unpack HMAC_MARKER ciphertext)
                (Err (ValueError (py "Invalid HMAC format"))) ;;
     let (plaintext_part, hmac_part) := (parts : bytes * bytes) in
     let expected_digest :=
       if key_type =?s py "HMAC256" then hmac_sha256 key_data plaintext_part
       else hmac_sha512 key_data plaintext_part in
     if negb (compare_digest hmac_part expected_digest) then
       Err (ValueError (py "HMAC verification failed"))
     else Utf8.decode plaintext_part
   else if str_in key_type [py "RSA2048"; py "RSA4096"] then
     rsa_decrypt_branch ciphertext key_data
   else if str_in key_type [py "ECC256"; py "ECC384"] then
     parts <- try_except_ValueError (split_unpack ECC_MARKER ciphertext)
                (Err (ValueError (py "Invalid ECC signature format"))) ;;
     let (plaintext_part, signature_part) := (parts : bytes * bytes) in
     private_key <- load_pem_private_key key_data ;;
     let public_key := public_key private_key in
     try_except_Exception (lib_ec_verify public_key signature_part plaintext_part)
       (Err (ValueError (py "ECC signature verification failed"))) ;;;
     Utf8.decode plaintext_part
   else if key_type =?s py "Ed25519" then
     parts <- try_except_ValueError (split_unpack ED25519_MARKER ciphertext)
                (Err (ValueError (py "Invalid Ed25519 signature format"))) ;;
     let (plaintext_part, signature_part) := (parts : bytes * bytes) in
     private_key <- load_pem_private_key key_data ;;
     let public_key := public_key private_key in
     try_except_Exception (lib_ed_verify public_key signature_part plaintext_part)
       (Err (ValueError (py "Ed25519 signature verification failed"))) ;;;
     Utf8.decode plaintext_part
   else if key_type =?s py "RSA" then
     rsa_decrypt_branch ciphertext key_data
   else unsupported_key_type key_type)%py.

(** *** Loading the master key (the module-level statements of
    [utils/crypto.py]) *)

(** [os.environ] *)
Definition Env : Type := list (pystr * pystr).

(** [os.getenv(name)] *)
Fixpoint getenv (env : Env) (name : pystr) : option pystr :=
  match env with
  | [] => None
  | (k, v) :: env' => if k =?s name then Some v else getenv env' name
  end.

(** [os.getenv(name, default)] *)
Definition getenv_default (env : Env) (name default : pystr) : pystr :=
  match getenv env name with
  | Some v => v
  | None => default
  end.

Definition hex_digit (c : N) : option N :=
  (if (48 <=? c) && (c <=? 57) then Some (c - 48)
   else if (97 <=? c) && (c <=? 102) then Some (c - 87)
   else if (65 <=? c) && (c <=? 70) then Some (c - 55)
   else None)%N.

(** ASCII whitespace: space, tab, line feed, vertical tab, form feed,
    carriage return. *)
Definition is_ascii_space (c : N) : bool :=
  ((c =? 32) || ((9 <=? c) && (c <=? 13)))%N.

Definition fromhex_error : PyExn :=
  ValueError (py "non-hexadecimal number found in fromhex() arg").

(** [bytes.fromhex(s)]: pairs of hexadecimal digits, white space allowed
    around a pair. *)
Fixpoint fromhex (s : pystr) : result bytes :=
  match s with
  | [] => Ok []
  | c :: r =>
      if is_ascii_space c then fromhex r
      else match hex_digit c, r with
           | Some hi, d :: r' =>
               match hex_digit d with
               | Some lo =>
                   match fromhex r' with
                   | Ok rest => Ok (byte_of_N (hi * 16 + lo) :: rest)
                   | Err e => Err e
                   end
               | None => Err fromhex_error
               end
           | _, _ => Err fromhex_error
           end
  end.

Definition load_master_key (env : Env) : result bytes :=
  match getenv env (py "MASTER_KEY") with
  | None => Err (ValueError (py "MASTER_KEY environment variable must be set"))
  | Some [] => Err (ValueError (py "MASTER_KEY environment variable must be set"))
  | Some MASTER_KEY_str =>
      (MASTER_KEY' <-
         match fromhex MASTER_KEY_str with
         | Ok b => Ok b
         | Err (ValueError _) =>
             encoded <- Utf8.encode MASTER_KEY_str ;; Ok (slice_to 32 encoded)
         | Err e => Err e
         end ;;
       if length MASTER_KEY' <? 32 then
         Err (ValueError (py "MASTER_KEY must be at least 32 bytes"))
       else Ok MASTER_KEY')%py
  end.

(** The module-level statement of [utils/audit.py]. *)
Definition AUDIT_SECRET_default : pystr := py "audit-secret-key-change-this".

Definition load_audit_secret (env : Env) : pystr :=
  getenv_default env (py "AUDIT_SECRET") AUDIT_SECRET_default.

Record Config : Type := {
  cfg_MASTER_KEY : bytes;
  cfg_AUDIT_SECRET : pystr
}.

(** Importing the application: [utils/crypto.py] and [utils/audit.py] run
    their module-level statements; an exception there ends the process
    before any request is served. *)
Definition startup (env : Env) : result Config :=
  (mk <- load_master_key env ;;
   Ok {| cfg_MASTER_KEY := mk; cfg_AUDIT_SECRET := load_audit_secret env |})%py.

(* ------------------------------------------------------------------------- *)
(** ** [db.py]: the rows *)

(** A [datetime]: microseconds since 0001-01-01T00:00:00.  Python's range
    ends with year 9999. *)
Definition datetime : Type := Z.

Definition MICROS_PER_DAY : Z := 86400000000.
Definition DATETIME_END : Z := 3652059 * MICROS_PER_DAY.

Definition valid_datetime (t : datetime) : Prop := (0 <= t < DATETIME_END)%Z.

Definition datetime_in_range (t : Z) : bool :=
  ((0 <=? t) && (t <? DATETIME_END))%Z.

Record CryptoKey : Type := {
  id : Z;
  name : pystr;
  key_type : pystr;
  encrypted_key : bytes;
  key_version : Z;
  is_active : bool;
  is_revoked : bool;
  created_by : Z;
  created_at : datetime;
  rotated_at : option datetime;
  revoked_at : option datetime
}.

Record AuditLog : Type := {
  log_id : Z;
  user_id : option Z;
  action : pystr;
  resource_type : pystr;
  resource_id : option pystr;
  ip_address : pystr;
  user_agent : option pystr;
  status : pystr;
  details : option pystr;
  hmac_signature : pystr;
  timestamp : datetime
}.

(* ------------------------------------------------------------------------- *)
(** ** [utils/rotation.py]: the rotation-due predicate *)

(** [timedelta(days=n)]: at most 999999999 days either way. *)
Definition timedelta_days (n : Z) : result Z :=
  if ((-999999999 <=? n) && (n <=? 999999999))%Z then Ok (n * MICROS_PER_DAY)%Z
  else Err OverflowError.

(** [t - delta] on a [datetime]. *)
Definition datetime_sub (t : datetime) (delta : Z) : result datetime :=
  let r := (t - delta)%Z in
  if datetime_in_range r then Ok r else Err OverflowError.

(** [should_rotate_key(key, rotation_days)], at the instant [now] that
    [datetime.utcnow()] returns. *)
Definition should_rotate_key (now : datetime) (key : CryptoKey) (rotation_days : Z)
  : result bool :=
  if is_revoked key || negb (is_active key) then Ok false
  else
    let last_rotation :=
      match rotated_at key with
      | Some t => t
      | None => created_at key
      end in
    (delta <- timedelta_days rotation_days ;;
     rotation_threshold <- datetime_sub now delta ;;
     Ok (last_rotation <? rotation_threshold)%Z)%py.

(* ------------------------------------------------------------------------- *)
(** ** [utils/audit.py] *)

(** The values of the dictionary that is signed. *)
Inductive json : Type :=
| JNull
| JInt (n : Z)
| JStr (s : pystr).

Definition hex_char (n : N) : N := (if n <? 10 then 48 + n else 87 + n)%N.

(** ["\\u{0:04x}".format(c)] *)
Definition u_escape (c : N) : pystr :=
  [92; 117; hex_char (c / 4096 mod 16); hex_char (c / 256 mod 16);
   hex_char (c / 16 mod 16); hex_char (c mod 16)]%N.

(** One character of [json.encoder.encode_basestring_ascii]. *)
Definition json_escape_char (c : N) : pystr :=
  (if c =? 34 then [92; 34]
   else if c =? 92 then [92; 92]
   else if c =? 10 then [92; 110]
   else if c =? 13 then [92; 114]
   else if c =? 9 then [92; 116]
   else if c =? 12 then [92; 102]
   else if c =? 8 then [92; 98]
   else if (32 <=? c) && (c <=? 126) then [c]
   else if c <? 0x10000 then u_escape c
   else
     let v := c - 0x10000 in
     u_escape (0xD800 + (v / 1024) mod 1024) ++ u_escape (0xDC00 + v mod 1024))%N.

Definition json_string (s : pystr) : pystr :=
  [34%N] ++ flat_map json_escape_char s ++ [34%N].

Fixpoint uint_digits (d : Decimal.uint) : pystr :=
  match d with
  | Decimal.Nil => []
  | Decimal.D0 d' => 48%N :: uint_digits d'
  | Decimal.D1 d' => 49%N :: uint_digits d'
  | Decimal.D2 d' => 50%N :: uint_digits d'
  | Decimal.D3 d' => 51%N :: uint_digits d'
  | Decimal.D4 d' => 52%N :: uint_digits d'
  | Decimal.D5 d' => 53%N :: uint_digits d'
  | Decimal.D6 d' => 54%N :: uint_digits d'
  | Decimal.D7 d' => 55%N :: uint_digits d'
  | Decimal.D8 d' => 56%N :: uint_digits d'
  | Decimal.D9 d' => 57%N :: uint_digits d'
  end.

(** [str(n)] for an [int]. *)
Definition str_of_int (n : Z) : pystr :=
  match n with
  | Z0 => [48%N]
  | Zpos p => uint_digits (Pos.to_uint p)
  | Zneg p => 45%N :: uint_digits (Pos.to_uint p)
  end.

Definition json_value (v : json) : pystr :=
  match v with
  | JNull => py "null"
  | JInt n => str_of_int n
  | JStr s => json_string s
  end.

(** The order of [str] values: by code points, a prefix first. *)
Fixpoint pystr_leb (a b : pystr) : bool :=
  match a, b with
  | [], _ => true
  | _ :: _, [] => false
  | x :: a', y :: b' => (x <? y)%N || ((x =? y)%N && pystr_leb a' b')
  end.

Fixpoint insert_item (kv : pystr * json) (l : list (pystr * json)) : list (pystr * json) :=
  match l with
  | [] => [kv]
  | kv' :: l' =>
      if pystr_leb (fst kv) (fst kv') then kv :: l else kv' :: insert_item kv l'
  end.

(** [sorted(d.items())] for a dictionary given by its items. *)
Definition sort_items (l : list (pystr * json)) : list (pystr * json) :=
  fold_right insert_item [] l.

Fixpoint join (sep : pystr) (l : list pystr) : pystr :=
  match l with
  | [] => []
  | [x] => x
  | x :: l' => x ++ sep ++ join sep l'
  end.

(** [json.dumps(d, sort_keys=True, separators=(',', ':'))] for a dictionary
    with string keys, given by its items. *)
Definition json_dumps (d : list (pystr * json)) : pystr :=
  py "{" ++
  join (py ",")
    (map (fun kv => json_string (fst kv) ++ py ":" ++ json_value (snd kv)) (sort_items d))
  ++ py "}".

(** [digest.hex()] *)
Definition hexdigest (b : bytes) : pystr :=
  flat_map (fun x => [hex_char (byte_val x / 16); hex_char (byte_val x mod 16)]%N) b.

(** The value of the module's global [AUDIT_SECRET]. *)
Variable AUDIT_SECRET : pystr.

Definition calculate_hmac (log_data : list (pystr * json)) : result pystr :=
  let canonical_data := json_dumps log_data in
  (key <- Utf8.encode AUDIT_SECRET ;;
   msg <- Utf8.encode canonical_data ;;
   Ok (hexdigest (hmac_sha256 key msg)))%py.

(** [timestamp.isoformat()], a function of the standard library. *)
Variable isoformat : datetime -> pystr.

Definition opt_int (o : option Z) : json :=
  match o with Some n => JInt n | None => JNull end.
Definition opt_str (o : option pystr) : json :=
  match o with Some s => JStr s | None => JNull end.

(** The dictionary [log_data] that [log_audit] and [verify_audit_log] build. *)
Definition log_data_of (user_id' : option Z) (action' resource_type' : pystr)
    (resource_id' : option pystr) (ip_address' status' : pystr)
    (details' user_agent' : option pystr) (timestamp' : datetime)
  : list (pystr * json) :=
  [ (py "user_id", opt_int user_id');
    (py "action", JStr action');
    (py "resource_type", JStr resource_type');
    (py "resource_id", opt_str resource_id');
    (py "ip_address", JStr ip_address');
    (py "status", JStr status');
    (py "details", opt_str details');
    (py "user_agent", opt_str user_agent');
    (py "timestamp", JStr (isoformat timestamp')) ].

(** [hmac.compare_digest(a, b)] on [str]: both must be ASCII. *)
Definition is_ascii (s : pystr) : bool := forallb (fun c => (c <? 128)%N) s.

Definition compare_digest_str (a b : pystr) : result bool :=
  if is_ascii a && is_ascii b then Ok (a =?s b) else Err TypeError.

Definition verify_audit_log (log : AuditLog) : result bool :=
  let log_data :=
    log_data_of (user_id log) (action log) (resource_type log) (resource_id log)
      (ip_address log) (status log) (details log) (user_agent log) (timestamp log) in
  (expected_signature <- calculate_hmac log_data ;;
   compare_digest_str expected_signature (hmac_signature log))%py.

(* ------------------------------------------------------------------------- *)
(** ** The state the request handlers run in *)

(** The random source, the clock (the instants that successive calls of
    [datetime.utcnow()] return), and the two tables with their id sequences. *)
Record World : Type := {
  rng : RNG;
  clock : nat -> datetime;
  tick : nat;
  crypto_keys : list CryptoKey;
  key_seq : Z;
  audit_logs : list AuditLog;
  log_seq : Z
}.

Definition set_rng (g : RNG) (w : World) : World :=
  {| rng := g; clock := clock w; tick := tick w; crypto_keys := crypto_keys w;
     key_seq := key_seq w; audit_logs := audit_logs w; log_seq := log_seq w |}.

Definition set_tick (n : nat) (w : World) : World :=
  {| rng := rng w; clock := clock w; tick := n; crypto_keys := crypto_keys w;
     key_seq := key_seq w; audit_logs := audit_logs w; log_seq := log_seq w |}.

Definition set_crypto_keys (l : list CryptoKey) (w : World) : World :=
  {| rng := rng w; clock := clock w; tick := tick w; crypto_keys := l;
     key_seq := key_seq w; audit_logs := audit_logs w; log_seq := log_seq w |}.

Definition set_key_seq (n : Z) (w : World) : World :=
  {| rng := rng w; clock := clock w; tick := tick w; crypto_keys := crypto_keys w;
     key_seq := n; audit_logs := audit_logs w; log_seq := log_seq w |}.

Definition add_audit_log (l : AuditLog) (w : World) : World :=
  {| rng := rng w; clock := clock w; tick := tick w; crypto_keys := crypto_keys w;
     key_seq := key_seq w; audit_logs := audit_logs w ++ [l];
     log_seq := (log_seq w + 1)%Z |}.

(** Stateful code that may raise. *)
Definition E (A : Type) : Type := World -> result A * World.

Definition retE {A} (a : A) : E A := fun w => (Ok a, w).
Definition bindE {A B} (m : E A) (k : A -> E B) : E B :=
  fun w => match m w with
           | (Ok a, w') => k a w'
           | (Err e, w') => (Err e, w')
           end.
Definition liftE {A} (r : result A) : E A := fun w => (r, w).

(** Running a computation on the world's random source. *)
Definition randE {A} (m : Rand A) : E A :=
  fun w => let (r, g) := m (rng w) in (r, set_rng g w).

(** [datetime.utcnow()] *)
Definition utcnow : E datetime :=
  fun w => (Ok (clock w (tick w)), set_tick (S (tick w)) w).

Declare Scope e_scope.
Delimit Scope e_scope with E.
Notation "x <- e ;; k" := (bindE e (fun x => k))
  (at level 61, e at next level, right associativity) : e_scope.
Notation "e ;;; k" := (bindE e (fun _ => k))
  (at level 61, right associativity) : e_scope.

(** [db.query(CryptoKey).filter(CryptoKey.id == key_id).first()] *)
Definition find_key (key_id : Z) (keys : list CryptoKey) : option CryptoKey :=
  find (fun k => (id k =? key_id)%Z) keys.

(** Committing the changed attributes of the row object [k]: the row with
    its id is replaced. *)
Fixpoint update_key (k : CryptoKey) (keys : list CryptoKey) : list CryptoKey :=
  match keys with
  | [] => []
  | k' :: keys' =>
      if (id k' =? id k)%Z then k :: keys' else k' :: update_key k keys'
  end.

Definition commit_key (k : CryptoKey) : E unit :=
  fun w => (Ok tt, set_crypto_keys (update_key k (crypto_keys w)) w).

(** [db.delete(db_key); db.commit()] *)
Fixpoint remove_key (key_id : Z) (keys : list CryptoKey) : list CryptoKey :=
  match keys with
  | [] => []
  | k' :: keys' =>
      if (id k' =? key_id)%Z then keys' else k' :: remove_key key_id keys'
  end.

Definition log_audit (user_id' : option Z) (action' resource_type' : pystr)
    (resource_id' : option pystr) (ip_address' status' : pystr)
    (details' user_agent' : option pystr) : E unit :=
  (timestamp' <- utcnow ;;
   let log_data :=
     log_data_of user_id' action' resource_type' resource_id' ip_address' status'
       details' user_agent' timestamp' in
   hmac_signature' <- liftE (calculate_hmac log_data) ;;
   fun w =>
     let audit_log :=
       {| log_id := log_seq w; user_id := user_id'; action := action';
          resource_type := resource_type'; resource_id := resource_id';
          ip_address := ip_address'; user_agent := user_agent'; status := status';
          details := details'; hmac_signature := hmac_signature';
          timestamp := timestamp' |} in
     (Ok tt, add_audit_log audit_log w))%E.

(* ------------------------------------------------------------------------- *)
(** ** [utils/rotation.py]: rotating *)

Definition with_rotation (k : CryptoKey) (encrypted_key' : bytes) (now : datetime)
  : CryptoKey :=
  {| id := id k; name := name k; key_type := key_type k;
     encrypted_key := encrypted_key'; key_version := (key_version k + 1)%Z;
     is_active := is_active k; is_revoked := is_revoked k;
     created_by := created_by k; created_at := created_at k;
     rotated_at := Some now; revoked_at := revoked_at k |}.

(** The statements that [rotate_key_if_needed] and the handler [rotate_key]
    share: new material, its wrap, the three assignments and the commit. *)
Definition rotate_row (key : CryptoKey) : E CryptoKey :=
  (raw_key <- randE (generate_key (key_type key)) ;;
   encrypted_key' <- randE (encrypt_key_with_master raw_key) ;;
   now <- utcnow ;;
   let key' := with_rotation key encrypted_key' now in
   commit_key key' ;;;
   retE key')%E.

Definition rotate_key_if_needed (key : CryptoKey) (rotation_days : Z) : E bool :=
  (now <- utcnow ;;
   due <- liftE (should_rotate_key now key rotation_days) ;;
   if negb due then retE false
   else
     (* try: ... except Exception: db.rollback(); return False *)
     fun w => match rotate_row key w with
              | (Ok _, w') => (Ok true, w')
              | (Err _, w') => (Ok false, set_crypto_keys (crypto_keys w) w')
              end)%E.

Fixpoint rotate_each (keys : list CryptoKey) (rotation_days : Z) (rotated_count : Z)
  : E Z :=
  match keys with
  | [] => retE rotated_count
  | key :: keys' =>
      (rotated <- rotate_key_if_needed key rotation_days ;;
       rotate_each keys' rotation_days
         (if rotated then rotated_count + 1 else rotated_count)%Z)%E
  end.

Definition auto_rotate_keys (rotation_days : Z) : E Z :=
  fun w =>
    let keys_to_rotate :=
      filter (fun k => is_active k && negb (is_revoked k)) (crypto_keys w) in
    rotate_each keys_to_rotate rotation_days 0%Z w.

(* ------------------------------------------------------------------------- *)
(** ** The request handlers: [routers/keys.py] and [routers/encrypt.py] *)

(** What a handler ends with: its response, an [HTTPException], or an
    exception nothing handles. *)
Inductive outcome (A : Type) : Type :=
| Resp (a : A)
| HTTPException (status_code : Z) (detail : pystr)
| Unhandled (e : PyExn).
Arguments Resp {A} a.
Arguments HTTPException {A} status_code detail.
Arguments Unhandled {A} e.

Definition H (A : Type) : Type := World -> outcome A * World.

Definition retH {A} (a : A) : H A := fun w => (Resp a, w).
Definition raiseH {A} (status_code : Z) (detail : pystr) : H A :=
  fun w => (HTTPException status_code detail, w).
Definition bindH {A B} (m : H A) (k : A -> H B) : H B :=
  fun w => match m w with
           | (Resp a, w') => k a w'
           | (HTTPException c d, w') => (HTTPException c d, w')
           | (Unhandled e, w') => (Unhandled e, w')
           end.

(** Code outside any [try]: an exception is not handled. *)
Definition liftH {A} (m : E A) : H A :=
  fun w => match m w with
           | (Ok a, w') => (Resp a, w')
           | (Err e, w') => (Unhandled e, w')
           end.

(** [try: body except Exception as e: handler(e)] *)
Definition try_except {A} (body : E A) (handler : PyExn -> H A) : H A :=
  fun w => match body w with
           | (Ok a, w') => (Resp a, w')
           | (Err e, w') => handler e w'
           end.

Declare Scope h_scope.
Delimit Scope h_scope with H.
Notation "x <- e ;; k" := (bindH e (fun x => k))
  (at level 61, e at next level, right associativity) : h_scope.
Notation "e ;;; k" := (bindH e (fun _ => k))
  (at level 61, right associativity) : h_scope.

(** [utils/jwt_auth.py] is not part of the sources at hand: the two
    functions the handlers call are parameters.  [verify_token] gives the
    [sub] (as an [int]) and the [role] of the token; [require_role] raises
    or returns. *)
Variable verify_token : pystr -> outcome (Z * pystr).
Variable require_role : pystr -> list pystr -> outcome unit.

Definition pureH {A} (o : outcome A) : H A := fun w => (o, w).

(** [base64.b64encode] and [base64.b64decode], of the standard library. *)
Variable b64encode : bytes -> bytes.
Variable b64decode : pystr -> result bytes.

Record KeyResponse : Type := {
  r_id : Z;
  r_name : pystr;
  r_key_type : pystr;
  r_key_version : Z;
  r_is_active : bool;
  r_is_revoked : bool;
  r_created_by : Z;
  r_created_at : datetime;
  r_rotated_at : option datetime;
  r_revoked_at : option datetime
}.

Definition key_response (k : CryptoKey) : KeyResponse :=
  {| r_id := id k; r_name := name k; r_key_type := key_type k;
     r_key_version := key_version k; r_is_active := is_active k;
     r_is_revoked := is_revoked k; r_created_by := created_by k;
     r_created_at := created_at k; r_rotated_at := rotated_at k;
     r_revoked_at := revoked_at k |}.

Definition LOCALHOST : pystr := py "127.0.0.1".

Definition audit (user_id' : Z) (action' resource_type' : pystr)
    (resource_id' : option pystr) (status' : pystr) : E unit :=
  log_audit (Some user_id') action' resource_type' resource_id' LOCALHOST status'
    None None.

Definition supported_key_types : list pystr :=
  [ py "AES128GCM"; py "AES256GCM"; py "AES256CBC"; py "ChaCha20Poly1305";
    py "RSA"; py "RSA2048"; py "RSA4096";
    py "ECC256"; py "ECC384"; py "Ed25519";
    py "HMAC256"; py "HMAC512" ].

(** [db.add(db_key); db.commit(); db.refresh(db_key)]: the id comes from the
    table's sequence, the other columns from their defaults. *)
Definition insert_key (name' key_type' : pystr) (encrypted_key' : bytes)
    (created_by' : Z) : E CryptoKey :=
  (now <- utcnow ;;
   fun w =>
     let db_key :=
       {| id := key_seq w; name := name'; key_type := key_type';
          encrypted_key := encrypted_key'; key_version := 1;
          is_active := true; is_revoked := false; created_by := created_by';
          created_at := now; rotated_at := None; revoked_at := None |} in
     (Ok db_key,
      set_key_seq (key_seq w + 1)%Z (set_crypto_keys (crypto_keys w ++ [db_key]) w)))%E.

Definition create_key (name' key_type' credentials : pystr) : H KeyResponse :=
  (token_data <- pureH (verify_token credentials) ;;
   let (user_id', user_role) := (token_data : Z * pystr) in
   pureH (require_role user_role [py "admin"]) ;;;
   if negb (str_in key_type' supported_key_types) then
     raiseH 400 (py "Invalid key type. Supported types: "
                 ++ join (py ", ") supported_key_types)
   else
     try_except
       (raw_key <- randE (generate_key key_type') ;;
        encrypted_key' <- randE (encrypt_key_with_master raw_key) ;;
        db_key <- insert_key name' key_type' encrypted_key' user_id' ;;
        audit user_id' (py "create_key") (py "key") (Some (str_of_int (id db_key)))
          (py "success") ;;;
        retE (key_response db_key))%E
       (fun e =>
          liftH (audit user_id' (py "create_key") (py "key") None (py "failure")) ;;;
          raiseH 500 (py "Failed to create key: " ++ exn_str e)))%H.

Definition rotate_key (key_id : Z) (credentials : pystr) : H KeyResponse :=
  (token_data <- pureH (verify_token credentials) ;;
   let (user_id', user_role) := (token_data : Z * pystr) in
   pureH (require_role user_role [py "admin"]) ;;;
   fun w =>
     match find_key key_id (crypto_keys w) with
     | None => raiseH 404 (py "Key not found") w
     | Some db_key =>
         if is_revoked db_key then raiseH 400 (py "Cannot rotate a revoked key") w
         else
           try_except
             (db_key' <- rotate_row db_key ;;
              audit user_id' (py "rotate_key") (py "key") (Some (str_of_int key_id))
                (py "success") ;;;
              retE (key_response db_key'))%E
             (fun e =>
                liftH (audit user_id' (py "rotate_key") (py "key")
                         (Some (str_of_int key_id)) (py "failure")) ;;;
                raiseH 500 (py "Failed to rotate key: " ++ exn_str e))
             w
     end)%H.

Definition with_revocation (k : CryptoKey) (now : datetime) : CryptoKey :=
  {| id := id k; name := name k; key_type := key_type k;
     encrypted_key := encrypted_key k; key_version := key_version k;
     is_active := false; is_revoked := true;
     created_by := created_by k; created_at := created_at k;
     rotated_at := rotated_at k; revoked_at := Some now |}.

Definition revoke_key (key_id : Z) (credentials : pystr) : H KeyResponse :=
  (token_data <- pureH (verify_token credentials) ;;
   let (user_id', user_role) := (token_data : Z * pystr) in
   pureH (require_role user_role [py "admin"]) ;;;
   fun w =>
     match find_key key_id (crypto_keys w) with
     | None => raiseH 404 (py "Key not found") w
     | Some db_key =>
         liftH
           (now <- utcnow ;;
            let db_key' := with_revocation db_key now in
            commit_key db_key' ;;;
            audit user_id' (py "revoke_key") (py "key") (Some (str_of_int key_id))
              (py "success") ;;;
            retE (key_response db_key'))%E
           w
     end)%H.

Definition delete_key (key_id : Z) (credentials : pystr) : H unit :=
  (token_data <- pureH (verify_token credentials) ;;
   let (user_id', user_role) := (token_data : Z * pystr) in
   pureH (require_role user_role [py "admin"]) ;;;
   fun w =>
     match find_key key_id (crypto_keys w) with
     | None => raiseH 404 (py "Key not found") w
     | Some db_key =>
         liftH
           (audit user_id' (py "delete_key") (py "key") (Some (str_of_int key_id))
              (py "success"))
           (set_crypto_keys (remove_key key_id (crypto_keys w)) w)
     end)%H.

(** [list_keys]: any authenticated user; [db.query(CryptoKey).all()] gives
    the rows in the order of the table. *)
Definition list_keys (credentials : pystr) : H (list KeyResponse) :=
  (token_data <- pureH (verify_token credentials) ;;
   let user_id' := fst (token_data : Z * pystr) in
   fun w =>
     let keys := crypto_keys w in
     (liftH (audit user_id' (py "list_keys") (py "key") None (py "success")) ;;;
      retH (map key_response keys)) w)%H.

Record EncryptResponse : Type := {
  e_ciphertext : pystr;
  e_key_id : Z;
  e_key_version : Z
}.

Record DecryptResponse : Type := {
  d_plaintext : pystr;
  d_key_id : Z;
  d_key_version : Z
}.

(** The lifecycle test of [encrypt_data]. *)
Definition encrypt_refused (db_key : CryptoKey) : bool :=
  negb (is_active db_key) || is_revoked db_key.

(** The lifecycle test of [decrypt_data]. *)
Definition decrypt_refused (db_key : CryptoKey) : bool :=
  negb (is_active db_key) && negb (is_revoked db_key).

Definition encrypt_data (key_id : Z) (plaintext credentials : pystr)
  : H EncryptResponse :=
  (token_data <- pureH (verify_token credentials) ;;
   let user_id' := fst (token_data : Z * pystr) in
   let rid := Some (str_of_int key_id) in
   fun w =>
     match find_key key_id (crypto_keys w) with
     | None =>
         (liftH (audit user_id' (py "encrypt") (py "data") rid (py "failure")) ;;;
          raiseH 404 (py "Key not found")) w
     | Some db_key =>
         if encrypt_refused db_key then
           (liftH (audit user_id' (py "encrypt") (py "data") rid (py "failure")) ;;;
            raiseH 400 (py "Key is not active or has been revoked")) w
         else
           try_except
             (raw_key <- liftE (decrypt_key_with_master (encrypted_key db_key)) ;;
              ciphertext <- randE (encrypt_with_key plaintext raw_key (key_type db_key)) ;;
              audit user_id' (py "encrypt") (py "data") rid (py "success") ;;;
              text <- liftE (Utf8.decode (b64encode ciphertext)) ;;
              retE {| e_ciphertext := text; e_key_id := id db_key;
                      e_key_version := key_version db_key |})%E
             (fun e =>
                liftH (audit user_id' (py "encrypt") (py "data") rid (py "failure")) ;;;
                raiseH 500 (py "Encryption failed: " ++ exn_str e))
             w
     end)%H.

Definition decrypt_data (key_id : Z) (ciphertext credentials : pystr)
  : H DecryptResponse :=
  (token_data <- pureH (verify_token credentials) ;;
   let user_id' := fst (token_data : Z * pystr) in
   let rid := Some (str_of_int key_id) in
   fun w =>
     match find_key key_id (crypto_keys w) with
     | None =>
         (liftH (audit user_id' (py "decrypt") (py "data") rid (py "failure")) ;;;
          raiseH 404 (py "Key not found")) w
     | Some db_key =>
         if decrypt_refused db_key then
           (liftH (audit user_id' (py "decrypt") (py "data") rid (py "failure")) ;;;
            raiseH 400 (py "Key is not available")) w
         else
           try_except
             (raw_key <- liftE (decrypt_key_with_master (encrypted_key db_key)) ;;
              ciphertext_bytes <- liftE (b64decode ciphertext) ;;
              plaintext <- liftE (decrypt_with_key ciphertext_bytes raw_key
                                    (key_type db_key)) ;;
              audit user_id' (py "decrypt") (py "data") rid (py "success") ;;;
              retE {| d_plaintext := plaintext; d_key_id := id db_key;
                      d_key_version := key_version db_key |})%E
             (fun e =>
                liftH (audit user_id' (py "decrypt") (py "data") rid (py "failure")) ;;;
                raiseH 500 (py "Decryption failed: " ++ exn_str e))
             w
     end)%H.

End Kms.

Arguments Resp {A} a.
Arguments HTTPException {A} status_code detail.
Arguments Unhandled {A} e.

(* ------------------------------------------------------------------------- *)
(** ** A small instance of the library interface

    The laws of [CryptoLib] hold of these stand-ins, which compute: the
    properties below can be run on concrete inputs. *)

Lemma bytes_eqb_eq (a b : bytes) : bytes_eqb a b = true <-> a = b.
Proof.
  revert b; induction a as [|x a IH]; intros [|y b]; simpl; split;
    try congruence; try reflexivity.
  - intros H. apply andb_true_iff in H as [Hx Hab].
    apply Byte.byte_dec_bl in Hx. apply IH in Hab. congruence.
  - intros H. injection H as -> ->.
    apply andb_true_iff. split; [now apply Byte.byte_dec_lb | now apply IH].
Qed.

Lemma bytes_eqb_refl (a : bytes) : bytes_eqb a a = true.
Proof. now apply bytes_eqb_eq. Qed.

Lemma bytes_eqb_length (a b : bytes) :
  bytes_eqb a b = true -> length a = length b.
Proof. intros H. apply bytes_eqb_eq in H. now subst. Qed.

Lemma firstn_exact (n : nat) (l l' : bytes) : length l = n -> firstn n (l ++ l') = l.
Proof. intros <-. induction l; simpl; congruence. Qed.

Lemma skipn_exact (n : nat) (l l' : bytes) : length l = n -> skipn n (l ++ l') = l'.
Proof. intros <-. induction l; simpl; congruence. Qed.

Module Toy.

(** A checksum repeated [len] times stands in for a MAC or a tag. *)
Definition checksum (data : bytes) : byte :=
  byte_of_N (fold_right (fun b acc => (byte_val b + acc) mod 256)%N 0%N data).

Definition mac (len : nat) (key msg : bytes) : bytes :=
  repeat (checksum (key ++ msg)) len.

Definition toy_token_bytes (n : nat) (g : nat) : bytes * nat :=
  (repeat (byte_of_N (N.of_nat g)) n, S g).

Definition toy_gcm_encrypt (k n p : bytes) : bytes * bytes := (rev p, mac 16 k (n ++ rev p)).

Definition toy_gcm_decrypt (k n t c : bytes) : option bytes :=
  if bytes_eqb t (mac 16 k (n ++ c)) then Some (rev c) else None.

Definition toy_chacha_encrypt (k n p : bytes) : bytes := rev p ++ mac 16 k (n ++ rev p).

Definition toy_chacha_decrypt (k n d : bytes) : option bytes :=
  let c := firstn (length d - 16) d in
  if (16 <=? length d) && bytes_eqb (skipn (length d - 16) d) (mac 16 k (n ++ c))
  then Some (rev c) else None.

Definition generate (g : nat) : bytes * nat := toy_token_bytes 4 g.

(** An RSA key is as long as its modulus. *)
Definition toy_rsa_generate (bits : nat) (g : nat) : bytes * nat :=
  toy_token_bytes (bits / 8) g.

Definition toy_private_bytes (k : PrivateKeyOf bytes bytes bytes) : bytes :=
  match k with
  | RSAPrivateKey s => "R"%byte :: s
  | ECPrivateKey s => "E"%byte :: s
  | Ed25519PrivateKey s => "D"%byte :: s
  end.

Definition toy_pem_parse (data : bytes) : option (PrivateKeyOf bytes bytes bytes) :=
  match data with
  | t :: s =>
      if Byte.eqb t "R"%byte then Some (RSAPrivateKey s)
      else if Byte.eqb t "E"%byte then Some (ECPrivateKey s)
      else if Byte.eqb t "D"%byte then Some (Ed25519PrivateKey s)
      else None
  | [] => None
  end.

Definition toy_rsa_oaep_encrypt (pk m : bytes) (g : nat) : option bytes * nat :=
  if length m + 66 <=? length pk then (Some (rev m), S g) else (None, g).

Definition toy_ecdsa_sign (k m : bytes) (g : nat) : bytes * nat :=
  (x30 :: mac 7 k m, S g).

Definition toy_ecdsa_verify (pk sg m : bytes) : bool := bytes_eqb sg (x30 :: mac 7 pk m).

Definition toy_ed_verify (pk sg m : bytes) : bool := bytes_eqb sg (mac 64 pk m).

Lemma mac_length len k m : length (mac len k m) = len.
Proof. apply repeat_length. Qed.

Lemma toy_gcm_decrypt_encrypt k n p :
  toy_gcm_decrypt k n (snd (toy_gcm_encrypt k n p)) (fst (toy_gcm_encrypt k n p)) = Some p.
Proof.
  unfold toy_gcm_decrypt, toy_gcm_encrypt; cbn [fst snd].
  now rewrite bytes_eqb_refl, rev_involutive.
Qed.

Lemma toy_chacha_decrypt_encrypt k n p :
  toy_chacha_decrypt k n (toy_chacha_encrypt k n p) = Some p.
Proof.
  unfold toy_chacha_decrypt, toy_chacha_encrypt.
  rewrite length_app, mac_length.
  replace (length (rev p) + 16 - 16) with (length (rev p)) by lia.
  rewrite firstn_exact, skipn_exact by reflexivity.
  rewrite bytes_eqb_refl, rev_involutive.
  now replace (16 <=? length (rev p) + 16) with true
    by (symmetry; apply Nat.leb_le; lia).
Qed.

Lemma toy_rsa_oaep_capacity (pk m : bytes) (g : nat) c g' :
  toy_rsa_oaep_encrypt pk m g = (Some c, g') -> length m + 66 <= length pk.
Proof.
  unfold toy_rsa_oaep_encrypt.
  destruct (length m + 66 <=? length pk) eqn:E; [|discriminate].
  intros _. now apply Nat.leb_le.
Qed.

Lemma toy_rsa_oaep_decrypt_encrypt (k m : bytes) (g : nat) c g' :
  toy_rsa_oaep_encrypt k m g = (Some c, g') -> Some (rev c) = Some m.
Proof.
  unfold toy_rsa_oaep_encrypt.
  destruct (length m + 66 <=? length k); [|discriminate].
  intros [= <- _]. now rewrite rev_involutive.
Qed.

Lemma toy_pem_parse_private_bytes k : toy_pem_parse (toy_private_bytes k) = Some k.
Proof. now destruct k. Qed.

Lemma toy_ecdsa_verify_der pk sg m :
  toy_ecdsa_verify pk sg m = true -> exists rest, sg = x30 :: rest.
Proof. intros H. apply bytes_eqb_eq in H. eauto. Qed.

Lemma toy_ed_verify_length pk sg m : toy_ed_verify pk sg m = true -> length sg = 64.
Proof.
  intros H. apply bytes_eqb_length in H. now rewrite mac_length in H.
Qed.

Definition lib : CryptoLib :=
  {| RNG := nat;
     token_bytes := toy_token_bytes;
     token_bytes_length := fun n g => repeat_length _ n;
     gcm_encrypt := toy_gcm_encrypt;
     gcm_decrypt := toy_gcm_decrypt;
     gcm_tag_length := fun k n p => mac_length 16 k (n ++ rev p);
     gcm_decrypt_encrypt := toy_gcm_decrypt_encrypt;
     cbc_encrypt := fun k iv d => rev d;
     cbc_decrypt := fun k iv d => rev d;
     cbc_encrypt_length := fun k iv d => length_rev d;
     cbc_decrypt_encrypt := fun k iv d _ => rev_involutive d;
     chacha_encrypt := toy_chacha_encrypt;
     chacha_decrypt := toy_chacha_decrypt;
     chacha_decrypt_encrypt := toy_chacha_decrypt_encrypt;
     hmac_sha256 := mac 32;
     hmac_sha512 := mac 64;
     hmac_sha256_length := mac_length 32;
     hmac_sha512_length := mac_length 64;
     RSAKey := bytes; ECKey := bytes; EdKey := bytes;
     RSAPub := bytes; ECPub := bytes; EdPub := bytes;
     rsa_generate := toy_rsa_generate;
     ec_generate := fun _ g => generate g;
     ed_generate := generate;
     rsa_public := fun k => k;
     ec_public := fun k => k;
     ed_public := fun k => k;
     private_bytes := toy_private_bytes;
     pem_parse := toy_pem_parse;
     pem_parse_private_bytes := toy_pem_parse_private_bytes;
     rsa_modulus_bytes := fun pk => length pk;
     rsa_generate_modulus := fun bits g => repeat_length _ (bits / 8);
     rsa_oaep_encrypt := toy_rsa_oaep_encrypt;
     rsa_oaep_decrypt := fun k c => Some (rev c);
     rsa_oaep_capacity := toy_rsa_oaep_capacity;
     rsa_oaep_decrypt_encrypt := toy_rsa_oaep_decrypt_encrypt;
     ecdsa_sign := toy_ecdsa_sign;
     ecdsa_verify := toy_ecdsa_verify;
     ecdsa_verify_sign := fun k m g => bytes_eqb_refl (x30 :: mac 7 k m);
     ecdsa_verify_der := toy_ecdsa_verify_der;
     ed_sign := mac 64;
     ed_verify := toy_ed_verify;
     ed_verify_sign := fun k m => bytes_eqb_refl (mac 64 k m);
     ed_sign_length := mac_length 64;
     ed_verify_length := toy_ed_verify_length |}.

(** A master key of 32 bytes, an audit secret, and stand-ins for the
    functions of the standard library and of [utils/jwt_auth.py]. *)
Definition MASTER_KEY : bytes := repeat "k"%byte 32.
Definition AUDIT_SECRET : pystr := py "audit-secret".
Definition isoformat (t : datetime) : pystr := str_of_int t.
Definition verify_token (credentials : pystr) : outcome (Z * pystr) :=
  if credentials =?s py "admin-token" then Resp (1%Z, py "admin")
  else if credentials =?s py "user-token" then Resp (2%Z, py "user")
  else HTTPException 401 (py "Invalid token").
Definition require_role (role : pystr) (allowed : list pystr) : outcome unit :=
  if str_in role allowed then Resp tt
  else HTTPException 403 (py "Insufficient permissions").
Definition b64encode (b : bytes) : bytes := b.
Definition b64decode (s : pystr) : result bytes := Utf8.encode s.

End Toy.

(* ------------------------------------------------------------------------- *)
(** ** Definitions for the statements, and sample data *)

(** The algorithm tags whose sealed form is the plaintext, a marker and a
    proof (a MAC or a signature). *)
Definition proof_families : list pystr :=
  [py "HMAC256"; py "HMAC512"; py "ECC256"; py "ECC384"; py "Ed25519"].

Definition marker_of (key_type : pystr) : bytes :=
  if str_in key_type [py "HMAC256"; py "HMAC512"] then HMAC_MARKER
  else if str_in key_type [py "ECC256"; py "ECC384"] then ECC_MARKER
  else ED25519_MARKER.

(** The message of the [ValueError] that [decrypt_with_key] raises when the
    proof does not verify. *)
Definition verification_failed (key_type : pystr) : pystr :=
  if str_in key_type [py "HMAC256"; py "HMAC512"] then py "HMAC verification failed"
  else if str_in key_type [py "ECC256"; py "ECC384"]
       then py "ECC signature verification failed"
  else py "Ed25519 signature verification failed".

(** Whether a buffer starts as a DER SEQUENCE does. *)
Definition der_like (b : bytes) : bool :=
  match b with
  | x :: _ => Byte.eqb x x30
  | [] => false
  end.

Definition hmac_of {L : CryptoLib} (key_type : pystr) : bytes -> bytes -> bytes :=
  if key_type =?s py "HMAC256" then hmac_sha256 else hmac_sha512.


(** The plaintext that is the marker itself. *)
Definition marker_text (key_type : pystr) : pystr :=
  if str_in key_type [py "HMAC256"; py "HMAC512"] then py "|HMAC|"
  else if str_in key_type [py "ECC256"; py "ECC384"] then py "|ECC|"
  else py "|Ed25519|".

Definition last_rotation (key : CryptoKey) : datetime :=
  match rotated_at key with
  | Some t => t
  | None => created_at key
  end.

Definition sample_key (created rotated : option datetime) (active revoked : bool)
  : CryptoKey :=
  {| id := 1; name := py "k"; key_type := py "AES256GCM"; encrypted_key := [];
     key_version := 1; is_active := active; is_revoked := revoked; created_by := 1;
     created_at := match created with Some t => t | None => 0%Z end;
     rotated_at := rotated; revoked_at := None |}.

Definition sample_master_hex : pystr :=
  py "00112233445566778899aabbccddeeff00112233445566778899aabbccddeeff".



Definition ascii_str (s : pystr) : Prop := Forall (fun c => (c < 128)%N) s.

Definition sample_log (signature : pystr) : AuditLog :=
  {| log_id := 1; user_id := Some 7%Z; action := py "rotate_key";
     resource_type := py "key"; resource_id := Some (py "3");
     ip_address := py "127.0.0.1"; user_agent := None; status := py "success";
     details := None; hmac_signature := signature; timestamp := 1000%Z |}.

(** A state for running the handlers on the small instance: one row in the
    table of keys, a clock that starts at 1000. *)
Definition toy_world (keys : list CryptoKey) : @World Toy.lib :=
  {| rng := (0 : @RNG Toy.lib); clock := fun n => (1000 + Z.of_nat n)%Z; tick := 0;
     crypto_keys := keys; key_seq := 2; audit_logs := []; log_seq := 1 |}.

Definition revoked_key : CryptoKey :=
  {| id := 1; name := py "k"; key_type := py "AES256GCM"; encrypted_key := [];
     key_version := 3; is_active := false; is_revoked := true; created_by := 1;
     created_at := 1%Z; rotated_at := Some 2%Z; revoked_at := Some 5%Z |}.

Definition active_key : CryptoKey :=
  {| id := 1; name := py "k"; key_type := py "AES256GCM"; encrypted_key := [];
     key_version := 3; is_active := true; is_revoked := false; created_by := 1;
     created_at := 1%Z; rotated_at := None; revoked_at := None |}.


(** One change of the table of keys and of its id sequence. *)
Inductive keys_step {L : CryptoLib} (w w' : World) : Prop :=
| ks_same :
    crypto_keys w' = crypto_keys w -> key_seq w' = key_seq w -> keys_step w w'
| ks_rotate (k : CryptoKey) (wrapped : bytes) (now : datetime) :
    find_key (id k) (crypto_keys w) = Some k -> is_revoked k = false ->
    crypto_keys w' = update_key (with_rotation k wrapped now) (crypto_keys w) ->
    key_seq w' = key_seq w -> keys_step w w'
| ks_revoke (k : CryptoKey) (now : datetime) :
    find_key (id k) (crypto_keys w) = Some k ->
    crypto_keys w' = update_key (with_revocation k now) (crypto_keys w) ->
    key_seq w' = key_seq w -> keys_step w w'
| ks_delete (key_id : Z) :
    crypto_keys w' = remove_key key_id (crypto_keys w) ->
    key_seq w' = key_seq w -> keys_step w w'
| ks_create (k : CryptoKey) :
    id k = key_seq w -> key_version k = 1%Z -> is_active k = true ->
    is_revoked k = false -> rotated_at k = None -> revoked_at k = None ->
    crypto_keys w' = crypto_keys w ++ [k] ->
    key_seq w' = (key_seq w + 1)%Z -> keys_step w w'.

(** The table of keys is well formed: ids are unique and below the
    sequence that gives the next one. *)
Definition wf_keys {L : CryptoLib} (w : World) : Prop :=
  NoDup (map id (crypto_keys w)) /\
  Forall (fun k => (id k < key_seq w)%Z) (crypto_keys w).

(** A later state [k'] of the record [k]. *)
Definition evolves (k k' : CryptoKey) : Prop :=
  id k' = id k /\ name k' = name k /\ key_type k' = key_type k /\
  created_by k' = created_by k /\ created_at k' = created_at k /\
  (key_version k <= key_version k')%Z /\
  (is_revoked k = true ->
   is_revoked k' = true /\ key_version k' = key_version k /\
   encrypted_key k' = encrypted_key k /\ rotated_at k' = rotated_at k).

(** The requests that reach the handlers of [routers/keys.py] and
    [routers/encrypt.py], and the sweep of [utils/rotation.py]. *)
Inductive request : Type :=
| Create (name' key_type' credentials : pystr)
| ListKeys (credentials : pystr)
| Rotate (key_id : Z) (credentials : pystr)
| Revoke (key_id : Z) (credentials : pystr)
| Delete (key_id : Z) (credentials : pystr)
| Encrypt (key_id : Z) (plaintext credentials : pystr)
| Decrypt (key_id : Z) (ciphertext credentials : pystr)
| Sweep (rotation_days : Z).

Section Requests.

Context {L : CryptoLib}.
Variable MASTER_KEY : bytes.
Variable AUDIT_SECRET : pystr.
Variable isoformat : datetime -> pystr.
Variable verify_token : pystr -> outcome (Z * pystr).
Variable require_role : pystr -> list pystr -> outcome unit.
Variable b64encode : bytes -> bytes.
Variable b64decode : pystr -> result bytes.

(** The state after a request is handled, whatever the answer. *)
Definition handle (r : request) (w : World) : World :=
  match r with
  | Create name' key_type' credentials =>
      snd (create_key MASTER_KEY AUDIT_SECRET isoformat verify_token require_role
             name' key_type' credentials w)
  | ListKeys credentials =>
      snd (list_keys AUDIT_SECRET isoformat verify_token credentials w)
  | Rotate key_id credentials =>
      snd (rotate_key MASTER_KEY AUDIT_SECRET isoformat verify_token require_role
             key_id credentials w)
  | Revoke key_id credentials =>
      snd (revoke_key AUDIT_SECRET isoformat verify_token require_role key_id
             credentials w)
  | Delete key_id credentials =>
      snd (delete_key AUDIT_SECRET isoformat verify_token require_role key_id
             credentials w)
  | Encrypt key_id plaintext credentials =>
      snd (encrypt_data MASTER_KEY AUDIT_SECRET isoformat verify_token b64encode
             key_id plaintext credentials w)
  | Decrypt key_id ciphertext credentials =>
      snd (decrypt_data MASTER_KEY AUDIT_SECRET isoformat verify_token b64decode
             key_id ciphertext credentials w)
  | Sweep rotation_days => snd (auto_rotate_keys MASTER_KEY rotation_days w)
  end.

Fixpoint handle_all (rs : list request) (w : World) : World :=
  match rs with
  | [] => w
  | r :: rs' => handle_all rs' (handle r w)
  end.

End Requests.

(** Several changes of the table of keys, one after the other. *)
Inductive keys_steps {L : CryptoLib} (w : World) : World -> Prop :=
| kss_refl : keys_steps w w
| kss_step (w1 w2 : World) : keys_steps w w1 -> keys_step w1 w2 -> keys_steps w w2.

(** Whether the record with the id of [k] has, in [w'], the version after
    the one of [k]. *)
Definition rotated_in {L : CryptoLib} (w' : World) (k : CryptoKey) : bool :=
  match find_key (id k) (crypto_keys w') with
  | Some k' => (key_version k' =? key_version k + 1)%Z
  | None => false
  end.

(** A second sample row, revoked. *)
Definition revoked_key_2 : CryptoKey :=
  {| id := 2; name := py "old"; key_type := py "HMAC256"; encrypted_key := [];
     key_version := 1; is_active := false; is_revoked := true; created_by := 1;
     created_at := 1%Z; rotated_at := None; revoked_at := Some 5%Z |}.

(** Requests for running the handlers on the small instance. *)
Definition sample_requests : list request :=
  [ Create (py "second") (py "HMAC256") (py "admin-token");
    Rotate 1 (py "admin-token");
    Encrypt 1 (py "hello") (py "user-token");
    Sweep 90;
    Revoke 1 (py "admin-token");
    Rotate 1 (py "admin-token");
    Delete 2 (py "admin-token");
    ListKeys (py "user-token") ].

(** The bearer token of a request; the sweep has none. *)
Definition credentials_of (r : request) : option pystr :=
  match r with
  | Create _ _ credentials => Some credentials
  | ListKeys credentials => Some credentials
  | Rotate _ credentials => Some credentials
  | Revoke _ credentials => Some credentials
  | Delete _ credentials => Some credentials
  | Encrypt _ _ credentials => Some credentials
  | Decrypt _ _ credentials => Some credentials
  | Sweep _ => None
  end.

(** The credentials pass [verify_token] and the check
    [require_role(user_role, ["admin"])] of the handlers of [routers/keys.py]. *)
Definition is_admin (verify_token : pystr -> outcome (Z * pystr))
    (require_role : pystr -> list pystr -> outcome unit) (credentials : pystr) : Prop :=
  exists user_id' user_role,
    verify_token credentials = Resp (user_id', user_role) /\
    require_role user_role [py "admin"] = Resp tt.

(** Requests that carry the token of a plain user, or no valid token. *)
Definition user_requests : list request :=
  [ Revoke 1 (py "user-token"); Delete 1 (py "user-token");
    Create (py "mine") (py "AES256GCM") (py "user-token");
    Encrypt 1 (py "hello") (py "user-token"); Rotate 1 (py "nobody");
    ListKeys (py "user-token") ].

(** The audit trail of [w'] is the trail of [w] and new records after it,
    whose ids are the next ones of the sequence and whose signatures
    [verify_audit_log] accepts. *)
Definition trail_grows {L : CryptoLib} (AUDIT_SECRET : pystr)
    (isoformat : datetime -> pystr) (w w' : World) : Prop :=
  exists l,
    audit_logs w' = audit_logs w ++ l /\
    log_seq w' = (log_seq w + Z.of_nat (length l))%Z /\
    map log_id l = map (fun i => (log_seq w + Z.of_nat i)%Z) (seq 0 (length l)) /\
    Forall (fun a => verify_audit_log AUDIT_SECRET isoformat a = Ok true) l.

(** A computation on the state that only adds to the audit trail. *)
Definition keeps_trail {L : CryptoLib} (AUDIT_SECRET : pystr)
    (isoformat : datetime -> pystr) {X : Type} (m : World -> X * World) : Prop :=
  forall w, trail_grows AUDIT_SECRET isoformat w (snd (m w)).

(** A text codec for bytes with the law of base64 (decoding undoes encoding),
    for running the handlers on the small instance: two hexadecimal digits
    for a byte. *)
Definition hex_encode (b : bytes) : bytes := map byte_of_N (hexdigest b).
Definition hex_decode (s : pystr) : result bytes := fromhex s.

(** What the small instance generates for HMAC256 at the start, wrapped
    under its master key, and a row that holds it. *)
Definition wrapped_material : bytes :=
  Eval vm_compute in
    match @encrypt_key_with_master Toy.lib Toy.MASTER_KEY (repeat x00 32) 1 with
    | (Ok b, _) => b
    | (Err _, _) => []
    end.

Definition wrapped_row : CryptoKey :=
  {| id := 1; name := py "mac"; key_type := py "HMAC256";
     encrypted_key := wrapped_material;
     key_version := 1; is_active := true; is_revoked := false; created_by := 1;
     created_at := 1%Z; rotated_at := None; revoked_at := None |}.

(** What the small instance seals for the text hello under an HMAC256 key
    and under an ECC256 key. *)
Definition sample_mac_payload : bytes :=
  Eval vm_compute in
    match @encrypt_with_key Toy.lib (py "hello") (repeat x00 32) (py "HMAC256") 1 with
    | (Ok c, _) => c
    | (Err _, _) => []
    end.

Definition sample_signed_payload : bytes :=
  Eval vm_compute in
    match @encrypt_with_key Toy.lib (py "hello") ("E"%byte :: repeat x00 4)
            (py "ECC256") 1 with
    | (Ok c, _) => c
    | (Err _, _) => []
    end.

(** A state whose clock starts a hundred days after the first instant. *)
Definition day_world (keys : list CryptoKey) : @World Toy.lib :=
  {| rng := (0 : @RNG Toy.lib);
     clock := fun n => (100 * MICROS_PER_DAY + Z.of_nat n)%Z; tick := 0;
     crypto_keys := keys; key_seq := 2; audit_logs := []; log_seq := 1 |}.

Lemma slice_frame (nonce tag ciphertext : bytes) :
  length nonce = 12 -> length tag = 16 ->
  slice_to 12 (nonce ++ tag ++ ciphertext) = nonce /\
  slice 12 28 (nonce ++ tag ++ ciphertext) = tag /\
  slice_from 28 (nonce ++ tag ++ ciphertext) = ciphertext.
Proof.
  intros Hn Ht. unfold slice_to, slice, slice_from. repeat split.
  - now apply firstn_exact.
  - change (28 - 12) with 16. rewrite skipn_exact by exact Hn. now apply firstn_exact.
  - rewrite app_assoc. apply skipn_exact. rewrite length_app. lia.
Qed.

(* ------------------------------------------------------------------------- *)
(** ** The master-key envelope *)

Section Envelope.

Context {L : CryptoLib}.
Variable MASTER_KEY : bytes.
Hypothesis MASTER_KEY_length : 32 <= length MASTER_KEY.

Lemma lib_aes_master : lib_aes (slice_to 32 MASTER_KEY) = Ok tt.
Proof.
  unfold lib_aes, slice_to. rewrite length_firstn.
  replace (Nat.min 32 (length MASTER_KEY)) with 32 by lia. reflexivity.
Qed.

(** What [encrypt_key_with_master] returns, and that
    [decrypt_key_with_master] inverts it. *)
Lemma wrap_unwrap (key_data : bytes) (g : RNG) :
  let nonce := fst (token_bytes 12 g) in
  let sealed := gcm_encrypt (slice_to 32 MASTER_KEY) nonce key_data in
  encrypt_key_with_master MASTER_KEY key_data g
    = (Ok (nonce ++ snd sealed ++ fst sealed), snd (token_bytes 12 g)) /\
  length nonce = 12 /\
  length (snd sealed) = 16 /\
  decrypt_key_with_master MASTER_KEY (nonce ++ snd sealed ++ fst sealed) = Ok key_data.
Proof.
  intros nonce sealed.
  assert (Hn : length nonce = 12) by apply token_bytes_length.
  assert (Ht : length (snd sealed) = 16) by apply gcm_tag_length.
  repeat split; trivial.
  - unfold encrypt_key_with_master, bindR, draw, lift, ret, lib_gcm_encryptor.
    subst nonce sealed. destruct (token_bytes 12 g) as [n g'] eqn:E.
    cbn [fst snd] in *. rewrite lib_aes_master. cbn [bind].
    unfold lib_gcm_mode. rewrite Hn. cbn [bind Nat.ltb Nat.leb orb].
    now destruct (gcm_encrypt (slice_to 32 MASTER_KEY) n key_data).
  - unfold decrypt_key_with_master.
    destruct (slice_frame nonce (snd sealed) (fst sealed) Hn Ht) as (-> & -> & ->).
    unfold lib_gcm_decryptor. rewrite lib_aes_master. cbn [bind].
    unfold lib_gcm_mode. rewrite Hn, Ht. cbn [bind Nat.ltb Nat.leb orb].
    subst sealed. now rewrite gcm_decrypt_encrypt.
Qed.

End Envelope.

(** C2: for key material of any length (so for 16, 32 and 64 random bytes
    and for PEM-encoded private keys), under a loaded master key (at least 32
    bytes), [encrypt_key_with_master] returns nonce (12 bytes, fresh from the
    random source) ++ tag (16 bytes) ++ ciphertext, the tag and ciphertext
    being those of AES-GCM under the first 32 bytes of the master key, and
    [decrypt_key_with_master] returns the original key material from it. *)
Theorem C2_wrap_roundtrip {L : CryptoLib} (MASTER_KEY key_data : bytes) (g : RNG) :
  32 <= length MASTER_KEY ->
  exists nonce tag ciphertext g',
    encrypt_key_with_master MASTER_KEY key_data g
      = (Ok (nonce ++ tag ++ ciphertext), g') /\
    (nonce, g') = token_bytes 12 g /\
    (ciphertext, tag) = gcm_encrypt (slice_to 32 MASTER_KEY) nonce key_data /\
    length nonce = 12 /\
    length tag = 16 /\
    decrypt_key_with_master MASTER_KEY (nonce ++ tag ++ ciphertext) = Ok key_data.
Proof.
  intros Hlen.
  destruct (wrap_unwrap MASTER_KEY Hlen key_data g) as (Hw & Hn & Ht & Hu).
  exists (fst (token_bytes 12 g)),
         (snd (gcm_encrypt (slice_to 32 MASTER_KEY) (fst (token_bytes 12 g)) key_data)),
         (fst (gcm_encrypt (slice_to 32 MASTER_KEY) (fst (token_bytes 12 g)) key_data)),
         (snd (token_bytes 12 g)).
  repeat split; trivial.
  - now destruct (token_bytes 12 g).
  - now destruct (gcm_encrypt _ _ _).
Qed.

Lemma C2_wrap_roundtrip_witness :
  32 <= length Toy.MASTER_KEY /\
  exists nonce tag ciphertext g',
    @encrypt_key_with_master Toy.lib Toy.MASTER_KEY (repeat x01 64) 0
      = (Ok (nonce ++ tag ++ ciphertext), g') /\
    (nonce, g') = @token_bytes Toy.lib 12 0 /\
    (ciphertext, tag) = @gcm_encrypt Toy.lib (slice_to 32 Toy.MASTER_KEY) nonce (repeat x01 64) /\
    length nonce = 12 /\
    length tag = 16 /\
    @decrypt_key_with_master Toy.lib Toy.MASTER_KEY (nonce ++ tag ++ ciphertext)
      = Ok (repeat x01 64).
Proof.
  split.
  - exact (le_n 32).
  - apply (@C2_wrap_roundtrip Toy.lib Toy.MASTER_KEY (repeat x01 64) 0). exact (le_n 32).
Defined.

(* ------------------------------------------------------------------------- *)
(** ** Sealing and opening with a marker *)

(** Tags and literals are closed terms: tests on them are computed. *)
Ltac eval_tags :=
  repeat match goal with
    | |- context [str_in ?a ?l] =>
        let v := eval vm_compute in (str_in a l) in
        change (str_in a l) with v
    | |- context [pystr_eqb ?a ?b] =>
        let v := eval vm_compute in (pystr_eqb a b) in
        change (pystr_eqb a b) with v
    end;
  cbv beta iota.

Ltac eval_tags_in H :=
  repeat match type of H with
    | context [str_in ?a ?l] =>
        let v := eval vm_compute in (str_in a l) in
        change (str_in a l) with v in H
    | context [pystr_eqb ?a ?b] =>
        let v := eval vm_compute in (pystr_eqb a b) in
        change (pystr_eqb a b) with v in H
    end;
  cbv beta iota in H.

Lemma starts_with_app (sep s t : bytes) :
  starts_with sep s = true -> starts_with sep (s ++ t) = true.
Proof.
  revert s; induction sep as [|x sep IH]; intros [|y s]; simpl; try congruence.
  intros H. apply andb_true_iff in H as [-> H]. simpl. now apply IH.
Qed.

Lemma starts_with_length (sep s : bytes) :
  starts_with sep s = true -> length sep <= length s.
Proof.
  revert s; induction sep as [|x sep IH]; intros [|y s]; simpl; try congruence; try lia.
  intros H. apply andb_true_iff in H as [_ H]. apply IH in H. lia.
Qed.

Lemma starts_with_app_false (sep s t : bytes) :
  starts_with sep s = false -> length sep <= length s ->
  starts_with sep (s ++ t) = false.
Proof.
  revert s; induction sep as [|x sep IH]; intros [|y s]; simpl; try congruence; try lia.
  intros H Hlen. destruct (Byte.eqb x y); simpl in *; trivial.
  apply IH; [assumption | lia].
Qed.

Lemma split_once_length (sep s a b : bytes) :
  split_once sep s = Some (a, b) -> length s = length a + length sep + length b.
Proof.
  revert a b; induction s as [|x s IH]; intros a b; cbn [split_once].
  - destruct (starts_with sep []) eqn:E; [|discriminate].
    intros [= <- <-]. apply starts_with_length in E.
    rewrite skipn_nil. cbn [length] in *. lia.
  - destruct (starts_with sep (x :: s)) eqn:E.
    + intros [= <- <-]. apply starts_with_length in E.
      rewrite length_skipn. cbn [length] in *. lia.
    + destruct (split_once sep s) as [[a' b']|]; [|discriminate].
      intros [= <- <-]. specialize (IH _ _ eq_refl). cbn [length] in *. lia.
Qed.

(** The first occurrence of the separator in a buffer is its first
    occurrence in any extension of the buffer. *)
Lemma split_once_app (sep s t a b : bytes) :
  split_once sep s = Some (a, b) -> split_once sep (s ++ t) = Some (a, b ++ t).
Proof.
  revert a b; induction s as [|x s IH]; intros a b.
  - simpl. destruct (starts_with sep []) eqn:E; [|discriminate].
    intros [= <- <-]. destruct sep; [|discriminate]. simpl.
    destruct t; reflexivity.
  - intros H. pose proof (split_once_length _ _ H) as Hlen.
    cbn [split_once] in H. change ((x :: s) ++ t) with (x :: s ++ t).
    cbn [split_once]. change (x :: s ++ t) with ((x :: s) ++ t).
    destruct (starts_with sep (x :: s)) eqn:E.
    + injection H as <- <-. rewrite (starts_with_app _ _ t E).
      rewrite skipn_app. apply starts_with_length in E.
      replace (length sep - length (x :: s)) with 0 by lia. reflexivity.
    + rewrite starts_with_app_false; [|assumption|lia].
      destruct (split_once sep s) as [[a' b']|]; [|discriminate].
      injection H as <- <-. now rewrite (IH _ _ eq_refl).
Qed.

Lemma starts_with_refl_app (sep b : bytes) : starts_with sep (sep ++ b) = true.
Proof.
  induction sep as [|x sep IH]; simpl; trivial.
  rewrite IH. now rewrite (Byte.byte_dec_lb eq_refl).
Qed.

Lemma split_once_starts (sep s : bytes) :
  starts_with sep s = true -> split_once sep s = Some ([], skipn (length sep) s).
Proof. destruct s; cbn [split_once]; now intros ->. Qed.

(** A buffer that contains the separator is split. *)
Lemma split_once_complete (sep a b : bytes) :
  exists a' b', split_once sep (a ++ sep ++ b) = Some (a', b').
Proof.
  induction a as [|x a (a' & b' & IH)].
  - change ([] ++ sep ++ b) with (sep ++ b).
    eexists _, _. apply split_once_starts. apply starts_with_refl_app.
  - change ((x :: a) ++ sep ++ b) with (x :: (a ++ sep ++ b)).
    cbn [split_once]. destruct (starts_with sep (x :: a ++ sep ++ b)); eauto.
    rewrite IH. eauto.
Qed.

Lemma bytes_eqb_length_neq (a b : bytes) :
  length a <> length b -> bytes_eqb a b = false.
Proof.
  intros H. destruct (bytes_eqb a b) eqn:E; trivial.
  apply bytes_eqb_length in E. contradiction.
Qed.

Section Markers.

Context {L : CryptoLib}.

Lemma hmac_of_length key_type key msg msg' :
  length (hmac_of key_type key msg) = length (hmac_of key_type key msg').
Proof.
  unfold hmac_of. destruct (key_type =?s py "HMAC256").
  - now rewrite !hmac_sha256_length.
  - now rewrite !hmac_sha512_length.
Qed.

Lemma hmac_seal key_type key P pb g :
  In key_type [py "HMAC256"; py "HMAC512"] ->
  Utf8.encode P = Ok pb ->
  encrypt_with_key P key key_type g
    = (Ok (pb ++ HMAC_MARKER ++ hmac_of key_type key pb), g).
Proof.
  intros Hin Henc.
  destruct Hin as [<- | [<- | []]];
    unfold encrypt_with_key, bindR, lift, ret, hmac_of; rewrite Henc;
    eval_tags; reflexivity.
Qed.

(** Opening a buffer whose plaintext part already contains the marker: the
    split is at the first marker, and what follows it is longer than any
    digest. *)
Lemma hmac_open_marker key_type key pb a b :
  In key_type [py "HMAC256"; py "HMAC512"] ->
  split_once HMAC_MARKER pb = Some (a, b) ->
  decrypt_with_key (pb ++ HMAC_MARKER ++ hmac_of key_type key pb) key key_type
    = Err (ValueError (py "HMAC verification failed")).
Proof.
  intros Hin Hsplit.
  assert (Hcmp : compare_digest (b ++ HMAC_MARKER ++ hmac_of key_type key pb)
                   (hmac_of key_type key a) = false).
  { apply bytes_eqb_length_neq. rewrite !length_app.
    change (length HMAC_MARKER) with 6.
    rewrite (hmac_of_length key_type key pb a). lia. }
  destruct Hin as [<- | [<- | []]];
    unfold decrypt_with_key, split_unpack, hmac_of in *; eval_tags; eval_tags_in Hcmp;
    rewrite (split_once_app _ _ (HMAC_MARKER ++ _) Hsplit);
    cbn [try_except_ValueError bind]; rewrite Hcmp; reflexivity.
Qed.

Lemma ecc_seal key_type (k : ECKey) P pb g :
  In key_type [py "ECC256"; py "ECC384"] ->
  Utf8.encode P = Ok pb ->
  encrypt_with_key P (private_bytes (ECPrivateKey k)) key_type g
    = (Ok (pb ++ ECC_MARKER ++ fst (ecdsa_sign k pb g)), snd (ecdsa_sign k pb g)).
Proof.
  intros Hin Henc.
  destruct Hin as [<- | [<- | []]];
    unfold encrypt_with_key, bindR, lift, ret, load_pem_private_key, lib_ec_sign;
    rewrite Henc; eval_tags; rewrite pem_parse_private_bytes;
    now destruct (ecdsa_sign k pb g).
Qed.

Lemma ecdsa_verify_not_der pk sg m : der_like sg = false -> ecdsa_verify pk sg m = false.
Proof.
  intros H. destruct (ecdsa_verify pk sg m) eqn:E; trivial.
  apply ecdsa_verify_der in E as [rest ->]. discriminate H.
Qed.

Lemma ecc_open_marker key_type (k : ECKey) pb a b sg :
  In key_type [py "ECC256"; py "ECC384"] ->
  split_once ECC_MARKER pb = Some (a, b) ->
  der_like b = false ->
  decrypt_with_key (pb ++ ECC_MARKER ++ sg) (private_bytes (ECPrivateKey k)) key_type
    = Err (ValueError (py "ECC signature verification failed")).
Proof.
  intros Hin Hsplit Hb.
  assert (Hv : ecdsa_verify (ec_public k) (b ++ ECC_MARKER ++ sg) a = false).
  { apply ecdsa_verify_not_der. now destruct b. }
  destruct Hin as [<- | [<- | []]];
    unfold decrypt_with_key, split_unpack, load_pem_private_key; eval_tags;
    rewrite (split_once_app _ _ (ECC_MARKER ++ sg) Hsplit);
    cbn [try_except_ValueError bind]; rewrite pem_parse_private_bytes;
    cbn [bind public_key lib_ec_verify]; rewrite Hv; reflexivity.
Qed.

Lemma ed_seal (k : EdKey) P pb g :
  Utf8.encode P = Ok pb ->
  encrypt_with_key P (private_bytes (Ed25519PrivateKey k)) (py "Ed25519") g
    = (Ok (pb ++ ED25519_MARKER ++ ed_sign k pb), g).
Proof.
  intros Henc.
  unfold encrypt_with_key, bindR, lift, ret, load_pem_private_key, lib_ed_sign.
  rewrite Henc. eval_tags. now rewrite pem_parse_private_bytes.
Qed.

Lemma ed_open_marker (k : EdKey) pb a b :
  split_once ED25519_MARKER pb = Some (a, b) ->
  decrypt_with_key (pb ++ ED25519_MARKER ++ ed_sign k pb)
    (private_bytes (Ed25519PrivateKey k)) (py "Ed25519")
    = Err (ValueError (py "Ed25519 signature verification failed")).
Proof.
  intros Hsplit.
  assert (Hv : ed_verify (ed_public k) (b ++ ED25519_MARKER ++ ed_sign k pb) a = false).
  { destruct (ed_verify _ _ _) eqn:E; trivial.
    apply ed_verify_length in E. rewrite !length_app, ed_sign_length in E.
    change (length ED25519_MARKER) with 9 in E. lia. }
  unfold decrypt_with_key, split_unpack, load_pem_private_key. eval_tags.
  rewrite (split_once_app _ _ (ED25519_MARKER ++ _) Hsplit).
  cbn [try_except_ValueError bind]. rewrite pem_parse_private_bytes.
  cbn [bind public_key lib_ed_verify]. now rewrite Hv.
Qed.

(** The keys that [generate_key] produces for the signature families. *)
Lemma generate_key_ecc key_type g0 key g1 :
  In key_type [py "ECC256"; py "ECC384"] ->
  generate_key key_type g0 = (Ok key, g1) ->
  exists k : ECKey, key = private_bytes (ECPrivateKey k).
Proof.
  intros Hin.
  destruct Hin as [<- | [<- | []]]; unfold generate_key; eval_tags;
    unfold generate_ec; destruct (ec_generate _ g0) as [k g']; intros [= <- _]; eauto.
Qed.

Lemma generate_key_ed g0 key g1 :
  generate_key (py "Ed25519") g0 = (Ok key, g1) ->
  exists k : EdKey, key = private_bytes (Ed25519PrivateKey k).
Proof.
  unfold generate_key; eval_tags.
  unfold generate_ed; destruct (ed_generate g0) as [k g']; intros [= <- _]; eauto.
Qed.

Lemma encode_marker_text :
  Utf8.encode (py "|HMAC|") = Ok HMAC_MARKER /\
  Utf8.encode (py "|ECC|") = Ok ECC_MARKER /\
  Utf8.encode (py "|Ed25519|") = Ok ED25519_MARKER.
Proof. repeat split; reflexivity. Qed.

(** Sealing under a generated key of a proof family and opening the result,
    for a plaintext whose encoding [pb] holds the marker, [b] being what
    follows the first marker in [pb]. *)
Lemma marker_breaks_open key_type g0 key g1 P pb a b g :
  In key_type proof_families ->
  generate_key key_type g0 = (Ok key, g1) ->
  Utf8.encode P = Ok pb ->
  split_once (marker_of key_type) pb = Some (a, b) ->
  (In key_type [py "ECC256"; py "ECC384"] -> der_like b = false) ->
  exists sealed g',
    encrypt_with_key P key key_type g = (Ok sealed, g') /\
    decrypt_with_key sealed key key_type
      = Err (ValueError (verification_failed key_type)).
Proof.
  intros Hin Hgen Henc Hsplit Hder.
  destruct Hin as [<- | [<- | [<- | [<- | [<- | []]]]]].
  - eexists _, _. split.
    + apply hmac_seal; [now left | exact Henc].
    + eapply hmac_open_marker; [now left | exact Hsplit].
  - eexists _, _. split.
    + apply hmac_seal; [now right; left | exact Henc].
    + eapply hmac_open_marker; [now right; left | exact Hsplit].
  - destruct (@generate_key_ecc _ g0 key g1 (or_introl eq_refl) Hgen) as [k ->].
    eexists _, _. split.
    + apply ecc_seal; [now left | exact Henc].
    + eapply ecc_open_marker; [now left | exact Hsplit | apply Hder; now left].
  - destruct (@generate_key_ecc _ g0 key g1 (or_intror (or_introl eq_refl)) Hgen)
      as [k ->].
    eexists _, _. split.
    + apply ecc_seal; [now right; left | exact Henc].
    + eapply ecc_open_marker; [now right; left | exact Hsplit | apply Hder; now right; left].
  - destruct (@generate_key_ed g0 key g1 Hgen) as [k ->].
    eexists _, _. split.
    + apply ed_seal. exact Henc.
    + eapply ed_open_marker. exact Hsplit.
Qed.

End Markers.

(* ------------------------------------------------------------------------- *)
(** ** UTF-8: decoding inverts encoding *)

Lemma byte_val_of_N (n : N) : (n < 256)%N -> byte_val (byte_of_N n) = n.
Proof.
  intros H. unfold byte_val, byte_of_N. rewrite N.mod_small by assumption.
  destruct (Byte.of_N n) eqn:E.
  - now apply Byte.to_of_N.
  - apply Byte.of_N_None_iff in E. lia.
Qed.


Section Utf8Roundtrip.

Import Utf8.

Lemma decode_1 b0 r :
  (byte_val b0 <? 0x80)%N = true ->
  decode (b0 :: r)
  = match decode r with Ok s => Ok (byte_val b0 :: s) | Err e => Err e end.
Proof. intros H. cbn [decode]. cbv zeta. now rewrite H. Qed.

Lemma decode_2 b0 b1 r :
  (byte_val b0 <? 0x80)%N = false ->
  in_range 0xC2 0xDF (byte_val b0) = true ->
  cont (byte_val b1) = true ->
  decode (b0 :: b1 :: r)
  = match decode r with
    | Ok s => Ok (((byte_val b0 - 0xC0) * 64 + (byte_val b1 - 0x80))%N :: s)
    | Err e => Err e
    end.
Proof. intros H0 H1 H2. cbn [decode]. cbv zeta. now rewrite H0, H1, H2. Qed.

Lemma decode_3 b0 b1 b2 r :
  (byte_val b0 <? 0x80)%N = false ->
  in_range 0xC2 0xDF (byte_val b0) = false ->
  in_range 0xE0 0xEF (byte_val b0) = true ->
  in_range (if (byte_val b0 =? 0xE0)%N then 0xA0%N else 0x80%N)
           (if (byte_val b0 =? 0xED)%N then 0x9F%N else 0xBF%N) (byte_val b1) = true ->
  cont (byte_val b2) = true ->
  decode (b0 :: b1 :: b2 :: r)
  = match decode r with
    | Ok s => Ok (((byte_val b0 - 0xE0) * 4096 + (byte_val b1 - 0x80) * 64
                   + (byte_val b2 - 0x80))%N :: s)
    | Err e => Err e
    end.
Proof.
  intros H0 H1 H2 H3 H4. cbn [decode]. cbv zeta. now rewrite H0, H1, H2, H3, H4.
Qed.

Lemma decode_4 b0 b1 b2 b3 r :
  (byte_val b0 <? 0x80)%N = false ->
  in_range 0xC2 0xDF (byte_val b0) = false ->
  in_range 0xE0 0xEF (byte_val b0) = false ->
  in_range 0xF0 0xF4 (byte_val b0) = true ->
  in_range (if (byte_val b0 =? 0xF0)%N then 0x90%N else 0x80%N)
           (if (byte_val b0 =? 0xF4)%N then 0x8F%N else 0xBF%N) (byte_val b1) = true ->
  cont (byte_val b2) = true ->
  cont (byte_val b3) = true ->
  decode (b0 :: b1 :: b2 :: b3 :: r)
  = match decode r with
    | Ok s => Ok (((byte_val b0 - 0xF0) * 262144 + (byte_val b1 - 0x80) * 4096
                   + (byte_val b2 - 0x80) * 64 + (byte_val b3 - 0x80))%N :: s)
    | Err e => Err e
    end.
Proof.
  intros H0 H1 H2 H3 H4 H5 H6. cbn [decode]. cbv zeta.
  now rewrite H0, H1, H2, H3, H4, H5, H6.
Qed.

Ltac bool_arith :=
  unfold cont, in_range;
  repeat match goal with
    | |- context [(?a =? ?b)%N] => destruct (N.eqb_spec a b)
    end;
  rewrite ?andb_true_iff, ?andb_false_iff, ?N.ltb_lt, ?N.ltb_ge, ?N.leb_le, ?N.leb_gt;
  lia.

Lemma decode_encode_cp (c : N) (rest : bytes) :
  match encode_cp c with
  | Some bs =>
      decode (bs ++ rest)
      = match decode rest with Ok s => Ok (c :: s) | Err e => Err e end
  | None => True
  end.
Proof.
  unfold encode_cp.
  destruct (N.ltb_spec c 0x80) as [H1|H1];
    [|destruct (N.ltb_spec c 0x800) as [H2|H2];
      [|destruct (N.ltb_spec c 0x10000) as [H3|H3];
        [destruct ((0xD800 <=? c)%N && (c <=? 0xDFFF)%N) eqn:Hs; [exact I|]
        |destruct (N.ltb_spec c 0x110000) as [H4|H4]; [|exact I]]]];
    cbn [app].
  - rewrite decode_1; rewrite byte_val_of_N by lia; [reflexivity | bool_arith].
  - assert (E0 := N.div_mod c 64 ltac:(discriminate)).
    assert (L0 := N.mod_lt c 64 ltac:(discriminate)).
    generalize dependent (c mod 64)%N. generalize dependent (c / 64)%N.
    intros q1 r0 E0 L0.
    rewrite decode_2; rewrite ?byte_val_of_N by lia; try bool_arith.
    now replace ((192 + q1 - 192) * 64 + (128 + r0 - 128))%N with c by lia.
  - assert (E0 := N.div_mod c 64 ltac:(discriminate)).
    assert (E1 := N.div_mod (c / 64) 64 ltac:(discriminate)).
    assert (L0 := N.mod_lt c 64 ltac:(discriminate)).
    assert (L1 := N.mod_lt (c / 64) 64 ltac:(discriminate)).
    rewrite N.Div0.div_div in E1. change (64 * 64)%N with 4096%N in E1.
    apply andb_false_iff in Hs. rewrite N.leb_gt, N.leb_gt in Hs.
    generalize dependent (c mod 64)%N. generalize dependent ((c / 64) mod 64)%N.
    generalize dependent (c / 4096)%N. generalize dependent (c / 64)%N.
    intros q1 q2 r1 E1 L1 r0 E0 L0.
    rewrite decode_3; rewrite ?byte_val_of_N by lia; try bool_arith.
    now replace ((224 + q2 - 224) * 4096 + (128 + r1 - 128) * 64 + (128 + r0 - 128))%N
      with c by lia.
  - assert (E0 := N.div_mod c 64 ltac:(discriminate)).
    assert (E1 := N.div_mod (c / 64) 64 ltac:(discriminate)).
    assert (E2 := N.div_mod (c / 4096) 64 ltac:(discriminate)).
    assert (L0 := N.mod_lt c 64 ltac:(discriminate)).
    assert (L1 := N.mod_lt (c / 64) 64 ltac:(discriminate)).
    assert (L2 := N.mod_lt (c / 4096) 64 ltac:(discriminate)).
    rewrite N.Div0.div_div in E1, E2.
    change (64 * 64)%N with 4096%N in E1. change (4096 * 64)%N with 262144%N in E2.
    generalize dependent (c mod 64)%N. generalize dependent ((c / 64) mod 64)%N.
    generalize dependent ((c / 4096) mod 64)%N.
    generalize dependent (c / 262144)%N. generalize dependent (c / 4096)%N.
    generalize dependent (c / 64)%N.
    intros q1 q2 q3 r2 E2 L2 r1 E1 L1 r0 E0 L0.
    rewrite decode_4; rewrite ?byte_val_of_N by lia; try bool_arith.
    now replace ((240 + q3 - 240) * 262144 + (128 + r2 - 128) * 4096
                 + (128 + r1 - 128) * 64 + (128 + r0 - 128))%N with c by lia.
Qed.

(** Decoding inverts encoding. *)
Lemma decode_encode (s : pystr) (bs : bytes) :
  encode s = Ok bs -> decode bs = Ok s.
Proof.
  revert bs; induction s as [|c s IH]; intros bs; cbn [encode].
  - now intros [= <-].
  - pose proof (decode_encode_cp c) as Hcp.
    destruct (encode_cp c) as [cb|]; [|discriminate].
    destruct (encode s) as [rest|]; [|discriminate].
    intros [= <-]. now rewrite Hcp, (IH _ eq_refl).
Qed.

End Utf8Roundtrip.

(* ------------------------------------------------------------------------- *)
(** ** PKCS#7 *)

Lemma last_repeat (x : byte) (n : nat) (d : bytes) :
  0 < n -> last (d ++ repeat x n) x00 = x.
Proof.
  intros Hn. destruct n as [|n]; [lia|].
  replace (repeat x (S n)) with (repeat x n ++ [x]).
  - now rewrite app_assoc, last_last.
  - change [x] with (repeat x 1). rewrite <- repeat_app. f_equal. lia.
Qed.

Lemma forallb_repeat (f : byte -> bool) (x : byte) (n : nat) :
  f x = true -> forallb f (repeat x n) = true.
Proof. intros H. induction n; simpl; [reflexivity | now rewrite H]. Qed.

Lemma pad_length_facts (len : nat) :
  let n := 16 - len mod 16 in
  0 < n <= 16 /\ (len + n) mod 16 = 0.
Proof.
  intros n. subst n.
  assert (Hlt := Nat.mod_upper_bound len 16 ltac:(discriminate)).
  assert (Hdm := Nat.div_mod_eq len 16).
  split; [lia|].
  replace (len + (16 - len mod 16)) with ((len / 16 + 1) * 16) by lia.
  apply Nat.Div0.mod_mul.
Qed.

Lemma pkcs7_pad_length (data : bytes) : length (pkcs7_pad data) mod 16 = 0.
Proof.
  unfold pkcs7_pad. rewrite length_app, repeat_length.
  apply pad_length_facts.
Qed.

Lemma pkcs7_unpad_pad (data : bytes) : pkcs7_unpad (pkcs7_pad data) = Ok data.
Proof.
  pose proof (pkcs7_pad_length data) as Hmod.
  destruct (pad_length_facts (length data)) as [Hn _].
  unfold pkcs7_unpad. rewrite Hmod.
  unfold pkcs7_pad in *. set (n := 16 - length data mod 16) in *.
  rewrite length_app, repeat_length.
  replace (length data + n =? 0) with false by (symmetry; apply Nat.eqb_neq; lia).
  cbn [orb negb Nat.eqb].
  rewrite last_repeat by lia.
  assert (Hv : N.to_nat (byte_val (byte_of_N (N.of_nat n))) = n).
  { rewrite byte_val_of_N by lia. apply Nat2N.id. }
  rewrite Hv.
  replace (n =? 0) with false by (symmetry; apply Nat.eqb_neq; lia).
  replace (16 <? n) with false by (symmetry; apply Nat.ltb_ge; lia).
  cbn [orb].
  replace (length data + n - n) with (length data) by lia.
  rewrite skipn_exact, firstn_exact by reflexivity.
  rewrite forallb_repeat; [reflexivity|].
  rewrite Hv. apply Nat.eqb_refl.
Qed.

(* ------------------------------------------------------------------------- *)
(** ** Opening what was sealed *)

Section Roundtrip.

Context {L : CryptoLib}.

Lemma gcm_roundtrip key_type key P pb g :
  In key_type [py "AES128GCM"; py "AES256GCM"] ->
  lib_aes key = Ok tt ->
  Utf8.encode P = Ok pb ->
  exists sealed g',
    encrypt_with_key P key key_type g = (Ok sealed, g') /\
    decrypt_with_key sealed key key_type = Ok P.
Proof.
  intros Hin Hkey Henc.
  pose proof (token_bytes_length 12 g) as Hn.
  destruct (token_bytes 12 g) as [nonce g'] eqn:Etok. cbn [fst] in Hn.
  pose proof (gcm_tag_length key nonce pb) as Ht.
  pose proof (gcm_decrypt_encrypt key nonce pb) as Hdec.
  destruct (gcm_encrypt key nonce pb) as [ct tag] eqn:Egcm. cbn [fst snd] in *.
  exists (nonce ++ tag ++ ct), g'.
  destruct (slice_frame nonce tag ct Hn Ht) as (Hs1 & Hs2 & Hs3).
  destruct Hin as [<- | [<- | []]];
    (split;
     [ unfold encrypt_with_key, bindR, lift, ret, draw, lib_gcm_encryptor, lib_gcm_mode;
       rewrite Henc; eval_tags; rewrite Etok, Hkey, Hn; cbn [bind Nat.ltb Nat.leb orb];
       now rewrite Egcm
     | unfold decrypt_with_key, lib_gcm_decryptor, lib_gcm_mode; eval_tags;
       rewrite Hs1, Hs2, Hs3, Hkey, Hn, Ht; cbn [bind Nat.ltb Nat.leb orb];
       rewrite Hdec; now apply decode_encode ]).
Qed.

Lemma cbc_roundtrip key P pb g :
  lib_aes key = Ok tt ->
  Utf8.encode P = Ok pb ->
  exists sealed g',
    encrypt_with_key P key (py "AES256CBC") g = (Ok sealed, g') /\
    decrypt_with_key sealed key (py "AES256CBC") = Ok P.
Proof.
  intros Hkey Henc.
  pose proof (token_bytes_length 16 g) as Hn.
  destruct (token_bytes 16 g) as [iv g'] eqn:Etok. cbn [fst] in Hn.
  pose proof (pkcs7_pad_length pb) as Hpad.
  exists (iv ++ cbc_encrypt key iv (pkcs7_pad pb)), g'. split.
  - unfold encrypt_with_key, bindR, lift, ret, draw, lib_cbc.
    rewrite Henc. eval_tags. rewrite Etok, Hkey, Hn, Hpad. reflexivity.
  - unfold decrypt_with_key, lib_cbc, slice_to, slice_from. eval_tags.
    rewrite firstn_exact, skipn_exact by exact Hn.
    rewrite Hkey, Hn, cbc_encrypt_length, Hpad. cbn [bind negb Nat.eqb].
    rewrite cbc_decrypt_encrypt by exact Hpad.
    rewrite pkcs7_unpad_pad. cbn [bind]. now apply decode_encode.
Qed.

Lemma chacha_roundtrip key P pb g :
  length key = 32 ->
  Utf8.encode P = Ok pb ->
  exists sealed g',
    encrypt_with_key P key (py "ChaCha20Poly1305") g = (Ok sealed, g') /\
    decrypt_with_key sealed key (py "ChaCha20Poly1305") = Ok P.
Proof.
  intros Hkey Henc.
  pose proof (token_bytes_length 12 g) as Hn.
  destruct (token_bytes 12 g) as [nonce g'] eqn:Etok. cbn [fst] in Hn.
  exists (nonce ++ chacha_encrypt key nonce pb), g'. split.
  - unfold encrypt_with_key, bindR, lift, ret, draw, lib_chacha_encrypt,
      lib_chacha_key, lib_chacha_nonce.
    rewrite Henc. eval_tags. rewrite Etok, Hkey, Hn. reflexivity.
  - unfold decrypt_with_key, lib_chacha_decrypt, lib_chacha_key, lib_chacha_nonce,
      slice_to, slice_from. eval_tags.
    rewrite firstn_exact, skipn_exact by exact Hn.
    rewrite Hkey, Hn. cbn [bind Nat.eqb].
    rewrite chacha_decrypt_encrypt. now apply decode_encode.
Qed.

Lemma rsa_roundtrip key_type (k : RSAKey) P pb g sealed g' :
  In key_type [py "RSA"; py "RSA2048"; py "RSA4096"] ->
  Utf8.encode P = Ok pb ->
  encrypt_with_key P (private_bytes (RSAPrivateKey k)) key_type g = (Ok sealed, g') ->
  decrypt_with_key sealed (private_bytes (RSAPrivateKey k)) key_type = Ok P.
Proof.
  intros Hin Henc.
  assert (Hbranch :
    rsa_encrypt_branch pb (private_bytes (RSAPrivateKey k)) g = (Ok sealed, g') ->
    rsa_decrypt_branch sealed (private_bytes (RSAPrivateKey k)) = Ok P).
  { unfold rsa_encrypt_branch, rsa_decrypt_branch, bindR, lift, load_pem_private_key.
    rewrite pem_parse_private_bytes. cbn [bind public_key lib_rsa_encrypt lib_rsa_decrypt].
    destruct (rsa_oaep_encrypt (rsa_public k) pb g) as [[c|] g2] eqn:E; [|discriminate].
    intros [= <- <-]. rewrite (rsa_oaep_decrypt_encrypt _ _ _ E). cbn [bind].
    now apply decode_encode. }
  destruct Hin as [<- | [<- | [<- | []]]];
    unfold encrypt_with_key, decrypt_with_key, bindR, lift; rewrite Henc; eval_tags;
    exact Hbranch.
Qed.


Lemma hmac_roundtrip key_type key P pb g :
  In key_type [py "HMAC256"; py "HMAC512"] ->
  Utf8.encode P = Ok pb ->
  split_once HMAC_MARKER (pb ++ HMAC_MARKER) = Some (pb, []) ->
  exists sealed g',
    encrypt_with_key P key key_type g = (Ok sealed, g') /\
    decrypt_with_key sealed key key_type = Ok P.
Proof.
  intros Hin Henc Hfirst.
  eexists _, _. split; [eapply hmac_seal; eassumption|].
  apply (split_once_app _ _ (hmac_of key_type key pb)) in Hfirst.
  rewrite <- app_assoc in Hfirst. cbn [app] in Hfirst.
  destruct Hin as [<- | [<- | []]];
    unfold decrypt_with_key, split_unpack, hmac_of, compare_digest in *; eval_tags;
    eval_tags_in Hfirst; rewrite Hfirst; cbn [try_except_ValueError bind];
    rewrite bytes_eqb_refl; now apply decode_encode.
Qed.

Lemma ecc_roundtrip key_type (k : ECKey) P pb g :
  In key_type [py "ECC256"; py "ECC384"] ->
  Utf8.encode P = Ok pb ->
  split_once ECC_MARKER (pb ++ ECC_MARKER) = Some (pb, []) ->
  exists sealed g',
    encrypt_with_key P (private_bytes (ECPrivateKey k)) key_type g = (Ok sealed, g') /\
    decrypt_with_key sealed (private_bytes (ECPrivateKey k)) key_type = Ok P.
Proof.
  intros Hin Henc Hfirst.
  eexists _, _. split; [eapply ecc_seal; eassumption|].
  apply (split_once_app _ _ (fst (ecdsa_sign k pb g))) in Hfirst.
  rewrite <- app_assoc in Hfirst. cbn [app] in Hfirst.
  destruct Hin as [<- | [<- | []]];
    unfold decrypt_with_key, split_unpack, load_pem_private_key; eval_tags;
    rewrite Hfirst; cbn [try_except_ValueError bind];
    rewrite pem_parse_private_bytes; cbn [bind public_key lib_ec_verify];
    rewrite ecdsa_verify_sign; now apply decode_encode.
Qed.

Lemma ed_roundtrip (k : EdKey) P pb g :
  Utf8.encode P = Ok pb ->
  split_once ED25519_MARKER (pb ++ ED25519_MARKER) = Some (pb, []) ->
  exists sealed g',
    encrypt_with_key P (private_bytes (Ed25519PrivateKey k)) (py "Ed25519") g
      = (Ok sealed, g') /\
    decrypt_with_key sealed (private_bytes (Ed25519PrivateKey k)) (py "Ed25519") = Ok P.
Proof.
  intros Henc Hfirst.
  eexists _, _. split; [eapply ed_seal; eassumption|].
  apply (split_once_app _ _ (ed_sign k pb)) in Hfirst.
  rewrite <- app_assoc in Hfirst. cbn [app] in Hfirst.
  unfold decrypt_with_key, split_unpack, load_pem_private_key. eval_tags.
  rewrite Hfirst. cbn [try_except_ValueError bind].
  rewrite pem_parse_private_bytes. cbn [bind public_key lib_ed_verify].
  rewrite ed_verify_sign. now apply decode_encode.
Qed.

(** What [generate_key] returns for each supported tag. *)
Lemma generate_key_draw n g0 key g1 :
  draw n g0 = (Ok key, g1) -> length key = n.
Proof.
  unfold draw. pose proof (token_bytes_length n g0) as H.
  destruct (token_bytes n g0). now intros [= <- _].
Qed.

Lemma generate_key_rsa key_type g0 key g1 :
  In key_type [py "RSA"; py "RSA2048"; py "RSA4096"] ->
  generate_key key_type g0 = (Ok key, g1) ->
  exists k : RSAKey, key = private_bytes (RSAPrivateKey k).
Proof.
  intros Hin.
  destruct Hin as [<- | [<- | [<- | []]]]; unfold generate_key; eval_tags;
    unfold generate_rsa; destruct (rsa_generate _ g0) as [k g']; intros [= <- _]; eauto.
Qed.

Lemma lib_aes_16 key : length key = 16 -> lib_aes key = Ok tt.
Proof. unfold lib_aes. now intros ->. Qed.

Lemma lib_aes_32 key : length key = 32 -> lib_aes key = Ok tt.
Proof. unfold lib_aes. now intros ->. Qed.

(** Sealing with a generated key and opening the result, for each family. *)
Lemma seal_open key_type g0 key g1 P pb g :
  In key_type supported_key_types ->
  generate_key key_type g0 = (Ok key, g1) ->
  Utf8.encode P = Ok pb ->
  (In key_type proof_families ->
   split_once (marker_of key_type) (pb ++ marker_of key_type) = Some (pb, [])) ->
  (In key_type [py "RSA"; py "RSA2048"; py "RSA4096"] /\
   forall sealed g',
     encrypt_with_key P key key_type g = (Ok sealed, g') ->
     decrypt_with_key sealed key key_type = Ok P) \/
  (~ In key_type [py "RSA"; py "RSA2048"; py "RSA4096"] /\
   exists sealed g',
     encrypt_with_key P key key_type g = (Ok sealed, g') /\
     decrypt_with_key sealed key key_type = Ok P).
Proof.
  intros Hin Hgen Henc Hfirst.
  assert (Hnot : forall t, In t [py "RSA"; py "RSA2048"; py "RSA4096"] ->
                           str_in t [py "RSA"; py "RSA2048"; py "RSA4096"] = true).
  { intros t [<- | [<- | [<- | []]]]; reflexivity. }
  unfold supported_key_types in Hin.
  destruct Hin as [<-|[<-|[<-|[<-|[<-|[<-|[<-|[<-|[<-|[<-|[<-|[<-|[]]]]]]]]]]]]].
  - right. split; [intros H; apply Hnot in H; discriminate H|].
    eapply gcm_roundtrip; [now left | | exact Henc].
    apply lib_aes_16. revert Hgen. unfold generate_key; eval_tags. apply generate_key_draw.
  - right. split; [intros H; apply Hnot in H; discriminate H|].
    eapply gcm_roundtrip; [now right; left | | exact Henc].
    apply lib_aes_32. revert Hgen. unfold generate_key; eval_tags. apply generate_key_draw.
  - right. split; [intros H; apply Hnot in H; discriminate H|].
    eapply cbc_roundtrip; [ | exact Henc].
    apply lib_aes_32. revert Hgen. unfold generate_key; eval_tags. apply generate_key_draw.
  - right. split; [intros H; apply Hnot in H; discriminate H|].
    eapply chacha_roundtrip; [ | exact Henc].
    revert Hgen. unfold generate_key; eval_tags. apply generate_key_draw.
  - left. split; [now left|].
    destruct (@generate_key_rsa _ g0 key g1 (or_introl eq_refl) Hgen) as [k ->].
    intros sealed g'. eapply rsa_roundtrip; [now left | exact Henc].
  - left. split; [now right; left|].
    destruct (@generate_key_rsa _ g0 key g1 (or_intror (or_introl eq_refl)) Hgen)
      as [k ->].
    intros sealed g'. eapply rsa_roundtrip; [now right; left | exact Henc].
  - left. split; [now right; right; left|].
    destruct (@generate_key_rsa _ g0 key g1
                (or_intror (or_intror (or_introl eq_refl))) Hgen) as [k ->].
    intros sealed g'. eapply rsa_roundtrip; [now right; right; left | exact Henc].
  - right. split; [intros H; apply Hnot in H; discriminate H|].
    destruct (@generate_key_ecc _ _ g0 key g1 (or_introl eq_refl) Hgen) as [k ->].
    eapply ecc_roundtrip; [now left | exact Henc|].
    apply Hfirst. now right; right; left.
  - right. split; [intros H; apply Hnot in H; discriminate H|].
    destruct (@generate_key_ecc _ _ g0 key g1 (or_intror (or_introl eq_refl)) Hgen)
      as [k ->].
    eapply ecc_roundtrip; [now right; left | exact Henc|].
    apply Hfirst. now right; right; right; left.
  - right. split; [intros H; apply Hnot in H; discriminate H|].
    destruct (@generate_key_ed _ g0 key g1 Hgen) as [k ->].
    eapply ed_roundtrip; [exact Henc|].
    apply Hfirst. now right; right; right; right; left.
  - right. split; [intros H; apply Hnot in H; discriminate H|].
    eapply hmac_roundtrip; [now left | exact Henc|].
    apply Hfirst. now left.
  - right. split; [intros H; apply Hnot in H; discriminate H|].
    eapply hmac_roundtrip; [now right; left | exact Henc|].
    apply Hfirst. now right; left.
Qed.

End Roundtrip.

(** A plaintext without the byte ['|'] meets the condition on the first
    marker: every marker starts with that byte. *)
Lemma no_bar_first_marker (key_type : pystr) (pb : bytes) :
  forallb (fun b => negb (Byte.eqb b "|"%byte)) pb = true ->
  split_once (marker_of key_type) (pb ++ marker_of key_type) = Some (pb, []).
Proof.
  intros Hbar.
  assert (Hm : exists m, marker_of key_type = "|"%byte :: m).
  { unfold marker_of. destruct (str_in key_type _); [|destruct (str_in key_type _)];
      eexists; reflexivity. }
  destruct Hm as [m Hm]. rewrite Hm. clear Hm.
  induction pb as [|x pb IH].
  - cbn [app]. rewrite split_once_starts.
    + now rewrite skipn_all.
    + pose proof (starts_with_refl_app ("|"%byte :: m) []) as Hs.
      now rewrite app_nil_r in Hs.
  - cbn [forallb] in Hbar. apply andb_true_iff in Hbar as [Hx Hbar].
    change ((x :: pb) ++ "|"%byte :: m) with (x :: (pb ++ "|"%byte :: m)).
    cbn [split_once starts_with].
    replace (Byte.eqb "|" x) with false.
    + cbn [andb]. now rewrite (IH Hbar).
    + symmetry. apply negb_true_iff in Hx.
      destruct (Byte.eqb "|" x) eqn:E; trivial.
      apply Byte.byte_dec_bl in E. subst x. discriminate Hx.
Qed.




Lemma marker_text_encode (key_type : pystr) :
  Utf8.encode (marker_text key_type) = Ok (marker_of key_type) /\
  split_once (marker_of key_type) (marker_of key_type) = Some ([], []).
Proof.
  unfold marker_text, marker_of.
  destruct (str_in key_type _); [|destruct (str_in key_type _)]; split; reflexivity.
Qed.

(** C10: for each of the tags HMAC256, HMAC512, ECC256, ECC384 and Ed25519 and
    each key generated for it, there is a plaintext whose UTF-8 encoding
    contains the family's marker for which [encrypt_with_key] returns and
    [decrypt_with_key], on that unmodified result, raises the verification
    error instead of returning the plaintext.  This is so for every
    plaintext whose encoding contains the marker when the tag is an HMAC one
    or Ed25519, and, for the ECC tags, for every such plaintext in which what
    follows the first marker does not begin with the byte 0x30: the buffer
    is split at the first marker. *)
Theorem C10_marker_in_plaintext {L : CryptoLib}
    (key_type : pystr) (g0 : RNG) (key : bytes) (g1 : RNG) :
  In key_type proof_families ->
  generate_key key_type g0 = (Ok key, g1) ->
  (exists P pb,
     Utf8.encode P = Ok pb /\
     (exists a b, pb = a ++ marker_of key_type ++ b) /\
     forall g, exists sealed g',
       encrypt_with_key P key key_type g = (Ok sealed, g') /\
       decrypt_with_key sealed key key_type
         = Err (ValueError (verification_failed key_type))) /\
  (forall P pb a b g,
     Utf8.encode P = Ok pb ->
     split_once (marker_of key_type) pb = Some (a, b) ->
     (In key_type [py "ECC256"; py "ECC384"] -> der_like b = false) ->
     exists sealed g',
       encrypt_with_key P key key_type g = (Ok sealed, g') /\
       decrypt_with_key sealed key key_type
         = Err (ValueError (verification_failed key_type))) /\
  (~ In key_type [py "ECC256"; py "ECC384"] ->
   forall P pb a b g,
     Utf8.encode P = Ok pb ->
     pb = a ++ marker_of key_type ++ b ->
     exists sealed g',
       encrypt_with_key P key key_type g = (Ok sealed, g') /\
       decrypt_with_key sealed key key_type
         = Err (ValueError (verification_failed key_type))).
Proof.
  intros Hin Hgen.
  destruct (marker_text_encode key_type) as [Henc Hsplit].
  repeat split.
  - exists (marker_text key_type), (marker_of key_type). repeat split; trivial.
    + exists [], []. now rewrite app_nil_r.
    + intros g. eapply marker_breaks_open; eauto.
  - intros P pb a b g HP Hs Hder. eapply marker_breaks_open; eauto.
  - intros Hnecc P pb a b g HP ->.
    destruct (split_once_complete (marker_of key_type) a b) as (a' & b' & Hs).
    eapply marker_breaks_open; eauto. intros Hecc. contradiction.
Qed.

Lemma C10_marker_in_plaintext_witness :
  In (py "ECC256") proof_families /\
  @generate_key Toy.lib (py "ECC256") 0
    = (Ok ("E"%byte :: repeat x00 4), 1) /\
  exists sealed g',
    @encrypt_with_key Toy.lib (py "a|ECC|b") ("E"%byte :: repeat x00 4) (py "ECC256") 1
      = (Ok sealed, g') /\
    @decrypt_with_key Toy.lib sealed ("E"%byte :: repeat x00 4) (py "ECC256")
      = Err (ValueError (py "ECC signature verification failed")).
Proof.
  assert (Hin : In (py "ECC256") proof_families).
  { unfold proof_families. do 2 right. left. reflexivity. }
  split; [exact Hin|]. split; [reflexivity|].
  apply (proj1 (proj2 (@C10_marker_in_plaintext Toy.lib (py "ECC256") 0
                         ("E"%byte :: repeat x00 4) 1 Hin eq_refl))
           (py "a|ECC|b") (b_ "a|ECC|b") (b_ "a") (b_ "b") 1);
    reflexivity.
Defined.

(* ------------------------------------------------------------------------- *)
(** ** The rotation-due predicate *)

Lemma should_rotate_key_inactive now key rotation_days :
  is_revoked key = true \/ is_active key = false ->
  should_rotate_key now key rotation_days = Ok false.
Proof.
  unfold should_rotate_key. intros [-> | ->]; [reflexivity|].
  now rewrite orb_true_r.
Qed.

(** C6 (as amended): for a record with timestamps in the range of
    [datetime] and a maximum age of zero or more days, [should_rotate_key]
    (a function of the record, the maximum age and the current instant
    alone) returns true if and only if the record is active, not revoked, and
    now minus (rotated_at if set, otherwise created_at) is strictly greater
    than the maximum age. *)
Theorem C6_should_rotate_key_iff (now : datetime) (key : CryptoKey) (rotation_days : Z) :
  valid_datetime now ->
  valid_datetime (last_rotation key) ->
  (0 <= rotation_days)%Z ->
  should_rotate_key now key rotation_days = Ok true <->
  (is_active key = true /\ is_revoked key = false /\
   (now - last_rotation key > rotation_days * MICROS_PER_DAY)%Z).
Proof.
  unfold valid_datetime, DATETIME_END, MICROS_PER_DAY. intros Hnow Hlast Hdays.
  unfold should_rotate_key. fold (last_rotation key).
  destruct (is_revoked key), (is_active key); cbn [orb negb];
    try (split; [discriminate | intros (? & ? & _); discriminate]).
  unfold timedelta_days, datetime_sub, datetime_in_range, DATETIME_END, MICROS_PER_DAY.
  destruct ((-999999999 <=? rotation_days)%Z && (rotation_days <=? 999999999)%Z) eqn:Ed;
    cbn [bind].
  - destruct ((0 <=? now - rotation_days * 86400000000)%Z
              && (now - rotation_days * 86400000000 <? 3652059 * 86400000000)%Z) eqn:Er;
      cbn [bind].
    + split.
      * intros [= H]. apply Z.ltb_lt in H. repeat split; lia.
      * intros (_ & _ & H). f_equal. apply Z.ltb_lt. lia.
    + split; [discriminate|]. intros (_ & _ & H).
      apply andb_false_iff in Er. rewrite Z.leb_gt, Z.ltb_ge in Er. lia.
  - split; [discriminate|]. intros (_ & _ & H).
    apply andb_false_iff in Ed. rewrite !Z.leb_gt in Ed. lia.
Qed.

Lemma C6_should_rotate_key_iff_witness :
  let key := sample_key (Some 0%Z) None true false in
  let now := (91 * MICROS_PER_DAY)%Z in
  should_rotate_key now key 90 = Ok true <->
  (is_active key = true /\ is_revoked key = false /\
   (now - last_rotation key > 90 * MICROS_PER_DAY)%Z).
Proof.
  apply (@C6_should_rotate_key_iff (91 * MICROS_PER_DAY)%Z
           (sample_key (Some 0%Z) None true false) 90%Z);
    unfold valid_datetime; vm_compute; intuition discriminate.
Defined.

(** C6, counterexample: an active record whose age is exactly the maximum
    age (90 days) is not due. *)
Lemma C6_exact_age_counterexample :
  let key := sample_key (Some 0%Z) None true false in
  let now := (90 * MICROS_PER_DAY)%Z in
  is_active key = true /\ is_revoked key = false /\
  (now - last_rotation key >= 90 * MICROS_PER_DAY)%Z /\
  should_rotate_key now key 90 = Ok false.
Proof. repeat split; vm_compute; congruence. Qed.

(* ------------------------------------------------------------------------- *)
(** ** Loading the secrets *)

Lemma fromhex_error_only (s : pystr) (e : PyExn) :
  fromhex s = Err e -> e = fromhex_error.
Proof.
  assert (Hn : forall n s e, length s <= n -> fromhex s = Err e -> e = fromhex_error).
  { induction n as [|n IH]; intros [|c r] e' Hlen; cbn [fromhex]; try discriminate.
    - simpl in Hlen. lia.
    - simpl in Hlen. destruct (is_ascii_space c).
      + apply IH. lia.
      + destruct (hex_digit c); [|now intros [= <-]].
        destruct r as [|d r']; [now intros [= <-]|].
        destruct (hex_digit d); [|now intros [= <-]].
        destruct (fromhex r') eqn:E; [discriminate|].
        intros [= <-]. apply (IH r'); [simpl in Hlen; lia | exact E]. }
  apply (Hn (length s)). lia.
Qed.

Lemma startup_ok (env : Env) (cfg : Config) :
  startup env = Ok cfg ->
  exists mk, load_master_key env = Ok mk /\
             cfg = {| cfg_MASTER_KEY := mk; cfg_AUDIT_SECRET := load_audit_secret env |}.
Proof.
  unfold startup. destruct (load_master_key env) as [mk|]; cbn [bind]; [|discriminate].
  intros [= <-]. eauto.
Qed.

Lemma load_master_key_length (env : Env) (mk : bytes) :
  load_master_key env = Ok mk -> 32 <= length mk.
Proof.
  unfold load_master_key.
  destruct (getenv env (py "MASTER_KEY")) as [[|c s]|]; try discriminate.
  destruct (match fromhex (c :: s) with
            | Ok b => Ok b
            | Err (ValueError _) =>
                bind (Utf8.encode (c :: s)) (fun encoded => Ok (slice_to 32 encoded))
            | Err e => Err e
            end) as [mk'|]; cbn [bind]; [|discriminate].
  destruct (length mk' <? 32) eqn:E; [discriminate|].
  intros [= <-]. now apply Nat.ltb_ge.
Qed.

(** C9 (as amended): a missing or empty [MASTER_KEY] and a master key that
    decodes to fewer than 32 bytes each make the import of
    [utils/crypto.py] raise [ValueError], so the application does not start;
    when it does start the master key has at least 32 bytes.  A missing
    [AUDIT_SECRET] raises nothing: the secret is then the default
    ["audit-secret-key-change-this"]. *)
Theorem C9_startup_secrets (env : Env) :
  (getenv env (py "MASTER_KEY") = None \/ getenv env (py "MASTER_KEY") = Some [] ->
   startup env = Err (ValueError (py "MASTER_KEY environment variable must be set"))) /\
  (forall s b,
     getenv env (py "MASTER_KEY") = Some s -> s <> [] ->
     (fromhex s = Ok b \/
      (is_ok (fromhex s) = false /\ bind (Utf8.encode s) (fun x => Ok (slice_to 32 x)) = Ok b)) ->
     length b < 32 ->
     startup env = Err (ValueError (py "MASTER_KEY must be at least 32 bytes"))) /\
  (forall cfg, startup env = Ok cfg -> 32 <= length (cfg_MASTER_KEY cfg)) /\
  (forall cfg,
     startup env = Ok cfg -> getenv env (py "AUDIT_SECRET") = None ->
     cfg_AUDIT_SECRET cfg = AUDIT_SECRET_default) /\
  (forall e, startup env = Err e ->
             exn_class e = "ValueError"%string \/ exn_class e = "UnicodeEncodeError"%string).
Proof.
  repeat split; try (unfold startup, load_master_key).
  - intros [-> | ->]; reflexivity.
  - intros s b -> Hs Hb Hlen. destruct s as [|c s]; [contradiction|].
    destruct Hb as [-> | [Hhex Hb]].
    + cbn [bind]. apply Nat.ltb_lt in Hlen. now rewrite Hlen.
    + destruct (fromhex (c :: s)) as [?|e] eqn:E; [discriminate|].
      rewrite (fromhex_error_only _ E). unfold fromhex_error. rewrite Hb.
      cbn [bind]. apply Nat.ltb_lt in Hlen. now rewrite Hlen.
  - intros cfg H. apply startup_ok in H as (mk & Hmk & ->).
    cbn [cfg_MASTER_KEY]. now apply load_master_key_length in Hmk.
  - intros cfg H Ha. apply startup_ok in H as (mk & Hmk & ->).
    cbn [cfg_AUDIT_SECRET]. unfold load_audit_secret, getenv_default. now rewrite Ha.
  - intros e. destruct (getenv env (py "MASTER_KEY")) as [[|c s]|];
      try (intros [= <-]; now left).
    destruct (fromhex (c :: s)) as [b|e'] eqn:E.
    + cbn [bind]. destruct (length b <? 32); cbn [bind]; [|discriminate].
      intros [= <-]. now left.
    + rewrite (fromhex_error_only _ E). unfold fromhex_error.
      destruct (Utf8.encode (c :: s)) as [b|e2] eqn:E2; cbn [bind].
      * destruct (length (slice_to 32 b) <? 32); cbn [bind]; [|discriminate].
        intros [= <-]. now left.
      * intros [= <-]. right. clear E. revert e2 E2.
        generalize (c :: s) as t. induction t as [|x t IH]; cbn [Utf8.encode];
          [discriminate|].
        intros e2. destruct (Utf8.encode_cp x); [|now intros [= <-]].
        destruct (Utf8.encode t); [discriminate|]. intros [= <-]. now apply IH.
Qed.

(** C9, counterexample: with a good master key and no [AUDIT_SECRET] in the
    environment the application starts, with the default audit secret. *)
Lemma C9_default_audit_secret_counterexample :
  let env := [(py "MASTER_KEY", sample_master_hex)] in
  getenv env (py "AUDIT_SECRET") = None /\
  exists mk,
    startup env = Ok {| cfg_MASTER_KEY := mk;
                        cfg_AUDIT_SECRET := py "audit-secret-key-change-this" |}.
Proof. split; [reflexivity|]. eexists. reflexivity. Qed.

(* ------------------------------------------------------------------------- *)
(** ** The exceptions of sealing, opening and unwrapping *)

Lemma pystr_eqb_eq (a b : pystr) : (a =?s b) = true <-> a = b.
Proof.
  revert b; induction a as [|x a IH]; intros [|y b]; simpl; split;
    try congruence; try reflexivity.
  - intros H. apply andb_true_iff in H as [Hx Hab].
    apply N.eqb_eq in Hx. apply IH in Hab. congruence.
  - intros [= -> ->]. apply andb_true_iff. split; [apply N.eqb_refl | now apply IH].
Qed.

Lemma str_in_false (x : pystr) (l l' : list pystr) :
  ~ In x l -> incl l' l -> str_in x l' = false.
Proof.
  intros Hnot Hincl. unfold str_in.
  destruct (existsb (pystr_eqb x) l') eqn:E; trivial.
  apply existsb_exists in E as (y & Hy & Heq). apply pystr_eqb_eq in Heq. subst y.
  exfalso. apply Hnot, Hincl, Hy.
Qed.

Lemma pystr_eqb_false (x y : pystr) (l : list pystr) :
  ~ In x l -> In y l -> (x =?s y) = false.
Proof.
  intros Hnot Hin. destruct (x =?s y) eqn:E; trivial.
  apply pystr_eqb_eq in E. now subst.
Qed.

Ltac in_supported :=
  unfold supported_key_types;
  first [ left; reflexivity | right; in_supported ].


Section Failures.

Context {L : CryptoLib}.




Variable MASTER_KEY : bytes.
Hypothesis MASTER_KEY_length : 32 <= length MASTER_KEY.




End Failures.

Section MarkerFailures.

Context {L : CryptoLib}.



End MarkerFailures.




(* ------------------------------------------------------------------------- *)
(** ** Signing and verifying audit records *)

Lemma ascii_str_app (a b : pystr) : ascii_str a -> ascii_str b -> ascii_str (a ++ b).
Proof. intros Ha Hb. apply Forall_app. now split. Qed.

Lemma ascii_str_py (s : string) :
  forallb (fun c => (c <? 128)%N) (py s) = true -> ascii_str (py s).
Proof.
  intros H. apply Forall_forall. intros c Hc.
  rewrite forallb_forall in H. now apply N.ltb_lt, H.
Qed.

Lemma hex_char_ascii (n : N) : (n < 16)%N -> (hex_char n < 128)%N.
Proof. unfold hex_char. intros H. destruct (n <? 10)%N; lia. Qed.

Lemma u_escape_ascii (c : N) : ascii_str (u_escape c).
Proof.
  unfold u_escape.
  repeat (apply Forall_cons; [first [lia | apply hex_char_ascii, N.mod_lt; discriminate]|]).
  apply Forall_nil.
Qed.

Lemma json_escape_char_ascii (c : N) : ascii_str (json_escape_char c).
Proof.
  unfold json_escape_char.
  repeat match goal with
    | |- context [if (?a =? ?b)%N then _ else _] => destruct (a =? b)%N
    end;
    try (repeat (apply Forall_cons; [lia|]); apply Forall_nil).
  destruct ((32 <=? c)%N && (c <=? 126)%N) eqn:E.
  - apply andb_true_iff in E as [_ E]. apply N.leb_le in E.
    apply Forall_cons; [lia | apply Forall_nil].
  - destruct (c <? 65536)%N; [apply u_escape_ascii|].
    apply ascii_str_app; apply u_escape_ascii.
Qed.

Lemma json_string_ascii (s : pystr) : ascii_str (json_string s).
Proof.
  unfold json_string. apply ascii_str_app; [apply Forall_cons; [lia | apply Forall_nil]|].
  apply ascii_str_app; [|apply Forall_cons; [lia | apply Forall_nil]].
  induction s as [|c s IH]; cbn [flat_map]; [apply Forall_nil|].
  apply ascii_str_app; [apply json_escape_char_ascii | exact IH].
Qed.

Lemma uint_digits_ascii (d : Decimal.uint) : ascii_str (uint_digits d).
Proof.
  induction d; cbn [uint_digits]; try apply Forall_nil;
    (apply Forall_cons; [lia | exact IHd]).
Qed.

Lemma json_value_ascii (v : json) : ascii_str (json_value v).
Proof.
  destruct v as [|n|s]; cbn [json_value].
  - now apply ascii_str_py.
  - destruct n; cbn [str_of_int].
    + apply Forall_cons; [lia | apply Forall_nil].
    + apply uint_digits_ascii.
    + apply Forall_cons; [lia | apply uint_digits_ascii].
  - apply json_string_ascii.
Qed.

Lemma join_ascii (sep : pystr) (l : list pystr) :
  ascii_str sep -> Forall ascii_str l -> ascii_str (join sep l).
Proof.
  intros Hsep Hl. induction Hl as [|x l Hx Hl IH]; cbn [join]; [apply Forall_nil|].
  destruct l as [|y l]; [exact Hx|].
  apply ascii_str_app; [exact Hx|]. apply ascii_str_app; [exact Hsep | exact IH].
Qed.

Lemma json_dumps_ascii (d : list (pystr * json)) : ascii_str (json_dumps d).
Proof.
  unfold json_dumps. apply ascii_str_app; [now apply ascii_str_py|].
  apply ascii_str_app; [|now apply ascii_str_py].
  apply join_ascii; [now apply ascii_str_py|].
  apply Forall_map, Forall_forall. intros kv _.
  apply ascii_str_app; [apply json_string_ascii|].
  apply ascii_str_app; [now apply ascii_str_py | apply json_value_ascii].
Qed.

Lemma encode_ascii (s : pystr) : ascii_str s -> exists b, Utf8.encode s = Ok b.
Proof.
  induction 1 as [|c s Hc Hs (b & IH)]; cbn [Utf8.encode]; [eauto|].
  unfold Utf8.encode_cp. apply N.ltb_lt in Hc. rewrite Hc, IH. eauto.
Qed.

Lemma hexdigest_ascii (b : bytes) : ascii_str (hexdigest b).
Proof.
  unfold hexdigest. induction b as [|x b IH]; cbn [flat_map]; [apply Forall_nil|].
  pose proof (Byte.to_N_bounded x) as Hx. fold (byte_val x) in Hx.
  apply ascii_str_app; [|exact IH].
  apply Forall_cons; [|apply Forall_cons; [|apply Forall_nil]]; apply hex_char_ascii.
  - apply N.Div0.div_lt_upper_bound. lia.
  - apply N.mod_lt. discriminate.
Qed.

Lemma is_ascii_true (s : pystr) : ascii_str s -> is_ascii s = true.
Proof.
  intros H. unfold is_ascii. apply forallb_forall. intros c Hc.
  apply N.ltb_lt. unfold ascii_str in H. rewrite Forall_forall in H. now apply H.
Qed.

Lemma pystr_eqb_refl (s : pystr) : (s =?s s) = true.
Proof. now apply pystr_eqb_eq. Qed.

Section AuditSigning.

Context {L : CryptoLib}.
Variable AUDIT_SECRET : pystr.
Variable isoformat : datetime -> pystr.
Variable secret_bytes : bytes.
Hypothesis AUDIT_SECRET_encodes : Utf8.encode AUDIT_SECRET = Ok secret_bytes.

Lemma calculate_hmac_returns (log_data : list (pystr * json)) :
  exists sig,
    calculate_hmac AUDIT_SECRET log_data = Ok sig /\ is_ascii sig = true.
Proof.
  unfold calculate_hmac. rewrite AUDIT_SECRET_encodes. cbn [bind].
  destruct (encode_ascii (json_dumps_ascii log_data)) as [msg ->]. cbn [bind].
  eexists. split; [reflexivity|]. apply is_ascii_true, hexdigest_ascii.
Qed.

Lemma verify_signed (log : AuditLog) :
  calculate_hmac AUDIT_SECRET
    (log_data_of isoformat (user_id log) (action log) (resource_type log)
       (resource_id log) (ip_address log) (status log) (details log) (user_agent log)
       (timestamp log)) = Ok (hmac_signature log) ->
  verify_audit_log AUDIT_SECRET isoformat log = Ok true.
Proof.
  intros Hsig. unfold verify_audit_log. rewrite Hsig. cbn [bind].
  destruct (calculate_hmac_returns
              (log_data_of isoformat (user_id log) (action log) (resource_type log)
                 (resource_id log) (ip_address log) (status log) (details log)
                 (user_agent log) (timestamp log))) as (sig & Hc & Hascii).
  rewrite Hsig in Hc. injection Hc as <-.
  unfold compare_digest_str. now rewrite Hascii, pystr_eqb_refl.
Qed.

Lemma log_audit_signs user_id' action' resource_type' resource_id' ip_address' status'
    details' user_agent' (w : World) :
  exists l w',
    log_audit AUDIT_SECRET isoformat user_id' action' resource_type' resource_id'
      ip_address' status' details' user_agent' w = (Ok tt, w') /\
    audit_logs w' = audit_logs w ++ [l] /\
    crypto_keys w' = crypto_keys w /\
    rng w' = rng w /\
    timestamp l = clock w (tick w) /\
    status l = status' /\
    verify_audit_log AUDIT_SECRET isoformat l = Ok true.
Proof.
  unfold log_audit, bindE, utcnow, liftE.
  destruct (calculate_hmac_returns
              (log_data_of isoformat user_id' action' resource_type' resource_id'
                 ip_address' status' details' user_agent' (clock w (tick w))))
    as (sig & Hc & Hascii).
  rewrite Hc. eexists _, _. split; [reflexivity|].
  repeat split. apply verify_signed. exact Hc.
Qed.

End AuditSigning.



(* ------------------------------------------------------------------------- *)
(** ** The key lifecycle *)

Lemma find_key_id (key_id : Z) (keys : list CryptoKey) (k : CryptoKey) :
  find_key key_id keys = Some k -> id k = key_id.
Proof.
  unfold find_key. intros H. apply find_some in H as [_ H]. now apply Z.eqb_eq in H.
Qed.

Lemma find_key_update (key_id : Z) (keys : list CryptoKey) (k k' : CryptoKey) :
  find_key key_id keys = Some k -> id k' = key_id ->
  find_key key_id (update_key k' keys) = Some k'.
Proof.
  unfold find_key. intros Hfind Hid. induction keys as [|x keys IH]; [discriminate|].
  cbn [find update_key] in *. rewrite Hid.
  destruct (id x =? key_id)%Z eqn:E.
  - cbn [find]. rewrite Hid. now rewrite Z.eqb_refl.
  - cbn [find]. rewrite E. now apply IH.
Qed.

Section Lifecycle.

Context {L : CryptoLib}.
Variable MASTER_KEY : bytes.
Variable AUDIT_SECRET : pystr.
Variable isoformat : datetime -> pystr.
Variable verify_token : pystr -> outcome (Z * pystr).
Variable require_role : pystr -> list pystr -> outcome unit.
Variable b64encode : bytes -> bytes.
Variable b64decode : pystr -> result bytes.
Variable secret_bytes : bytes.
Hypothesis AUDIT_SECRET_encodes : Utf8.encode AUDIT_SECRET = Ok secret_bytes.

(** An audit record is appended; nothing else of the state changes but the
    clock. *)
Lemma audit_appends user_id' action' resource_type' resource_id' status' (w : World) :
  exists w',
    audit AUDIT_SECRET isoformat user_id' action' resource_type' resource_id' status' w
      = (Ok tt, w') /\
    crypto_keys w' = crypto_keys w /\
    rng w' = rng w /\
    length (audit_logs w') = S (length (audit_logs w)).
Proof.
  unfold audit.
  destruct (@log_audit_signs L AUDIT_SECRET isoformat secret_bytes AUDIT_SECRET_encodes
              (Some user_id') action' resource_type' resource_id' LOCALHOST status'
              None None w) as (l & w' & Hrun & Hlogs & Hkeys & Hrng & _).
  exists w'. repeat split; trivial.
  rewrite Hlogs, length_app. simpl. lia.
Qed.

Lemma revoke_key_found key_id credentials user_id' user_role (w : World) (k : CryptoKey) :
  verify_token credentials = Resp (user_id', user_role) ->
  require_role user_role [py "admin"] = Resp tt ->
  find_key key_id (crypto_keys w) = Some k ->
  let k' := with_revocation k (clock w (tick w)) in
  exists w',
    revoke_key AUDIT_SECRET isoformat verify_token require_role key_id credentials w
      = (Resp (key_response k'), w') /\
    find_key key_id (crypto_keys w') = Some k'.
Proof.
  intros Hv Hr Hfind k'.
  unfold revoke_key, bindH, pureH. rewrite Hv, Hr, Hfind.
  unfold liftH, bindE, utcnow, commit_key, retE.
  destruct (audit_appends user_id' (py "revoke_key") (py "key") (Some (str_of_int key_id))
              (py "success")
              (set_crypto_keys (update_key k' (crypto_keys (set_tick (S (tick w)) w)))
                 (set_tick (S (tick w)) w)))
    as (w' & Haudit & Hkeys & _).
  exists w'. fold k'. rewrite Haudit. split; [reflexivity|].
  rewrite Hkeys. cbn [crypto_keys set_crypto_keys set_tick].
  eapply find_key_update; [exact Hfind|]. cbn [id k' with_revocation].
  now apply find_key_id in Hfind.
Qed.

Lemma rotate_key_revoked key_id credentials user_id' user_role (w : World) (k : CryptoKey) :
  verify_token credentials = Resp (user_id', user_role) ->
  require_role user_role [py "admin"] = Resp tt ->
  find_key key_id (crypto_keys w) = Some k ->
  is_revoked k = true ->
  rotate_key MASTER_KEY AUDIT_SECRET isoformat verify_token require_role key_id
    credentials w
    = (HTTPException 400 (py "Cannot rotate a revoked key"), w).
Proof.
  intros Hv Hr Hfind Hrev.
  unfold rotate_key, bindH, pureH. now rewrite Hv, Hr, Hfind, Hrev.
Qed.

Lemma rotate_key_absent key_id credentials user_id' user_role (w : World) :
  verify_token credentials = Resp (user_id', user_role) ->
  require_role user_role [py "admin"] = Resp tt ->
  find_key key_id (crypto_keys w) = None ->
  rotate_key MASTER_KEY AUDIT_SECRET isoformat verify_token require_role key_id
    credentials w
    = (HTTPException 404 (py "Key not found"), w).
Proof.
  intros Hv Hr Hfind.
  unfold rotate_key, bindH, pureH. now rewrite Hv, Hr, Hfind.
Qed.

Lemma generate_key_supported key_type (g : RNG) :
  In key_type supported_key_types ->
  exists raw g1, generate_key key_type g = (Ok raw, g1).
Proof.
  unfold supported_key_types. intros Hin.
  destruct Hin as [<-|[<-|[<-|[<-|[<-|[<-|[<-|[<-|[<-|[<-|[<-|[<-|[]]]]]]]]]]]]];
    unfold generate_key; eval_tags;
    unfold draw, generate_rsa, generate_ec, generate_ed;
    match goal with |- context [let (_, _) := ?x in _] => destruct x end; eauto.
Qed.

Hypothesis MASTER_KEY_length : 32 <= length MASTER_KEY.

(** The statements that rotate a row, for a row of a supported type. *)
Lemma rotate_row_ok (k : CryptoKey) (w : World) :
  In (key_type k) supported_key_types ->
  exists raw g1 wrapped g2 w',
    generate_key (key_type k) (rng w) = (Ok raw, g1) /\
    encrypt_key_with_master MASTER_KEY raw g1 = (Ok wrapped, g2) /\
    decrypt_key_with_master MASTER_KEY wrapped = Ok raw /\
    rotate_row MASTER_KEY k w = (Ok (with_rotation k wrapped (clock w (tick w))), w') /\
    crypto_keys w'
      = update_key (with_rotation k wrapped (clock w (tick w))) (crypto_keys w) /\
    rng w' = g2 /\ audit_logs w' = audit_logs w /\
    clock w' = clock w /\ tick w' = S (tick w).
Proof.
  intros Hin.
  destruct (generate_key_supported (rng w) Hin) as (raw & g1 & Hgen).
  destruct (wrap_unwrap MASTER_KEY MASTER_KEY_length raw g1) as (Hwrap & _ & _ & Hunwrap).
  eexists raw, g1, _, _, _. split; [exact Hgen|]. split; [exact Hwrap|].
  split; [exact Hunwrap|].
  unfold rotate_row, bindE, randE, utcnow, commit_key, retE.
  rewrite Hgen. cbn [rng set_rng]. rewrite Hwrap.
  cbn [rng set_rng clock tick set_tick crypto_keys set_crypto_keys].
  split; [reflexivity|]. repeat split.
Qed.

Lemma rotate_key_active key_id credentials user_id' user_role (w : World) (k : CryptoKey) :
  verify_token credentials = Resp (user_id', user_role) ->
  require_role user_role [py "admin"] = Resp tt ->
  find_key key_id (crypto_keys w) = Some k ->
  is_revoked k = false ->
  In (key_type k) supported_key_types ->
  exists raw g1 wrapped g2 w',
    generate_key (key_type k) (rng w) = (Ok raw, g1) /\
    encrypt_key_with_master MASTER_KEY raw g1 = (Ok wrapped, g2) /\
    decrypt_key_with_master MASTER_KEY wrapped = Ok raw /\
    rotate_key MASTER_KEY AUDIT_SECRET isoformat verify_token require_role key_id
      credentials w
      = (Resp (key_response (with_rotation k wrapped (clock w (tick w)))), w') /\
    find_key key_id (crypto_keys w')
      = Some (with_rotation k wrapped (clock w (tick w))).
Proof.
  intros Hv Hr Hfind Hrev Hin.
  destruct (rotate_row_ok k w Hin)
    as (raw & g1 & wrapped & g2 & w1 & Hgen & Hwrap & Hunwrap & Hrow & Hkeys & _).
  destruct (audit_appends user_id' (py "rotate_key") (py "key")
              (Some (str_of_int key_id)) (py "success") w1)
    as (w' & Haudit & Hkeys' & _).
  exists raw, g1, wrapped, g2, w'. repeat split; trivial.
  - unfold rotate_key, bindH, pureH. rewrite Hv, Hr, Hfind, Hrev.
    unfold try_except, bindE, retE. now rewrite Hrow, Haudit.
  - rewrite Hkeys', Hkeys. eapply find_key_update; [exact Hfind|].
    cbn [id with_rotation]. now apply find_key_id in Hfind.
Qed.

Lemma rotate_key_if_needed_due (k : CryptoKey) (rotation_days : Z) (w : World) :
  should_rotate_key (clock w (tick w)) k rotation_days = Ok true ->
  find_key (id k) (crypto_keys w) = Some k ->
  In (key_type k) supported_key_types ->
  exists wrapped w',
    rotate_key_if_needed MASTER_KEY k rotation_days w = (Ok true, w') /\
    find_key (id k) (crypto_keys w')
      = Some (with_rotation k wrapped (clock w (S (tick w)))).
Proof.
  intros Hdue Hfind Hin.
  destruct (rotate_row_ok k (set_tick (S (tick w)) w) Hin)
    as (raw & g1 & wrapped & g2 & w1 & _ & _ & _ & Hrow & Hkeys & _).
  exists wrapped, w1. split.
  - unfold rotate_key_if_needed, bindE, utcnow, liftE, retE. rewrite Hdue.
    cbn [negb]. now rewrite Hrow.
  - rewrite Hkeys. cbn [crypto_keys set_tick clock tick].
    eapply find_key_update; [exact Hfind | reflexivity].
Qed.

Lemma rotate_key_if_needed_revoked (k : CryptoKey) (rotation_days : Z) (w : World) :
  is_revoked k = true ->
  exists w',
    rotate_key_if_needed MASTER_KEY k rotation_days w = (Ok false, w') /\
    crypto_keys w' = crypto_keys w.
Proof.
  intros Hrev. eexists. split.
  - unfold rotate_key_if_needed, bindE, utcnow, liftE, retE.
    rewrite should_rotate_key_inactive by now left. reflexivity.
  - reflexivity.
Qed.

(** *** The lifecycle tests of [encrypt_data] and [decrypt_data] *)

Lemma encrypt_data_refused key_id plaintext credentials token_data (w : World)
    (k : CryptoKey) :
  verify_token credentials = Resp token_data ->
  find_key key_id (crypto_keys w) = Some k ->
  encrypt_refused k = true ->
  exists w',
    encrypt_data MASTER_KEY AUDIT_SECRET isoformat verify_token b64encode key_id
      plaintext credentials w
      = (HTTPException 400 (py "Key is not active or has been revoked"), w') /\
    rng w' = rng w /\ crypto_keys w' = crypto_keys w.
Proof.
  intros Hv Hfind Hgate.
  unfold encrypt_data, bindH, pureH. rewrite Hv, Hfind, Hgate.
  destruct (audit_appends (fst token_data) (py "encrypt") (py "data")
              (Some (str_of_int key_id)) (py "failure") w)
    as (w' & Haudit & Hkeys & Hrng & _).
  exists w'. unfold liftH, raiseH. rewrite Haudit. auto.
Qed.

Lemma encrypt_data_passed key_id plaintext credentials token_data (w : World)
    (k : CryptoKey) raw sealed g' text :
  verify_token credentials = Resp token_data ->
  find_key key_id (crypto_keys w) = Some k ->
  encrypt_refused k = false ->
  decrypt_key_with_master MASTER_KEY (encrypted_key k) = Ok raw ->
  encrypt_with_key plaintext raw (key_type k) (rng w) = (Ok sealed, g') ->
  Utf8.decode (b64encode sealed) = Ok text ->
  exists w',
    encrypt_data MASTER_KEY AUDIT_SECRET isoformat verify_token b64encode key_id
      plaintext credentials w
      = (Resp {| e_ciphertext := text; e_key_id := id k;
                 e_key_version := key_version k |}, w') /\
    crypto_keys w' = crypto_keys w.
Proof.
  intros Hv Hfind Hgate Hraw Hseal Htext.
  unfold encrypt_data, bindH, pureH. rewrite Hv, Hfind, Hgate.
  destruct (audit_appends (fst token_data) (py "encrypt") (py "data")
              (Some (str_of_int key_id)) (py "success") (set_rng g' w))
    as (w' & Haudit & Hkeys & _).
  exists w'. unfold try_except, bindE, liftE, randE, retE.
  rewrite Hraw, Hseal, Haudit, Htext. auto.
Qed.

Lemma encrypt_data_resp key_id plaintext credentials (w w' : World) (k : CryptoKey) r :
  find_key key_id (crypto_keys w) = Some k ->
  encrypt_data MASTER_KEY AUDIT_SECRET isoformat verify_token b64encode key_id
    plaintext credentials w = (Resp r, w') ->
  encrypt_refused k = false.
Proof.
  intros Hfind. unfold encrypt_data, bindH, pureH.
  destruct (verify_token credentials) as [token_data| |]; try discriminate.
  rewrite Hfind. destruct (encrypt_refused k); trivial.
  destruct (audit_appends (fst token_data) (py "encrypt") (py "data")
              (Some (str_of_int key_id)) (py "failure") w) as (w1 & Haudit & _).
  unfold liftH, raiseH. rewrite Haudit. discriminate.
Qed.

Lemma decrypt_data_refused key_id ciphertext credentials token_data (w : World)
    (k : CryptoKey) :
  verify_token credentials = Resp token_data ->
  find_key key_id (crypto_keys w) = Some k ->
  decrypt_refused k = true ->
  exists w',
    decrypt_data MASTER_KEY AUDIT_SECRET isoformat verify_token b64decode key_id
      ciphertext credentials w
      = (HTTPException 400 (py "Key is not available"), w') /\
    rng w' = rng w /\ crypto_keys w' = crypto_keys w.
Proof.
  intros Hv Hfind Hgate.
  unfold decrypt_data, bindH, pureH. rewrite Hv, Hfind, Hgate.
  destruct (audit_appends (fst token_data) (py "decrypt") (py "data")
              (Some (str_of_int key_id)) (py "failure") w)
    as (w' & Haudit & Hkeys & Hrng & _).
  exists w'. unfold liftH, raiseH. rewrite Haudit. auto.
Qed.

Lemma decrypt_data_passed key_id ciphertext credentials token_data (w : World)
    (k : CryptoKey) raw ciphertext_bytes plaintext :
  verify_token credentials = Resp token_data ->
  find_key key_id (crypto_keys w) = Some k ->
  decrypt_refused k = false ->
  decrypt_key_with_master MASTER_KEY (encrypted_key k) = Ok raw ->
  b64decode ciphertext = Ok ciphertext_bytes ->
  decrypt_with_key ciphertext_bytes raw (key_type k) = Ok plaintext ->
  exists w',
    decrypt_data MASTER_KEY AUDIT_SECRET isoformat verify_token b64decode key_id
      ciphertext credentials w
      = (Resp {| d_plaintext := plaintext; d_key_id := id k;
                 d_key_version := key_version k |}, w') /\
    crypto_keys w' = crypto_keys w.
Proof.
  intros Hv Hfind Hgate Hraw Hb64 Hopen.
  unfold decrypt_data, bindH, pureH. rewrite Hv, Hfind, Hgate.
  destruct (audit_appends (fst token_data) (py "decrypt") (py "data")
              (Some (str_of_int key_id)) (py "success") w)
    as (w' & Haudit & Hkeys & _).
  exists w'. unfold try_except, bindE, liftE, retE.
  rewrite Hraw, Hb64, Hopen, Haudit. auto.
Qed.

Lemma decrypt_data_resp key_id ciphertext credentials (w w' : World) (k : CryptoKey) r :
  find_key key_id (crypto_keys w) = Some k ->
  decrypt_data MASTER_KEY AUDIT_SECRET isoformat verify_token b64decode key_id
    ciphertext credentials w = (Resp r, w') ->
  decrypt_refused k = false.
Proof.
  intros Hfind. unfold decrypt_data, bindH, pureH.
  destruct (verify_token credentials) as [token_data| |]; try discriminate.
  rewrite Hfind. destruct (decrypt_refused k); trivial.
  destruct (audit_appends (fst token_data) (py "decrypt") (py "data")
              (Some (str_of_int key_id)) (py "failure") w) as (w1 & Haudit & _).
  unfold liftH, raiseH. rewrite Haudit. discriminate.
Qed.

End Lifecycle.

(** C3 (as amended): [revoke_key] on a record that is already Revoked is
    not an error and leaves the record Revoked: id, name, algorithm, wrapped
    key, version, owner, [created_at] and [rotated_at] are kept, [is_active]
    is False, and [revoked_at] is stamped again with the current time.  No
    rotation changes a Revoked record: [rotate_key] refuses it (status 400)
    and [rotate_key_if_needed] returns False, both leaving the table as it
    was. *)
Theorem C3_revoke_on_revoked {L : CryptoLib} (MASTER_KEY : bytes) (AUDIT_SECRET : pystr)
    (isoformat : datetime -> pystr) (verify_token : pystr -> outcome (Z * pystr))
    (require_role : pystr -> list pystr -> outcome unit) (secret_bytes : bytes)
    (key_id : Z) (credentials : pystr) (user_id' : Z) (user_role : pystr)
    (w : World) (k : CryptoKey) :
  Utf8.encode AUDIT_SECRET = Ok secret_bytes ->
  verify_token credentials = Resp (user_id', user_role) ->
  require_role user_role [py "admin"] = Resp tt ->
  find_key key_id (crypto_keys w) = Some k ->
  is_revoked k = true ->
  let k' := with_revocation k (clock w (tick w)) in
  (exists w',
     revoke_key AUDIT_SECRET isoformat verify_token require_role key_id credentials w
       = (Resp (key_response k'), w') /\
     find_key key_id (crypto_keys w') = Some k') /\
  (is_revoked k' = true /\ is_active k' = false /\
   revoked_at k' = Some (clock w (tick w))) /\
  (id k' = id k /\ name k' = name k /\ key_type k' = key_type k /\
   encrypted_key k' = encrypted_key k /\ key_version k' = key_version k /\
   created_by k' = created_by k /\ created_at k' = created_at k /\
   rotated_at k' = rotated_at k) /\
  rotate_key MASTER_KEY AUDIT_SECRET isoformat verify_token require_role key_id
    credentials w = (HTTPException 400 (py "Cannot rotate a revoked key"), w) /\
  (forall rotation_days, exists w',
     rotate_key_if_needed MASTER_KEY k rotation_days w = (Ok false, w') /\
     crypto_keys w' = crypto_keys w).
Proof.
  intros Hsecret Hv Hr Hfind Hrev k'. split; [|split; [|split; [|split]]].
  - exact (@revoke_key_found L AUDIT_SECRET isoformat verify_token require_role
             secret_bytes Hsecret key_id credentials user_id' user_role w k Hv Hr Hfind).
  - repeat split.
  - repeat split.
  - exact (@rotate_key_revoked L MASTER_KEY AUDIT_SECRET isoformat verify_token
             require_role key_id credentials user_id' user_role w k Hv Hr Hfind Hrev).
  - intros rotation_days. now apply rotate_key_if_needed_revoked.
Qed.

Lemma C3_revoke_on_revoked_witness :
  let w := toy_world [revoked_key] in
  let k' := with_revocation revoked_key 1000%Z in
  is_revoked revoked_key = true /\
  find_key 1 (crypto_keys w) = Some revoked_key /\
  (exists w',
     @revoke_key Toy.lib Toy.AUDIT_SECRET Toy.isoformat Toy.verify_token
       Toy.require_role 1 (py "admin-token") w = (Resp (key_response k'), w') /\
     find_key 1 (crypto_keys w') = Some k').
Proof.
  split; [reflexivity|]. split; [reflexivity|].
  exact (proj1 (@C3_revoke_on_revoked Toy.lib Toy.MASTER_KEY Toy.AUDIT_SECRET
                  Toy.isoformat Toy.verify_token Toy.require_role (b_ "audit-secret")
                  1%Z (py "admin-token") 1%Z (py "admin") (toy_world [revoked_key])
                  revoked_key eq_refl eq_refl eq_refl eq_refl eq_refl)).
Defined.

(** C3, counterexample: revoking a record that was revoked at instant 5
    succeeds and stores a record that differs from the one before: its
    [revoked_at] is now the current instant, 1000. *)
Lemma C3_revoke_restamps_counterexample :
  let w := toy_world [revoked_key] in
  is_revoked revoked_key = true /\
  revoked_at revoked_key = Some 5%Z /\
  find_key 1 (crypto_keys w) = Some revoked_key /\
  exists r w',
    @revoke_key Toy.lib Toy.AUDIT_SECRET Toy.isoformat Toy.verify_token
      Toy.require_role 1 (py "admin-token") w = (Resp r, w') /\
    r_revoked_at r = Some 1000%Z /\
    find_key 1 (crypto_keys w') <> Some revoked_key /\
    option_map revoked_at (find_key 1 (crypto_keys w')) = Some (Some 1000%Z).
Proof.
  cbv zeta. split; [reflexivity|]. split; [reflexivity|]. split; [reflexivity|].
  eexists _, _. split; [vm_compute; reflexivity|].
  split; [reflexivity|]. split; [vm_compute; discriminate | vm_compute; reflexivity].
Qed.

(** C4: the access-for-use policy.  For a record that is found:
    [encrypt_data] answers only for a record that is Active and not Revoked,
    and otherwise fails (status 400) without touching the keys or drawing a
    nonce; [decrypt_data] is refused (status 400) exactly for a record that
    is neither active nor revoked, and for an Active or a Revoked record it
    answers with the plaintext whenever unwrapping, decoding and opening
    succeed. *)
Theorem C4_access_policy {L : CryptoLib} (MASTER_KEY : bytes) (AUDIT_SECRET : pystr)
    (isoformat : datetime -> pystr) (verify_token : pystr -> outcome (Z * pystr))
    (b64encode : bytes -> bytes) (b64decode : pystr -> result bytes)
    (secret_bytes : bytes) (key_id : Z) (credentials : pystr)
    (token_data : Z * pystr) (w : World) (k : CryptoKey) :
  Utf8.encode AUDIT_SECRET = Ok secret_bytes ->
  verify_token credentials = Resp token_data ->
  find_key key_id (crypto_keys w) = Some k ->
  let encrypt := encrypt_data MASTER_KEY AUDIT_SECRET isoformat verify_token
                   b64encode key_id in
  let decrypt := decrypt_data MASTER_KEY AUDIT_SECRET isoformat verify_token
                   b64decode key_id in
  (* encrypt succeeds only on Active and not Revoked *)
  (forall plaintext r w',
     encrypt plaintext credentials w = (Resp r, w') ->
     is_active k = true /\ is_revoked k = false) /\
  (forall plaintext,
     is_active k = false \/ is_revoked k = true ->
     exists w',
       encrypt plaintext credentials w
         = (HTTPException 400 (py "Key is not active or has been revoked"), w') /\
       rng w' = rng w /\ crypto_keys w' = crypto_keys w) /\
  (forall plaintext raw sealed g' text,
     is_active k = true -> is_revoked k = false ->
     decrypt_key_with_master MASTER_KEY (encrypted_key k) = Ok raw ->
     encrypt_with_key plaintext raw (key_type k) (rng w) = (Ok sealed, g') ->
     Utf8.decode (b64encode sealed) = Ok text ->
     exists w',
       encrypt plaintext credentials w
         = (Resp {| e_ciphertext := text; e_key_id := id k;
                    e_key_version := key_version k |}, w')) /\
  (* decrypt is permitted exactly on Active or Revoked *)
  (forall ciphertext r w',
     decrypt ciphertext credentials w = (Resp r, w') ->
     is_active k = true \/ is_revoked k = true) /\
  (forall ciphertext,
     is_active k = false -> is_revoked k = false ->
     exists w',
       decrypt ciphertext credentials w
         = (HTTPException 400 (py "Key is not available"), w') /\
       rng w' = rng w /\ crypto_keys w' = crypto_keys w) /\
  (forall ciphertext raw ciphertext_bytes plaintext,
     is_active k = true \/ is_revoked k = true ->
     decrypt_key_with_master MASTER_KEY (encrypted_key k) = Ok raw ->
     b64decode ciphertext = Ok ciphertext_bytes ->
     decrypt_with_key ciphertext_bytes raw (key_type k) = Ok plaintext ->
     exists w',
       decrypt ciphertext credentials w
         = (Resp {| d_plaintext := plaintext; d_key_id := id k;
                    d_key_version := key_version k |}, w')).
Proof.
  intros Hsecret Hv Hfind encrypt decrypt. subst encrypt decrypt.
  split; [|split; [|split; [|split; [|split]]]].
  - intros plaintext r w' H.
    apply (@encrypt_data_resp L MASTER_KEY AUDIT_SECRET isoformat verify_token b64encode
             secret_bytes Hsecret key_id plaintext credentials w w' k r Hfind) in H.
    unfold encrypt_refused in H. now destruct (is_active k), (is_revoked k).
  - intros plaintext Hk.
    apply (@encrypt_data_refused L MASTER_KEY AUDIT_SECRET isoformat verify_token
             b64encode secret_bytes Hsecret key_id plaintext credentials token_data w k
             Hv Hfind).
    unfold encrypt_refused. destruct Hk as [-> | ->]; [reflexivity | apply orb_true_r].
  - intros plaintext raw sealed g' text Ha Hr Hraw Hseal Htext.
    assert (Hgate : encrypt_refused k = false)
      by (unfold encrypt_refused; now rewrite Ha, Hr).
    destruct (@encrypt_data_passed L MASTER_KEY AUDIT_SECRET isoformat verify_token
                b64encode secret_bytes Hsecret key_id plaintext credentials token_data
                w k raw sealed g' text Hv Hfind Hgate Hraw Hseal Htext) as (w' & H & _).
    eauto.
  - intros ciphertext r w' H.
    apply (@decrypt_data_resp L MASTER_KEY AUDIT_SECRET isoformat verify_token b64decode
             secret_bytes Hsecret key_id ciphertext credentials w w' k r Hfind) in H.
    unfold decrypt_refused in H.
    destruct (is_active k), (is_revoked k); auto; discriminate H.
  - intros ciphertext Ha Hr.
    apply (@decrypt_data_refused L MASTER_KEY AUDIT_SECRET isoformat verify_token
             b64decode secret_bytes Hsecret key_id ciphertext credentials token_data w k
             Hv Hfind).
    unfold decrypt_refused. now rewrite Ha, Hr.
  - intros ciphertext raw ciphertext_bytes plaintext Hk Hraw Hb64 Hopen.
    assert (Hgate : decrypt_refused k = false)
      by (unfold decrypt_refused;
          destruct Hk as [-> | ->]; [reflexivity | apply andb_false_r]).
    destruct (@decrypt_data_passed L MASTER_KEY AUDIT_SECRET isoformat verify_token
                b64decode secret_bytes Hsecret key_id ciphertext credentials token_data
                w k raw ciphertext_bytes plaintext Hv Hfind Hgate Hraw Hb64 Hopen)
      as (w' & H & _).
    eauto.
Qed.

Lemma C4_access_policy_witness :
  let w := toy_world [revoked_key] in
  Utf8.encode Toy.AUDIT_SECRET = Ok (b_ "audit-secret") /\
  Toy.verify_token (py "user-token") = Resp (2%Z, py "user") /\
  find_key 1 (crypto_keys w) = Some revoked_key /\
  exists w',
    @encrypt_data Toy.lib Toy.MASTER_KEY Toy.AUDIT_SECRET Toy.isoformat Toy.verify_token
      Toy.b64encode 1 (py "hello") (py "user-token") w
      = (HTTPException 400 (py "Key is not active or has been revoked"), w') /\
    rng w' = rng w /\ crypto_keys w' = crypto_keys w.
Proof.
  split; [reflexivity|]. split; [reflexivity|]. split; [reflexivity|].
  apply (proj1 (proj2 (@C4_access_policy Toy.lib Toy.MASTER_KEY Toy.AUDIT_SECRET
                         Toy.isoformat Toy.verify_token Toy.b64encode Toy.b64decode
                         (b_ "audit-secret") 1%Z (py "user-token") (2%Z, py "user")
                         (toy_world [revoked_key]) revoked_key
                         eq_refl eq_refl eq_refl)) (py "hello")).
  right. reflexivity.
Defined.

(** C5: for an authorised caller and a loaded master key, [rotate_key] fails
    with status 404 when the key id is absent and with status 400 when the
    record is Revoked, changing nothing; otherwise (the record's algorithm
    being one of the supported tags) it generates new material of the
    record's algorithm, stores its wrap (which unwraps to that material),
    increments the version by exactly 1 and stamps [rotated_at], the id and
    the algorithm (and every other column) staying as they were.
    [rotate_key_if_needed] does the same to a record that is due. *)
Theorem C5_rotate {L : CryptoLib} (MASTER_KEY : bytes) (AUDIT_SECRET : pystr)
    (isoformat : datetime -> pystr) (verify_token : pystr -> outcome (Z * pystr))
    (require_role : pystr -> list pystr -> outcome unit) (secret_bytes : bytes)
    (key_id : Z) (credentials : pystr) (user_id' : Z) (user_role : pystr) (w : World) :
  32 <= length MASTER_KEY ->
  Utf8.encode AUDIT_SECRET = Ok secret_bytes ->
  verify_token credentials = Resp (user_id', user_role) ->
  require_role user_role [py "admin"] = Resp tt ->
  let rotate := rotate_key MASTER_KEY AUDIT_SECRET isoformat verify_token require_role in
  (find_key key_id (crypto_keys w) = None ->
   rotate key_id credentials w = (HTTPException 404 (py "Key not found"), w)) /\
  (forall k,
     find_key key_id (crypto_keys w) = Some k -> is_revoked k = true ->
     rotate key_id credentials w
       = (HTTPException 400 (py "Cannot rotate a revoked key"), w)) /\
  (forall k,
     find_key key_id (crypto_keys w) = Some k -> is_revoked k = false ->
     In (key_type k) supported_key_types ->
     exists raw g1 wrapped g2 w' k',
       generate_key (key_type k) (rng w) = (Ok raw, g1) /\
       encrypt_key_with_master MASTER_KEY raw g1 = (Ok wrapped, g2) /\
       decrypt_key_with_master MASTER_KEY wrapped = Ok raw /\
       rotate key_id credentials w = (Resp (key_response k'), w') /\
       find_key key_id (crypto_keys w') = Some k' /\
       key_version k' = (key_version k + 1)%Z /\
       encrypted_key k' = wrapped /\
       rotated_at k' = Some (clock w (tick w)) /\
       id k' = id k /\ key_type k' = key_type k /\
       name k' = name k /\ is_active k' = is_active k /\
       is_revoked k' = is_revoked k /\ created_by k' = created_by k /\
       created_at k' = created_at k /\ revoked_at k' = revoked_at k) /\
  (forall k rotation_days,
     find_key (id k) (crypto_keys w) = Some k ->
     should_rotate_key (clock w (tick w)) k rotation_days = Ok true ->
     In (key_type k) supported_key_types ->
     exists w' k',
       rotate_key_if_needed MASTER_KEY k rotation_days w = (Ok true, w') /\
       find_key (id k) (crypto_keys w') = Some k' /\
       key_version k' = (key_version k + 1)%Z /\
       rotated_at k' = Some (clock w (S (tick w))) /\
       id k' = id k /\ key_type k' = key_type k).
Proof.
  intros Hlen Hsecret Hv Hr rotate. subst rotate. split; [|split; [|split]].
  - now apply rotate_key_absent with (user_id' := user_id') (user_role := user_role).
  - intros k. now apply rotate_key_revoked with (user_id' := user_id') (user_role := user_role).
  - intros k Hfind Hrev Hin.
    destruct (@rotate_key_active L MASTER_KEY AUDIT_SECRET isoformat verify_token
                require_role secret_bytes Hsecret Hlen key_id credentials user_id'
                user_role w k Hv Hr Hfind Hrev Hin)
      as (raw & g1 & wrapped & g2 & w' & Hgen & Hwrap & Hunwrap & Hrot & Hstored).
    exists raw, g1, wrapped, g2, w', (with_rotation k wrapped (clock w (tick w))).
    repeat split; trivial.
  - intros k rotation_days Hfind Hdue Hin.
    destruct (@rotate_key_if_needed_due L MASTER_KEY Hlen k rotation_days w Hdue Hfind Hin)
      as (wrapped & w' & Hrot & Hstored).
    exists w', (with_rotation k wrapped (clock w (S (tick w)))).
    repeat split; trivial.
Qed.

Lemma C5_rotate_witness :
  let w := toy_world [active_key] in
  32 <= length Toy.MASTER_KEY /\
  find_key 1 (crypto_keys w) = Some active_key /\
  is_revoked active_key = false /\
  In (key_type active_key) supported_key_types /\
  exists raw g1 wrapped g2 w' k',
    @generate_key Toy.lib (key_type active_key) (rng w) = (Ok raw, g1) /\
    @encrypt_key_with_master Toy.lib Toy.MASTER_KEY raw g1 = (Ok wrapped, g2) /\
    @decrypt_key_with_master Toy.lib Toy.MASTER_KEY wrapped = Ok raw /\
    @rotate_key Toy.lib Toy.MASTER_KEY Toy.AUDIT_SECRET Toy.isoformat Toy.verify_token
      Toy.require_role 1 (py "admin-token") w = (Resp (key_response k'), w') /\
    find_key 1 (crypto_keys w') = Some k' /\
    key_version k' = 4%Z /\
    id k' = 1%Z /\ key_type k' = py "AES256GCM".
Proof.
  assert (Hin : In (key_type active_key) supported_key_types).
  { unfold supported_key_types. right. left. reflexivity. }
  split; [exact (le_n 32)|]. split; [reflexivity|]. split; [reflexivity|].
  split; [exact Hin|].
  destruct (proj1 (proj2 (proj2
              (@C5_rotate Toy.lib Toy.MASTER_KEY Toy.AUDIT_SECRET Toy.isoformat
                 Toy.verify_token Toy.require_role (b_ "audit-secret") 1%Z
                 (py "admin-token") 1%Z (py "admin") (toy_world [active_key])
                 (le_n 32) eq_refl eq_refl eq_refl)))
              active_key eq_refl eq_refl Hin)
    as (raw & g1 & wrapped & g2 & w' & k' & Hgen & Hwrap & Hunwrap & Hrot & Hstored
        & Hver & _ & _ & Hid & Hty & _).
  exists raw, g1, wrapped, g2, w', k'. repeat split; trivial.
Defined.

(* ------------------------------------------------------------------------- *)
(** ** What the handlers do to the table of keys *)

Set Default Proof Using "Type".

Ltac world_fields :=
  cbn [crypto_keys key_seq rng clock tick audit_logs log_seq set_crypto_keys set_key_seq
       set_rng set_tick add_audit_log fst snd] in *.

Ltac frame_eqs :=
  repeat match goal with H : _ /\ _ |- _ => destruct H end;
  repeat split; congruence.

Lemma find_key_update_other (j : Z) (k' : CryptoKey) (keys : list CryptoKey) :
  j <> id k' -> find_key j (update_key k' keys) = find_key j keys.
Proof.
  intros Hj. unfold find_key. induction keys as [|x keys IH]; [reflexivity|].
  cbn [update_key]. destruct (id x =? id k')%Z eqn:E.
  - apply Z.eqb_eq in E. cbn [find].
    replace (id k' =? j)%Z with false by (symmetry; apply Z.eqb_neq; lia).
    replace (id x =? j)%Z with false by (symmetry; apply Z.eqb_neq; lia).
    reflexivity.
  - cbn [find]. now rewrite IH.
Qed.

Lemma find_key_remove_other (j key_id : Z) (keys : list CryptoKey) :
  j <> key_id -> find_key j (remove_key key_id keys) = find_key j keys.
Proof.
  intros Hj. unfold find_key. induction keys as [|x keys IH]; [reflexivity|].
  cbn [remove_key]. destruct (id x =? key_id)%Z eqn:E.
  - apply Z.eqb_eq in E. cbn [find].
    now replace (id x =? j)%Z with false by (symmetry; apply Z.eqb_neq; lia).
  - cbn [find]. now rewrite IH.
Qed.

Lemma find_key_none (j : Z) (keys : list CryptoKey) :
  find_key j keys = None <-> ~ In j (map id keys).
Proof.
  unfold find_key. induction keys as [|x keys IH]; cbn [find map In].
  - tauto.
  - destruct (id x =? j)%Z eqn:E.
    + apply Z.eqb_eq in E. split; [discriminate | intros H; exfalso; apply H; now left].
    + apply Z.eqb_neq in E. rewrite IH. tauto.
Qed.

Lemma find_key_remove_same (key_id : Z) (keys : list CryptoKey) :
  NoDup (map id keys) -> find_key key_id (remove_key key_id keys) = None.
Proof.
  intros Hnd. induction keys as [|x keys IH]; [reflexivity|].
  cbn [map] in Hnd. apply NoDup_cons_iff in Hnd as [Hx Hnd].
  cbn [remove_key]. destruct (id x =? key_id)%Z eqn:E.
  - apply Z.eqb_eq in E. subst key_id. now apply find_key_none.
  - unfold find_key in *. cbn [find]. rewrite E. now apply IH.
Qed.

Lemma find_key_app_new (j : Z) (k : CryptoKey) (keys : list CryptoKey) :
  find_key j (keys ++ [k])
  = match find_key j keys with
    | Some x => Some x
    | None => if (id k =? j)%Z then Some k else None
    end.
Proof.
  unfold find_key. induction keys as [|x keys IH]; cbn [app find]; [reflexivity|].
  destruct (id x =? j)%Z; [reflexivity | exact IH].
Qed.

Section Frame.

Context {L : CryptoLib}.
Variable MASTER_KEY : bytes.
Variable AUDIT_SECRET : pystr.
Variable isoformat : datetime -> pystr.
Variable verify_token : pystr -> outcome (Z * pystr).
Variable require_role : pystr -> list pystr -> outcome unit.
Variable b64encode : bytes -> bytes.
Variable b64decode : pystr -> result bytes.

(** Writing an audit record touches the clock and the table of audit
    records only, whether it returns or raises. *)
Lemma log_audit_frame user_id' action' resource_type' resource_id' ip_address' status'
    details' user_agent' (w : World) :
  let w' := snd (log_audit AUDIT_SECRET isoformat user_id' action' resource_type'
                   resource_id' ip_address' status' details' user_agent' w) in
  crypto_keys w' = crypto_keys w /\ key_seq w' = key_seq w /\
  rng w' = rng w /\ clock w' = clock w.
Proof.
  unfold log_audit, bindE, utcnow, liftE.
  destruct (calculate_hmac _ _); cbn [snd]; repeat split.
Qed.

Lemma audit_frame user_id' action' resource_type' resource_id' status' (w : World) r w' :
  audit AUDIT_SECRET isoformat user_id' action' resource_type' resource_id' status' w
    = (r, w') ->
  crypto_keys w' = crypto_keys w /\ key_seq w' = key_seq w /\
  rng w' = rng w /\ clock w' = clock w.
Proof.
  intros H. unfold audit in H.
  pose proof (log_audit_frame (Some user_id') action' resource_type' resource_id'
                LOCALHOST status' None None w) as Hf.
  now rewrite H in Hf.
Qed.

Lemma keys_step_frame (w w1 w2 : World) :
  keys_step w w1 -> crypto_keys w2 = crypto_keys w1 -> key_seq w2 = key_seq w1 ->
  keys_step w w2.
Proof.
  intros Hstep Hk Hs.
  destruct Hstep as [H1 H2 | k0 wr nw H1 H2 H3 H4 | k0 nw H1 H2 H3 | kid H1 H2
                    | k0 H1 H2 H3 H4 H5 H6 H7 H8].
  - apply ks_same; congruence.
  - apply ks_rotate with (k := k0) (wrapped := wr) (now := nw); congruence.
  - apply ks_revoke with (k := k0) (now := nw); congruence.
  - apply ks_delete with (key_id := kid); congruence.
  - apply ks_create with (k := k0); congruence.
Qed.

Lemma revoke_key_step key_id credentials (w : World) :
  keys_step w
    (snd (revoke_key AUDIT_SECRET isoformat verify_token require_role key_id
            credentials w)).
Proof.
  unfold revoke_key, bindH, pureH.
  destruct (verify_token credentials) as [[uid role]| |]; try (now apply ks_same).
  destruct (require_role role [py "admin"]) as [[]| |]; try (now apply ks_same).
  destruct (find_key key_id (crypto_keys w)) as [k|] eqn:Hfind; [|now apply ks_same].
  pose proof (find_key_id _ _ Hfind) as Hid. subst key_id.
  unfold liftH, bindE, utcnow, commit_key, retE.
  destruct (audit _ _ _ _ _ _ _ _) as [[[]|e] w2] eqn:Ha; apply audit_frame in Ha;
    world_fields; destruct Ha as (Hk & Hs & _);
    apply ks_revoke with (k := k) (now := clock w (tick w)); assumption.
Qed.

Lemma rotate_row_step (k : CryptoKey) (w : World) :
  find_key (id k) (crypto_keys w) = Some k -> is_revoked k = false ->
  keys_step w (snd (rotate_row MASTER_KEY k w)).
Proof.
  intros Hfind Hrev. unfold rotate_row, bindE, randE, utcnow, commit_key, retE.
  destruct (generate_key (key_type k) (rng w)) as [[raw|e] g1]; [|now apply ks_same].
  world_fields.
  destruct (encrypt_key_with_master MASTER_KEY raw g1) as [[wrapped|e] g2];
    [|now apply ks_same].
  world_fields. now apply ks_rotate with (k := k) (wrapped := wrapped) (now := clock w (tick w)).
Qed.

Lemma rotate_row_seq (k : CryptoKey) (w : World) :
  key_seq (snd (rotate_row MASTER_KEY k w)) = key_seq w.
Proof.
  unfold rotate_row, bindE, randE, utcnow, commit_key, retE.
  destruct (generate_key (key_type k) (rng w)) as [[raw|e] g1]; [|reflexivity].
  world_fields.
  destruct (encrypt_key_with_master MASTER_KEY raw g1) as [[wrapped|e] g2]; reflexivity.
Qed.

Lemma keys_step_source (w0 w w1 : World) :
  crypto_keys w0 = crypto_keys w -> key_seq w0 = key_seq w ->
  keys_step w0 w1 -> keys_step w w1.
Proof.
  intros Hk Hs Hstep.
  destruct Hstep as [H1 H2 | k0 wr nw H1 H2 H3 H4 | k0 nw H1 H2 H3 | kid H1 H2
                    | k0 H1 H2 H3 H4 H5 H6 H7 H8].
  - apply ks_same; congruence.
  - apply ks_rotate with (k := k0) (wrapped := wr) (now := nw); congruence.
  - apply ks_revoke with (k := k0) (now := nw); congruence.
  - apply ks_delete with (key_id := kid); congruence.
  - apply ks_create with (k := k0); congruence.
Qed.

Lemma rotate_key_step key_id credentials (w : World) :
  keys_step w
    (snd (rotate_key MASTER_KEY AUDIT_SECRET isoformat verify_token require_role key_id
            credentials w)).
Proof.
  unfold rotate_key, bindH, pureH.
  destruct (verify_token credentials) as [[uid role]| |]; try (now apply ks_same).
  destruct (require_role role [py "admin"]) as [[]| |]; try (now apply ks_same).
  destruct (find_key key_id (crypto_keys w)) as [k|] eqn:Hfind; [|now apply ks_same].
  pose proof (find_key_id _ _ Hfind) as Hid. subst key_id.
  destruct (is_revoked k) eqn:Hrev; [now apply ks_same|].
  pose proof (@rotate_row_step k w Hfind Hrev) as Hrow.
  unfold try_except, bindE, retE, liftH, bindH, raiseH.
  destruct (rotate_row MASTER_KEY k w) as [[k'|e] w1]; cbn [snd] in Hrow.
  - destruct (audit _ _ _ _ _ _ _ w1) as [[[]|e'] w2] eqn:Ha; apply audit_frame in Ha;
      destruct Ha as (Hk & Hs & _).
    + exact (@keys_step_frame w w1 w2 Hrow Hk Hs).
    + destruct (audit _ _ _ _ _ _ _ w2) as [[[]|e''] w3] eqn:Ha2;
        apply audit_frame in Ha2; destruct Ha2 as (Hk2 & Hs2 & _); cbn [snd];
        apply (@keys_step_frame w w1 w3 Hrow); congruence.
  - destruct (audit _ _ _ _ _ _ _ w1) as [[[]|e'] w2] eqn:Ha; apply audit_frame in Ha;
      destruct Ha as (Hk & Hs & _); cbn [snd];
      exact (@keys_step_frame w w1 w2 Hrow Hk Hs).
Qed.

Lemma delete_key_step key_id credentials (w : World) :
  keys_step w
    (snd (delete_key AUDIT_SECRET isoformat verify_token require_role key_id
            credentials w)).
Proof.
  unfold delete_key, bindH, pureH.
  destruct (verify_token credentials) as [[uid role]| |]; try (now apply ks_same).
  destruct (require_role role [py "admin"]) as [[]| |]; try (now apply ks_same).
  destruct (find_key key_id (crypto_keys w)) as [k|] eqn:Hfind; [|now apply ks_same].
  unfold liftH.
  destruct (audit _ _ _ _ _ _ _ _) as [[[]|e] w2] eqn:Ha; apply audit_frame in Ha;
    world_fields; destruct Ha as (Hk & Hs & _);
    now apply ks_delete with (key_id := key_id).
Qed.

Lemma encrypt_data_step key_id plaintext credentials (w : World) :
  let w' := snd (encrypt_data MASTER_KEY AUDIT_SECRET isoformat verify_token b64encode
                   key_id plaintext credentials w) in
  crypto_keys w' = crypto_keys w /\ key_seq w' = key_seq w.
Proof.
  unfold encrypt_data, bindH, pureH.
  destruct (verify_token credentials) as [[uid role]| |]; try (now split).
  destruct (find_key key_id (crypto_keys w)) as [k|].
  - destruct (encrypt_refused k).
    + unfold liftH, raiseH.
      destruct (audit _ _ _ _ _ _ _ _) as [[[]|e] w2] eqn:Ha; apply audit_frame in Ha;
        cbn [snd]; frame_eqs.
    + unfold try_except, bindE, liftE, randE, retE, liftH, bindH, raiseH.
      destruct (decrypt_key_with_master MASTER_KEY (encrypted_key k)) as [raw|e].
      * destruct (encrypt_with_key plaintext raw (key_type k) (rng w)) as [[c|e] g'].
        -- destruct (audit _ _ _ _ _ _ _ (set_rng g' w)) as [[[]|e'] w2] eqn:Ha;
             apply audit_frame in Ha; world_fields.
           ++ destruct (Utf8.decode (b64encode c)); cbn [snd]; [frame_eqs|].
              destruct (audit _ _ _ _ _ _ _ w2) as [[[]|e''] w3] eqn:Ha2;
                apply audit_frame in Ha2; cbn [snd]; frame_eqs.
           ++ destruct (audit _ _ _ _ _ _ _ w2) as [[[]|e''] w3] eqn:Ha2;
                apply audit_frame in Ha2; cbn [snd]; frame_eqs.
        -- destruct (audit _ _ _ _ _ _ _ (set_rng g' w)) as [[[]|e'] w2] eqn:Ha;
             apply audit_frame in Ha; world_fields; cbn [snd]; frame_eqs.
      * destruct (audit _ _ _ _ _ _ _ w) as [[[]|e'] w2] eqn:Ha;
          apply audit_frame in Ha; cbn [snd]; frame_eqs.
  - unfold liftH, raiseH.
    destruct (audit _ _ _ _ _ _ _ _) as [[[]|e] w2] eqn:Ha; apply audit_frame in Ha;
      cbn [snd]; frame_eqs.
Qed.

Lemma decrypt_data_step key_id ciphertext credentials (w : World) :
  let w' := snd (decrypt_data MASTER_KEY AUDIT_SECRET isoformat verify_token b64decode
                   key_id ciphertext credentials w) in
  crypto_keys w' = crypto_keys w /\ key_seq w' = key_seq w.
Proof.
  unfold decrypt_data, bindH, pureH.
  destruct (verify_token credentials) as [[uid role]| |]; try (now split).
  destruct (find_key key_id (crypto_keys w)) as [k|].
  - destruct (decrypt_refused k).
    + unfold liftH, raiseH.
      destruct (audit _ _ _ _ _ _ _ _) as [[[]|e] w2] eqn:Ha; apply audit_frame in Ha;
        cbn [snd]; frame_eqs.
    + unfold try_except, bindE, liftE, retE, liftH, bindH, raiseH.
      destruct (decrypt_key_with_master MASTER_KEY (encrypted_key k)) as [raw|e];
        [destruct (b64decode ciphertext) as [cb|e];
         [destruct (decrypt_with_key cb raw (key_type k)) as [p|e]|]|].
      * destruct (audit _ _ _ _ _ _ _ w) as [[[]|e'] w2] eqn:Ha;
          apply audit_frame in Ha; cbn [snd]; [frame_eqs|].
        destruct (audit _ _ _ _ _ _ _ w2) as [[[]|e''] w3] eqn:Ha2;
          apply audit_frame in Ha2; cbn [snd]; frame_eqs.
      * destruct (audit _ _ _ _ _ _ _ w) as [[[]|e'] w2] eqn:Ha;
          apply audit_frame in Ha; cbn [snd]; frame_eqs.
      * destruct (audit _ _ _ _ _ _ _ w) as [[[]|e'] w2] eqn:Ha;
          apply audit_frame in Ha; cbn [snd]; frame_eqs.
      * destruct (audit _ _ _ _ _ _ _ w) as [[[]|e'] w2] eqn:Ha;
          apply audit_frame in Ha; cbn [snd]; frame_eqs.
  - unfold liftH, raiseH.
    destruct (audit _ _ _ _ _ _ _ _) as [[[]|e] w2] eqn:Ha; apply audit_frame in Ha;
      cbn [snd]; frame_eqs.
Qed.

Lemma create_key_step name' key_type' credentials (w : World) :
  keys_step w
    (snd (create_key MASTER_KEY AUDIT_SECRET isoformat verify_token require_role name'
            key_type' credentials w)).
Proof.
  unfold create_key, bindH, pureH.
  destruct (verify_token credentials) as [[uid role]| |]; try (now apply ks_same).
  destruct (require_role role [py "admin"]) as [[]| |]; try (now apply ks_same).
  destruct (negb (str_in key_type' supported_key_types)); [now apply ks_same|].
  unfold try_except, insert_key, bindE, randE, retE, liftH, bindH, raiseH, utcnow.
  destruct (generate_key key_type' (rng w)) as [[raw|e] g1]; world_fields.
  - destruct (encrypt_key_with_master MASTER_KEY raw g1) as [[wrapped|e] g2]; world_fields.
    + match goal with
      | |- context [audit ?a ?b ?c ?d ?e ?f ?g ?w1] =>
          match w1 with
          | context [_ ++ [?K]] =>
              assert (Hnew : keys_step w w1) by (apply ks_create with (k := K); reflexivity)
          end;
          destruct (audit a b c d e f g w1) as [[[]|e'] w2] eqn:Ha;
          apply audit_frame in Ha; destruct Ha as (Hk & Hs & _)
      end.
      * exact (@keys_step_frame _ _ _ Hnew Hk Hs).
      * destruct (audit _ _ _ _ _ _ _ w2) as [[[]|e''] w3] eqn:Ha2;
          apply audit_frame in Ha2; destruct Ha2 as (Hk2 & Hs2 & _); cbn [snd];
          apply (@keys_step_frame _ _ w3 Hnew); congruence.
    + destruct (audit _ _ _ _ _ _ _ _) as [[[]|e'] w2] eqn:Ha; apply audit_frame in Ha;
        world_fields; destruct Ha as (Hk & Hs & _); now apply ks_same.
  - destruct (audit _ _ _ _ _ _ _ _) as [[[]|e'] w2] eqn:Ha; apply audit_frame in Ha;
      world_fields; destruct Ha as (Hk & Hs & _); now apply ks_same.
Qed.

Lemma rotate_key_if_needed_step (key : CryptoKey) (rotation_days : Z) (w : World) :
  find_key (id key) (crypto_keys w) = Some key ->
  keys_step w (snd (rotate_key_if_needed MASTER_KEY key rotation_days w)).
Proof.
  intros Hfind. unfold rotate_key_if_needed, bindE, utcnow, liftE, retE.
  destruct (should_rotate_key (clock w (tick w)) key rotation_days) as [due|e] eqn:Hdue;
    [|now apply ks_same].
  destruct due; cbn [negb]; [|now apply ks_same].
  assert (Hrev : is_revoked key = false).
  { unfold should_rotate_key in Hdue. destruct (is_revoked key); [|reflexivity].
    cbn [orb] in Hdue. discriminate Hdue. }
  pose proof (@rotate_row_step key (set_tick (S (tick w)) w) Hfind Hrev) as Hrow.
  pose proof (rotate_row_seq key (set_tick (S (tick w)) w)) as Hseq.
  destruct (rotate_row MASTER_KEY key (set_tick (S (tick w)) w)) as [[k'|e] w1];
    cbn [snd] in *.
  - exact (@keys_step_source (set_tick (S (tick w)) w) w w1 eq_refl eq_refl Hrow).
  - apply ks_same; world_fields; [reflexivity | exact Hseq].
Qed.

End Frame.

(* ------------------------------------------------------------------------- *)
(** ** Invariants of the table of keys *)

Lemma update_key_ids (k' : CryptoKey) (keys : list CryptoKey) :
  map id (update_key k' keys) = map id keys.
Proof.
  induction keys as [|x keys IH]; [reflexivity|]. cbn [update_key].
  destruct (id x =? id k')%Z eqn:E; cbn [map].
  - apply Z.eqb_eq in E. now rewrite E.
  - now rewrite IH.
Qed.

Lemma remove_key_incl (key_id : Z) (keys : list CryptoKey) (i : Z) :
  In i (map id (remove_key key_id keys)) -> In i (map id keys).
Proof.
  induction keys as [|x keys IH]; [trivial|]. cbn [remove_key].
  destruct (id x =? key_id)%Z; cbn [map In]; tauto.
Qed.

Lemma remove_key_nodup (key_id : Z) (keys : list CryptoKey) :
  NoDup (map id keys) -> NoDup (map id (remove_key key_id keys)).
Proof.
  induction keys as [|x keys IH]; [trivial|]. cbn [remove_key map].
  intros Hnd. apply NoDup_cons_iff in Hnd as [Hx Hnd].
  destruct (id x =? key_id)%Z; [assumption|]. cbn [map].
  apply NoDup_cons; [|now apply IH].
  intros Hin. apply Hx. eapply remove_key_incl. exact Hin.
Qed.

Lemma find_key_in (k : CryptoKey) (keys : list CryptoKey) :
  NoDup (map id keys) -> In k keys -> find_key (id k) keys = Some k.
Proof.
  unfold find_key. induction keys as [|x keys IH]; [contradiction|].
  cbn [map]. intros Hnd Hin. apply NoDup_cons_iff in Hnd as [Hx Hnd]. cbn [find].
  destruct Hin as [-> | Hin].
  - now rewrite Z.eqb_refl.
  - destruct (id x =? id k)%Z eqn:E; [|now apply IH].
    apply Z.eqb_eq in E. exfalso. apply Hx. rewrite E. now apply in_map.
Qed.

Lemma find_key_some_in (j : Z) (k : CryptoKey) (keys : list CryptoKey) :
  find_key j keys = Some k -> In k keys /\ id k = j.
Proof.
  unfold find_key. intros H. apply find_some in H as [Hin H].
  now apply Z.eqb_eq in H.
Qed.

Lemma evolves_refl (k : CryptoKey) : evolves k k.
Proof. unfold evolves. intuition (reflexivity || lia). Qed.

Lemma evolves_trans (k1 k2 k3 : CryptoKey) :
  evolves k1 k2 -> evolves k2 k3 -> evolves k1 k3.
Proof.
  unfold evolves.
  intros (A1 & A2 & A3 & A4 & A5 & A6 & A7) (B1 & B2 & B3 & B4 & B5 & B6 & B7).
  repeat split; try congruence; try lia;
    match goal with
    | Hr : is_revoked k1 = true |- _ =>
        destruct (A7 Hr) as (C1 & C2 & C3 & C4);
        destruct (B7 C1) as (D1 & D2 & D3 & D4); congruence
    end.
Qed.

Section Invariants.

Context {L : CryptoLib}.

Lemma wf_keys_below (w : World) (j : Z) :
  wf_keys w -> In j (map id (crypto_keys w)) -> (j < key_seq w)%Z.
Proof.
  intros [_ Hlt] Hin. apply in_map_iff in Hin as (k & <- & Hk).
  rewrite Forall_forall in Hlt. now apply Hlt.
Qed.

Lemma keys_step_wf (w w' : World) :
  wf_keys w -> keys_step w w' -> wf_keys w' /\ (key_seq w <= key_seq w')%Z.
Proof.
  intros Hwf Hstep. pose proof Hwf as [Hnd Hlt].
  destruct Hstep as [H1 H2 | k0 wr nw H1 H2 H3 H4 | k0 nw H1 H2 H3 | kid H1 H2
                    | k0 H1 H2 H3 H4 H5 H6 H7 H8]; unfold wf_keys.
  - rewrite H1, H2. split; [now split | lia].
  - rewrite H3, H4, update_key_ids. split; [split; [assumption|] | lia].
    apply Forall_forall. intros x Hx.
    assert (Hi : In (id x) (map id (update_key (with_rotation k0 wr nw) (crypto_keys w))))
      by now apply in_map.
    rewrite update_key_ids in Hi. now apply wf_keys_below.
  - rewrite H2, H3, update_key_ids. split; [split; [assumption|] | lia].
    apply Forall_forall. intros x Hx.
    assert (Hi : In (id x) (map id (update_key (with_revocation k0 nw) (crypto_keys w))))
      by now apply in_map.
    rewrite update_key_ids in Hi. now apply wf_keys_below.
  - rewrite H1, H2. split; [split; [now apply remove_key_nodup|] | lia].
    apply Forall_forall. intros x Hx. apply wf_keys_below; [assumption|].
    eapply remove_key_incl. apply in_map. exact Hx.
  - rewrite H7, H8. split; [split|lia].
    + rewrite map_app. cbn [map]. apply NoDup_app.
      * assumption.
      * apply NoDup_cons; [intros [] | apply NoDup_nil].
      * intros a Ha [<- | []]. pose proof (@wf_keys_below w (id k0) Hwf Ha). lia.
    + apply Forall_app. split.
      * eapply Forall_impl; [|exact Hlt]. cbn. intros; lia.
      * apply Forall_cons; [lia | apply Forall_nil].
Qed.

(** What one change does to the record at an id. *)
Lemma keys_step_record (w w' : World) (j : Z) :
  wf_keys w -> keys_step w w' ->
  match find_key j (crypto_keys w) with
  | Some k =>
      find_key j (crypto_keys w') = None \/
      exists k', find_key j (crypto_keys w') = Some k' /\ evolves k k'
  | None =>
      (j < key_seq w)%Z -> find_key j (crypto_keys w') = None
  end.
Proof.
  intros Hwf Hstep. pose proof Hwf as [Hnd Hlt].
  destruct Hstep as [H1 H2 | k0 wr nw H1 H2 H3 H4 | k0 nw H1 H2 H3 | kid H1 H2
                    | k0 H1 H2 H3 H4 H5 H6 H7 H8].
  - rewrite H1. destruct (find_key j (crypto_keys w)) as [k|] eqn:E; [|trivial].
    right. exists k. split; [reflexivity | apply evolves_refl].
  - rewrite H3. destruct (Z.eq_dec j (id k0)) as [-> | Hj].
    + rewrite H1. right. exists (with_rotation k0 wr nw). split.
      * eapply find_key_update; [exact H1 | reflexivity].
      * unfold evolves. cbn [with_rotation id name key_type created_by created_at
                             key_version is_revoked encrypted_key rotated_at].
        repeat split; try lia. all: congruence.
    + rewrite find_key_update_other by exact Hj.
      destruct (find_key j (crypto_keys w)) as [k|] eqn:E; [|trivial].
      right. exists k. split; [reflexivity | apply evolves_refl].
  - rewrite H2. destruct (Z.eq_dec j (id k0)) as [-> | Hj].
    + rewrite H1. right. exists (with_revocation k0 nw). split.
      * eapply find_key_update; [exact H1 | reflexivity].
      * unfold evolves. cbn [with_revocation id name key_type created_by created_at
                             key_version is_revoked encrypted_key rotated_at].
        repeat split; lia.
    + rewrite find_key_update_other by exact Hj.
      destruct (find_key j (crypto_keys w)) as [k|] eqn:E; [|trivial].
      right. exists k. split; [reflexivity | apply evolves_refl].
  - rewrite H1. destruct (Z.eq_dec j kid) as [-> | Hj].
    + rewrite find_key_remove_same by exact Hnd.
      destruct (find_key kid (crypto_keys w)); auto.
    + rewrite find_key_remove_other by exact Hj.
      destruct (find_key j (crypto_keys w)) as [k|] eqn:E; [|trivial].
      right. exists k. split; [reflexivity | apply evolves_refl].
  - rewrite H7, find_key_app_new.
    destruct (find_key j (crypto_keys w)) as [k|] eqn:E.
    + right. exists k. split; [reflexivity | apply evolves_refl].
    + intros Hj. replace (id k0 =? j)%Z with false; [reflexivity|].
      symmetry. apply Z.eqb_neq. lia.
Qed.

Lemma keys_steps_trans (w w1 w2 : World) :
  keys_steps w w1 -> keys_steps w1 w2 -> keys_steps w w2.
Proof.
  intros H1 H2. induction H2 as [|w2 w3 H2 IH H3]; [assumption|].
  eapply kss_step; eassumption.
Qed.

Lemma keys_steps_one (w w' : World) : keys_step w w' -> keys_steps w w'.
Proof. intros H. eapply kss_step; [apply kss_refl | exact H]. Qed.

(** Well-formedness, the id sequence and the history of each id along
    several changes. *)
Lemma keys_steps_invariant (w w' : World) :
  wf_keys w -> keys_steps w w' ->
  wf_keys w' /\ (key_seq w <= key_seq w')%Z /\
  forall j,
    match find_key j (crypto_keys w) with
    | Some k =>
        find_key j (crypto_keys w') = None \/
        exists k', find_key j (crypto_keys w') = Some k' /\ evolves k k'
    | None =>
        (j < key_seq w)%Z -> find_key j (crypto_keys w') = None
    end.
Proof.
  intros Hwf Hsteps. induction Hsteps as [|w1 w2 Hsteps IH Hstep].
  - split; [assumption|]. split; [lia|]. intros j.
    destruct (find_key j (crypto_keys w)) as [k|] eqn:E; [|trivial].
    right. exists k. split; [reflexivity | apply evolves_refl].
  - destruct IH as (Hwf1 & Hseq1 & Hrec1).
    destruct (keys_step_wf Hwf1 Hstep) as [Hwf2 Hseq2].
    split; [assumption|]. split; [lia|]. intros j.
    specialize (Hrec1 j). pose proof (@keys_step_record w1 w2 j Hwf1 Hstep) as Hrec2.
    destruct (find_key j (crypto_keys w)) as [k|] eqn:E.
    + destruct Hrec1 as [Hnone | (k1 & Hk1 & Hev1)].
      * rewrite Hnone in Hrec2. left. apply Hrec2.
        apply find_key_some_in in E as [Hin <-].
        pose proof (@wf_keys_below w (id k) Hwf (in_map id _ _ Hin)). lia.
      * rewrite Hk1 in Hrec2. destruct Hrec2 as [Hnone | (k2 & Hk2 & Hev2)];
          [now left|]. right. exists k2. split; [assumption|].
        eapply evolves_trans; eassumption.
    + intros Hj. specialize (Hrec1 Hj). rewrite Hrec1 in Hrec2. apply Hrec2. lia.
Qed.

End Invariants.

(* ------------------------------------------------------------------------- *)
(** ** The rotation sweep and sequences of requests *)

Lemma filter_keys_nodup (sel : CryptoKey -> bool) (keys : list CryptoKey) :
  NoDup (map id keys) -> NoDup (map id (filter sel keys)).
Proof.
  intros Hnd. induction keys as [|k keys IH]; [exact Hnd|].
  cbn [map] in Hnd. apply NoDup_cons_iff in Hnd as [Hk Hnd]. cbn [filter].
  destruct (sel k); [|now apply IH]. cbn [map]. apply NoDup_cons; [|now apply IH].
  intros Hin. apply Hk. apply in_map_iff in Hin as (k2 & Hid & Hin).
  apply filter_In in Hin as [Hin _]. rewrite <- Hid. now apply in_map.
Qed.

Section Sweep.

Context {L : CryptoLib}.
Variable MASTER_KEY : bytes.

(** What [rotate_row] leaves alone. *)
Lemma rotate_row_frame (k : CryptoKey) (w : World) :
  let w' := snd (rotate_row MASTER_KEY k w) in
  key_seq w' = key_seq w /\ audit_logs w' = audit_logs w /\ log_seq w' = log_seq w /\
  clock w' = clock w /\ tick w <= tick w' <= S (tick w).
Proof.
  unfold rotate_row, bindE, randE, utcnow, commit_key, retE.
  destruct (generate_key (key_type k) (rng w)) as [[raw|e] g1];
    [|world_fields; repeat split; lia].
  world_fields.
  destruct (encrypt_key_with_master MASTER_KEY raw g1) as [[wrapped|e] g2];
    world_fields; repeat split; lia.
Qed.

Lemma rotate_row_result (k : CryptoKey) (w : World) :
  match fst (rotate_row MASTER_KEY k w) with
  | Ok k' => exists wrapped now,
      k' = with_rotation k wrapped now /\
      crypto_keys (snd (rotate_row MASTER_KEY k w))
        = update_key (with_rotation k wrapped now) (crypto_keys w)
  | Err _ => crypto_keys (snd (rotate_row MASTER_KEY k w)) = crypto_keys w
  end.
Proof.
  unfold rotate_row, bindE, randE, utcnow, commit_key, retE.
  destruct (generate_key (key_type k) (rng w)) as [[raw|e] g1]; [|reflexivity].
  world_fields.
  destruct (encrypt_key_with_master MASTER_KEY raw g1) as [[wrapped|e] g2];
    world_fields; [|reflexivity].
  exists wrapped, (clock w (tick w)). split; reflexivity.
Qed.

(** [rotate_key_if_needed]: the table is as before, or the row of [key] is
    replaced by its rotation; the answer tells which. *)
Lemma rotate_key_if_needed_effect (key : CryptoKey) (rotation_days : Z) (w : World) :
  let r := rotate_key_if_needed MASTER_KEY key rotation_days w in
  key_seq (snd r) = key_seq w /\ audit_logs (snd r) = audit_logs w /\
  log_seq (snd r) = log_seq w /\ clock (snd r) = clock w /\
  tick w < tick (snd r) <= tick w + 2 /\
  ((fst r <> Ok true /\ crypto_keys (snd r) = crypto_keys w) \/
   (fst r = Ok true /\ is_active key = true /\ is_revoked key = false /\
    exists wrapped now,
      crypto_keys (snd r) = update_key (with_rotation key wrapped now) (crypto_keys w))).
Proof.
  unfold rotate_key_if_needed, bindE, utcnow, liftE, retE.
  destruct (should_rotate_key (clock w (tick w)) key rotation_days) as [due|e] eqn:Hdue;
    [|world_fields; repeat split; try lia; left; split; [discriminate | reflexivity]].
  destruct due; cbn [negb];
    [|world_fields; repeat split; try lia; left; split; [discriminate | reflexivity]].
  assert (Hst : is_active key = true /\ is_revoked key = false).
  { unfold should_rotate_key in Hdue.
    destruct (is_revoked key), (is_active key); cbn [orb negb] in Hdue;
      try discriminate Hdue. now split. }
  pose proof (rotate_row_frame key (set_tick (S (tick w)) w)) as Hf.
  pose proof (rotate_row_result key (set_tick (S (tick w)) w)) as Hr.
  cbv zeta in Hf.
  destruct (rotate_row MASTER_KEY key (set_tick (S (tick w)) w)) as [[k'|e] w1];
    world_fields; destruct Hf as (H1 & H2 & H3 & H4 & H5).
  - repeat split; try assumption; try lia. right. destruct Hr as (wr & nw & _ & Hr).
    repeat split; try tauto. now exists wr, nw.
  - repeat split; try assumption; try lia. left. split; [discriminate | reflexivity].
Qed.

Lemma rotate_each_cons (key : CryptoKey) (keys' : list CryptoKey) (rotation_days n : Z)
    (w : World) :
  rotate_each MASTER_KEY (key :: keys') rotation_days n w
  = match rotate_key_if_needed MASTER_KEY key rotation_days w with
    | (Ok rotated, w1) =>
        rotate_each MASTER_KEY keys' rotation_days (if rotated then n + 1 else n)%Z w1
    | (Err e, w1) => (Err e, w1)
    end.
Proof. reflexivity. Qed.

Lemma rotate_each_effect (keys : list CryptoKey) (rotation_days : Z) :
  forall (n : Z) (w : World),
  NoDup (map id keys) ->
  Forall (fun key => find_key (id key) (crypto_keys w) = Some key) keys ->
  let r := rotate_each MASTER_KEY keys rotation_days n w in
  keys_steps w (snd r) /\
  key_seq (snd r) = key_seq w /\ audit_logs (snd r) = audit_logs w /\
  log_seq (snd r) = log_seq w /\ clock (snd r) = clock w /\
  (forall j,
     find_key j (crypto_keys (snd r)) = find_key j (crypto_keys w) \/
     exists k wrapped now,
       In k keys /\ id k = j /\ is_active k = true /\ is_revoked k = false /\
       find_key j (crypto_keys (snd r)) = Some (with_rotation k wrapped now)) /\
  (forall m, fst r = Ok m ->
     m = (n + Z.of_nat (length (filter (rotated_in (snd r)) keys)))%Z).
Proof.
  induction keys as [|key keys' IH]; intros n w Hnd Hfind; cbv zeta.
  - cbn [rotate_each retE fst snd filter length]. split; [apply kss_refl|].
    repeat split; auto. intros m Hm. injection Hm as <-. cbn. lia.
  - cbn [map] in Hnd. apply NoDup_cons_iff in Hnd as [Hkey Hnd].
    apply Forall_cons_iff in Hfind as [Hk Hfind].
    pose proof (rotate_key_if_needed_effect key rotation_days w) as He.
    pose proof (@rotate_key_if_needed_step L MASTER_KEY key rotation_days w Hk) as Hs.
    cbv zeta in He. rewrite rotate_each_cons.
    destruct (rotate_key_if_needed MASTER_KEY key rotation_days w) as [[b|e] w1];
      cbn [fst snd] in *; destruct He as (E1 & E2 & E3 & E4 & _ & E5).
    + assert (Hfind1 : Forall (fun k => find_key (id k) (crypto_keys w1) = Some k) keys').
      { apply Forall_forall. intros k Hin. rewrite Forall_forall in Hfind.
        destruct E5 as [[_ ->] | (_ & _ & _ & wr & nw & ->)]; [now apply Hfind|].
        rewrite find_key_update_other; [now apply Hfind|].
        cbn [with_rotation id]. intros Heq. apply Hkey. rewrite <- Heq. now apply in_map. }
      specialize (IH (if b then n + 1 else n)%Z w1 Hnd Hfind1). cbv zeta in IH.
      destruct IH as (I1 & I2 & I3 & I4 & I5 & I6 & I7).
      assert (Hhead : find_key (id key) (crypto_keys (snd (rotate_each MASTER_KEY keys'
                         rotation_days (if b then n + 1 else n)%Z w1)))
                      = find_key (id key) (crypto_keys w1)).
      { destruct (I6 (id key)) as [H|(k & _ & _ & Hin & Hid & _)]; [exact H|].
        exfalso. apply Hkey. rewrite <- Hid. now apply in_map. }
      split; [eapply keys_steps_trans; [apply keys_steps_one; exact Hs | exact I1]|].
      split; [congruence|]. split; [congruence|]. split; [congruence|].
      split; [congruence|]. split.
      * intros j. destruct (Z.eq_dec j (id key)) as [-> | Hj].
        -- rewrite Hhead.
           destruct E5 as [[_ ->] | (_ & Ha & Hr & wr & nw & ->)]; [now left|].
           right. exists key, wr, nw. split; [now left|]. split; [reflexivity|].
           split; [assumption|]. split; [assumption|].
           eapply find_key_update; [exact Hk | reflexivity].
        -- assert (Hsame : find_key j (crypto_keys w1) = find_key j (crypto_keys w)).
           { destruct E5 as [[_ ->] | (_ & _ & _ & wr & nw & ->)]; [reflexivity|].
             now apply find_key_update_other. }
           destruct (I6 j) as [H|(k & wr & nw & Hin & Hid & Ha & Hr & H)].
           ++ left. congruence.
           ++ right. exists k, wr, nw. split; [now right|]. split; [assumption|].
              split; [assumption|]. split; [assumption|]. assumption.
      * intros m Hm. apply I7 in Hm. cbn [filter]. unfold rotated_in at 1. rewrite Hhead.
        destruct E5 as [[Hb Hc] | (Hb & _ & _ & wr & nw & Hc)]; rewrite Hc.
        -- rewrite Hk. replace (key_version key =? key_version key + 1)%Z with false
             by (symmetry; apply Z.eqb_neq; lia).
           destruct b; [now contradiction Hb|]. exact Hm.
        -- rewrite (@find_key_update (id key) (crypto_keys w) key (with_rotation key wr nw) Hk eq_refl).
           cbn [with_rotation key_version]. rewrite Z.eqb_refl. cbn [length].
           injection Hb as ->. lia.
    + split; [apply keys_steps_one; exact Hs|]. repeat split; auto.
      * intros j. left. destruct E5 as [[_ ->] | (Hb & _)]; [reflexivity|discriminate Hb].
      * intros m Hm. discriminate Hm.
Qed.

End Sweep.

Lemma filter_filter_implied {A} (p q : A -> bool) (l : list A) :
  (forall x, In x l -> p x = true -> q x = true) ->
  filter p (filter q l) = filter p l.
Proof.
  induction l as [|x l IH]; intros Himp; [reflexivity|]. cbn [filter].
  assert (IH' : filter p (filter q l) = filter p l)
    by (apply IH; intros y Hy; apply Himp; now right).
  destruct (q x) eqn:Hq.
  - cbn [filter]. now rewrite IH'.
  - destruct (p x) eqn:Hp; [|exact IH'].
    rewrite (Himp x (or_introl eq_refl) Hp) in Hq. discriminate Hq.
Qed.

Section SweepAll.

Context {L : CryptoLib}.
Variable MASTER_KEY : bytes.

Lemma auto_rotate_keys_effect (rotation_days : Z) (w : World) :
  NoDup (map id (crypto_keys w)) ->
  let r := auto_rotate_keys MASTER_KEY rotation_days w in
  keys_steps w (snd r) /\
  key_seq (snd r) = key_seq w /\ audit_logs (snd r) = audit_logs w /\
  log_seq (snd r) = log_seq w /\ clock (snd r) = clock w /\
  (forall j,
     find_key j (crypto_keys (snd r)) = find_key j (crypto_keys w) \/
     exists k wrapped now,
       find_key j (crypto_keys w) = Some k /\
       is_active k = true /\ is_revoked k = false /\
       find_key j (crypto_keys (snd r)) = Some (with_rotation k wrapped now)) /\
  (forall m, fst r = Ok m ->
     m = Z.of_nat (length (filter (rotated_in (snd r)) (crypto_keys w)))).
Proof.
  intros Hnd. cbv zeta. unfold auto_rotate_keys.
  set (sel := fun k : CryptoKey => is_active k && negb (is_revoked k)).
  assert (Hfind : Forall (fun key => find_key (id key) (crypto_keys w) = Some key)
                    (filter sel (crypto_keys w))).
  { apply Forall_forall. intros k Hin. apply filter_In in Hin as [Hin _].
    now apply find_key_in. }
  pose proof (@rotate_each_effect L MASTER_KEY (filter sel (crypto_keys w)) rotation_days
                0%Z w (filter_keys_nodup sel _ Hnd) Hfind) as He.
  cbv zeta in He. destruct He as (E1 & E2 & E3 & E4 & E5 & E6 & E7).
  set (r := rotate_each MASTER_KEY (filter sel (crypto_keys w)) rotation_days 0%Z w) in *.
  split; [exact E1|]. split; [exact E2|]. split; [exact E3|]. split; [exact E4|].
  split; [exact E5|]. split.
  - intros j. destruct (E6 j) as [H|(k & wr & nw & Hin & Hid & Ha & Hr & H)]; [now left|].
    right. exists k, wr, nw. apply filter_In in Hin as [Hin _].
    split; [|split; [assumption|split; assumption]].
    rewrite <- Hid. now apply find_key_in.
  - intros m Hm. rewrite (E7 m Hm), Z.add_0_l. f_equal. f_equal.
    apply filter_filter_implied. intros k Hin Hrot.
    destruct (sel k) eqn:Hsel; [reflexivity|]. exfalso.
    unfold rotated_in in Hrot.
    pose proof (find_key_in k (crypto_keys w) Hnd Hin) as Hk.
    destruct (E6 (id k)) as [H|(k2 & wr & nw & Hin2 & Hid & Ha & Hr & H)].
    + rewrite H, Hk in Hrot. apply Z.eqb_eq in Hrot. lia.
    + apply filter_In in Hin2 as [Hin2 Hsel2].
      pose proof (find_key_in k2 (crypto_keys w) Hnd Hin2) as Hk2.
      rewrite Hid, Hk in Hk2. injection Hk2 as <-. congruence.
Qed.

End SweepAll.

Section Sequences.

Context {L : CryptoLib}.
Variable MASTER_KEY : bytes.
Variable AUDIT_SECRET : pystr.
Variable isoformat : datetime -> pystr.
Variable verify_token : pystr -> outcome (Z * pystr).
Variable require_role : pystr -> list pystr -> outcome unit.
Variable b64encode : bytes -> bytes.
Variable b64decode : pystr -> result bytes.

Lemma list_keys_step credentials (w : World) :
  let w' := snd (list_keys AUDIT_SECRET isoformat verify_token credentials w) in
  crypto_keys w' = crypto_keys w /\ key_seq w' = key_seq w.
Proof.
  unfold list_keys, bindH, pureH.
  destruct (verify_token credentials) as [[uid role]| |]; try (now split).
  unfold liftH, retH.
  destruct (audit _ _ _ _ _ _ _ _) as [[[]|e] w2] eqn:Ha; apply audit_frame in Ha;
    cbn [snd]; frame_eqs.
Qed.

Lemma handle_steps (r : request) (w : World) :
  NoDup (map id (crypto_keys w)) ->
  keys_steps w (handle MASTER_KEY AUDIT_SECRET isoformat verify_token require_role
                  b64encode b64decode r w).
Proof.
  intros Hnd. destruct r; cbn [handle].
  - apply keys_steps_one, create_key_step.
  - destruct (list_keys_step credentials w) as [H1 H2].
    apply keys_steps_one, ks_same; assumption.
  - apply keys_steps_one, rotate_key_step.
  - apply keys_steps_one, revoke_key_step.
  - apply keys_steps_one, delete_key_step.
  - destruct (encrypt_data_step MASTER_KEY AUDIT_SECRET isoformat verify_token b64encode
                key_id plaintext credentials w) as [H1 H2].
    apply keys_steps_one, ks_same; assumption.
  - destruct (decrypt_data_step MASTER_KEY AUDIT_SECRET isoformat verify_token b64decode
                key_id ciphertext credentials w) as [H1 H2].
    apply keys_steps_one, ks_same; assumption.
  - now apply auto_rotate_keys_effect.
Qed.

Lemma handle_all_steps (rs : list request) :
  forall w : World,
  wf_keys w ->
  keys_steps w (handle_all MASTER_KEY AUDIT_SECRET isoformat verify_token require_role
                  b64encode b64decode rs w).
Proof.
  induction rs as [|r rs IH]; intros w Hwf; [apply kss_refl|].
  cbn [handle_all].
  pose proof (@handle_steps r w (proj1 Hwf)) as Hs.
  eapply keys_steps_trans; [exact Hs|]. apply IH.
  now apply (keys_steps_invariant Hwf Hs).
Qed.

End Sequences.

Lemma handle_all_app {L : CryptoLib} MASTER_KEY AUDIT_SECRET isoformat verify_token
    require_role b64encode b64decode (rs1 rs2 : list request) (w : World) :
  handle_all MASTER_KEY AUDIT_SECRET isoformat verify_token require_role b64encode
    b64decode (rs1 ++ rs2) w
  = handle_all MASTER_KEY AUDIT_SECRET isoformat verify_token require_role b64encode
      b64decode rs2
      (handle_all MASTER_KEY AUDIT_SECRET isoformat verify_token require_role b64encode
         b64decode rs1 w).
Proof.
  revert w. induction rs1 as [|r rs1 IH]; intros w; [reflexivity|].
  cbn [app handle_all]. apply IH.
Qed.

Lemma toy_world_wf : wf_keys (toy_world [active_key]).
Proof.
  split; cbn.
  - apply NoDup_cons; [intros [] | apply NoDup_nil].
  - apply Forall_cons; [reflexivity | apply Forall_nil].
Qed.

(** X1: whatever requests are handled, in any order and with any
    credentials, the ids of the table of keys stay unique and below the id
    sequence, and the sequence never goes back. *)
Theorem keys_table_stays_well_formed {L : CryptoLib} (MASTER_KEY : bytes)
    (AUDIT_SECRET : pystr) (isoformat : datetime -> pystr)
    (verify_token : pystr -> outcome (Z * pystr))
    (require_role : pystr -> list pystr -> outcome unit)
    (b64encode : bytes -> bytes) (b64decode : pystr -> result bytes)
    (rs : list request) (w : World) :
  wf_keys w ->
  let w' := handle_all MASTER_KEY AUDIT_SECRET isoformat verify_token require_role
              b64encode b64decode rs w in
  NoDup (map id (crypto_keys w')) /\
  Forall (fun k => (id k < key_seq w')%Z) (crypto_keys w') /\
  (key_seq w <= key_seq w')%Z.
Proof.
  intros Hwf w'.
  pose proof (handle_all_steps MASTER_KEY AUDIT_SECRET isoformat verify_token
                require_role b64encode b64decode rs Hwf) as Hs.
  destruct (keys_steps_invariant Hwf Hs) as ([H1 H2] & H3 & _).
  split; [exact H1|]. split; [exact H2 | exact H3].
Qed.

Lemma keys_table_stays_well_formed_witness :
  let w := toy_world [active_key] in
  let w' := @handle_all Toy.lib Toy.MASTER_KEY Toy.AUDIT_SECRET Toy.isoformat
              Toy.verify_token Toy.require_role Toy.b64encode Toy.b64decode
              sample_requests w in
  wf_keys w /\
  NoDup (map id (crypto_keys w')) /\
  Forall (fun k => (id k < key_seq w')%Z) (crypto_keys w') /\
  (key_seq w <= key_seq w')%Z.
Proof.
  split; [exact toy_world_wf|].
  exact (@keys_table_stays_well_formed Toy.lib Toy.MASTER_KEY Toy.AUDIT_SECRET
           Toy.isoformat Toy.verify_token Toy.require_role Toy.b64encode Toy.b64decode
           sample_requests (toy_world [active_key]) toy_world_wf).
Defined.

(** X2: whatever requests are handled, a record of the table is later
    either gone or a later state of itself: its id, name, type, owner and
    creation time are as they were, its version has not gone down, and a
    record that was revoked is still revoked with the version, the wrapped
    key and the rotation time it had. *)
Theorem key_record_history {L : CryptoLib} (MASTER_KEY : bytes)
    (AUDIT_SECRET : pystr) (isoformat : datetime -> pystr)
    (verify_token : pystr -> outcome (Z * pystr))
    (require_role : pystr -> list pystr -> outcome unit)
    (b64encode : bytes -> bytes) (b64decode : pystr -> result bytes)
    (rs : list request) (w : World) (key_id : Z) (k : CryptoKey) :
  wf_keys w ->
  find_key key_id (crypto_keys w) = Some k ->
  let w' := handle_all MASTER_KEY AUDIT_SECRET isoformat verify_token require_role
              b64encode b64decode rs w in
  find_key key_id (crypto_keys w') = None \/
  exists k',
    find_key key_id (crypto_keys w') = Some k' /\
    id k' = id k /\ name k' = name k /\ key_type k' = key_type k /\
    created_by k' = created_by k /\ created_at k' = created_at k /\
    (key_version k <= key_version k')%Z /\
    (is_revoked k = true ->
     is_revoked k' = true /\ key_version k' = key_version k /\
     encrypted_key k' = encrypted_key k /\ rotated_at k' = rotated_at k).
Proof.
  intros Hwf Hk w'.
  pose proof (handle_all_steps MASTER_KEY AUDIT_SECRET isoformat verify_token
                require_role b64encode b64decode rs Hwf) as Hs.
  destruct (keys_steps_invariant Hwf Hs) as (_ & _ & Hrec).
  specialize (Hrec key_id). rewrite Hk in Hrec.
  destruct Hrec as [Hnone | (k' & Hk' & Hev)]; [now left|].
  right. exists k'. split; [exact Hk' | exact Hev].
Qed.

Lemma key_record_history_witness :
  let w := toy_world [active_key] in
  let w' := @handle_all Toy.lib Toy.MASTER_KEY Toy.AUDIT_SECRET Toy.isoformat
              Toy.verify_token Toy.require_role Toy.b64encode Toy.b64decode
              sample_requests w in
  wf_keys w /\ find_key 1 (crypto_keys w) = Some active_key /\
  (find_key 1 (crypto_keys w') = None \/
   exists k',
     find_key 1 (crypto_keys w') = Some k' /\
     id k' = id active_key /\ name k' = name active_key /\
     key_type k' = key_type active_key /\
     created_by k' = created_by active_key /\ created_at k' = created_at active_key /\
     (key_version active_key <= key_version k')%Z /\
     (is_revoked active_key = true ->
      is_revoked k' = true /\ key_version k' = key_version active_key /\
      encrypted_key k' = encrypted_key active_key /\
      rotated_at k' = rotated_at active_key)).
Proof.
  split; [exact toy_world_wf|]. split; [reflexivity|].
  exact (@key_record_history Toy.lib Toy.MASTER_KEY Toy.AUDIT_SECRET
           Toy.isoformat Toy.verify_token Toy.require_role Toy.b64encode Toy.b64decode
           sample_requests (toy_world [active_key]) 1%Z active_key toy_world_wf eq_refl).
Defined.

(** X3: an id that the sequence has passed and that is absent from the
    table after some requests stays absent whatever requests follow: a
    deleted key does not come back and its id is not given to a new key. *)
Theorem deleted_key_stays_deleted {L : CryptoLib} (MASTER_KEY : bytes)
    (AUDIT_SECRET : pystr) (isoformat : datetime -> pystr)
    (verify_token : pystr -> outcome (Z * pystr))
    (require_role : pystr -> list pystr -> outcome unit)
    (b64encode : bytes -> bytes) (b64decode : pystr -> result bytes)
    (rs1 rs2 : list request) (w : World) (key_id : Z) :
  wf_keys w ->
  (key_id < key_seq w)%Z ->
  let run := handle_all MASTER_KEY AUDIT_SECRET isoformat verify_token require_role
               b64encode b64decode in
  find_key key_id (crypto_keys (run rs1 w)) = None ->
  find_key key_id (crypto_keys (run (rs1 ++ rs2) w)) = None.
Proof.
  intros Hwf Hlt run Hnone. unfold run. rewrite handle_all_app. fold run. fold (run rs1 w).
  pose proof (handle_all_steps MASTER_KEY AUDIT_SECRET isoformat verify_token
                require_role b64encode b64decode rs1 Hwf) as Hs1.
  destruct (keys_steps_invariant Hwf Hs1) as (Hwf1 & Hseq1 & _).
  pose proof (handle_all_steps MASTER_KEY AUDIT_SECRET isoformat verify_token
                require_role b64encode b64decode rs2 Hwf1) as Hs2.
  destruct (keys_steps_invariant Hwf1 Hs2) as (_ & _ & Hrec).
  specialize (Hrec key_id). fold run in Hrec. fold (run rs1 w) in Hrec.
  rewrite Hnone in Hrec. apply Hrec. fold run in Hseq1. lia.
Qed.

Lemma deleted_key_stays_deleted_witness :
  let w := toy_world [active_key] in
  let run := @handle_all Toy.lib Toy.MASTER_KEY Toy.AUDIT_SECRET Toy.isoformat
               Toy.verify_token Toy.require_role Toy.b64encode Toy.b64decode in
  wf_keys w /\ (1 < key_seq w)%Z /\
  find_key 1 (crypto_keys (run [Delete 1 (py "admin-token")] w)) = None /\
  find_key 1 (crypto_keys (run ([Delete 1 (py "admin-token")] ++ sample_requests) w))
    = None.
Proof.
  split; [exact toy_world_wf|]. split; [reflexivity|].
  assert (Hd : find_key 1
                 (crypto_keys
                    (@handle_all Toy.lib Toy.MASTER_KEY Toy.AUDIT_SECRET Toy.isoformat
                       Toy.verify_token Toy.require_role Toy.b64encode Toy.b64decode
                       [Delete 1 (py "admin-token")] (toy_world [active_key]))) = None)
    by (vm_compute; reflexivity).
  split; [exact Hd|].
  exact (@deleted_key_stays_deleted Toy.lib Toy.MASTER_KEY Toy.AUDIT_SECRET
           Toy.isoformat Toy.verify_token Toy.require_role Toy.b64encode Toy.b64decode
           [Delete 1 (py "admin-token")] sample_requests (toy_world [active_key]) 1%Z
           toy_world_wf eq_refl Hd).
Defined.

Section SweepReturns.

Context {L : CryptoLib}.
Variable MASTER_KEY : bytes.

Lemma should_rotate_key_returns (now : datetime) (key : CryptoKey) (rotation_days : Z) :
  (-999999999 <= rotation_days <= 999999999)%Z ->
  (0 <= now - rotation_days * MICROS_PER_DAY < DATETIME_END)%Z ->
  exists due, should_rotate_key now key rotation_days = Ok due.
Proof.
  intros Hd Hn. unfold should_rotate_key.
  destruct (is_revoked key || negb (is_active key)); [now exists false|].
  unfold timedelta_days.
  replace ((-999999999 <=? rotation_days) && (rotation_days <=? 999999999))%Z with true
    by (symmetry; apply andb_true_iff; split; apply Z.leb_le; lia).
  cbn [bind]. unfold datetime_sub, datetime_in_range.
  replace ((0 <=? now - rotation_days * MICROS_PER_DAY)
           && (now - rotation_days * MICROS_PER_DAY <? DATETIME_END))%Z with true
    by (symmetry; apply andb_true_iff; split; [apply Z.leb_le | apply Z.ltb_lt]; lia).
  cbn [bind]. eauto.
Qed.

Lemma rotate_key_if_needed_returns (key : CryptoKey) (rotation_days : Z) (w : World) due :
  should_rotate_key (clock w (tick w)) key rotation_days = Ok due ->
  exists b, fst (rotate_key_if_needed MASTER_KEY key rotation_days w) = Ok b.
Proof.
  intros Hdue. unfold rotate_key_if_needed, bindE, utcnow, liftE, retE. rewrite Hdue.
  destruct due; cbn [negb]; [|now exists false].
  destruct (rotate_row MASTER_KEY key _) as [[k'|e] w1]; cbn [fst]; eauto.
Qed.

Lemma rotate_each_returns (keys : list CryptoKey) (rotation_days : Z) :
  forall (n : Z) (w : World),
  (-999999999 <= rotation_days <= 999999999)%Z ->
  (forall t, tick w <= t < tick w + 2 * length keys ->
             (0 <= clock w t - rotation_days * MICROS_PER_DAY < DATETIME_END)%Z) ->
  exists m, fst (rotate_each MASTER_KEY keys rotation_days n w) = Ok m.
Proof.
  induction keys as [|key keys' IH]; intros n w Hd Hc.
  - now exists n.
  - rewrite rotate_each_cons. cbn [length] in Hc.
    assert (Hnow : (0 <= clock w (tick w) - rotation_days * MICROS_PER_DAY
                    < DATETIME_END)%Z) by (apply Hc; lia).
    destruct (should_rotate_key_returns (clock w (tick w)) key Hd Hnow)
      as [due Hdue].
    destruct (rotate_key_if_needed_returns key rotation_days w Hdue) as [b Hb].
    pose proof (rotate_key_if_needed_effect MASTER_KEY key rotation_days w) as He.
    cbv zeta in He.
    destruct (rotate_key_if_needed MASTER_KEY key rotation_days w) as [[b'|e] w1];
      cbn [fst snd] in *; [|discriminate Hb].
    apply IH; [exact Hd|]. destruct He as (_ & _ & _ & -> & Ht & _).
    intros t Ht'. apply Hc. lia.
Qed.

End SweepReturns.

(** X4: one pass of [auto_rotate_keys] adds no key, removes none and
    writes no audit record; it leaves each record as it was or replaces it
    by its rotation, once, and the latter only for a record that was active
    and not revoked. *)
Theorem sweep_rotates_in_place {L : CryptoLib} (MASTER_KEY : bytes) (rotation_days : Z)
    (w : World) :
  NoDup (map id (crypto_keys w)) ->
  let w' := snd (auto_rotate_keys MASTER_KEY rotation_days w) in
  key_seq w' = key_seq w /\ audit_logs w' = audit_logs w /\
  forall key_id,
    find_key key_id (crypto_keys w') = find_key key_id (crypto_keys w) \/
    exists k wrapped now,
      find_key key_id (crypto_keys w) = Some k /\
      is_active k = true /\ is_revoked k = false /\
      find_key key_id (crypto_keys w') = Some (with_rotation k wrapped now).
Proof.
  intros Hnd w'.
  destruct (auto_rotate_keys_effect MASTER_KEY rotation_days w Hnd)
    as (_ & H1 & H2 & _ & _ & H3 & _).
  split; [exact H1|]. split; [exact H2 | exact H3].
Qed.

Lemma sweep_rotates_in_place_witness :
  let w := toy_world [active_key] in
  let w' := snd (@auto_rotate_keys Toy.lib Toy.MASTER_KEY 0 w) in
  NoDup (map id (crypto_keys w)) /\
  key_seq w' = key_seq w /\ audit_logs w' = audit_logs w /\
  forall key_id,
    find_key key_id (crypto_keys w') = find_key key_id (crypto_keys w) \/
    exists k wrapped now,
      find_key key_id (crypto_keys w) = Some k /\
      is_active k = true /\ is_revoked k = false /\
      find_key key_id (crypto_keys w') = Some (with_rotation k wrapped now).
Proof.
  split; [exact (proj1 toy_world_wf)|].
  exact (@sweep_rotates_in_place Toy.lib Toy.MASTER_KEY 0%Z (toy_world [active_key])
           (proj1 toy_world_wf)).
Defined.

(** X5: when the rotation period is one that [timedelta] takes and the
    thresholds are dates, [auto_rotate_keys] returns, and the count it
    returns is the number of records whose version it has raised by one. *)
Theorem sweep_returns_rotation_count {L : CryptoLib} (MASTER_KEY : bytes)
    (rotation_days : Z) (w : World) :
  NoDup (map id (crypto_keys w)) ->
  (-999999999 <= rotation_days <= 999999999)%Z ->
  (forall t, tick w <= t < tick w + 2 * length (crypto_keys w) ->
             (0 <= clock w t - rotation_days * MICROS_PER_DAY < DATETIME_END)%Z) ->
  exists rotated_count w',
    auto_rotate_keys MASTER_KEY rotation_days w = (Ok rotated_count, w') /\
    rotated_count = Z.of_nat (length (filter (rotated_in w') (crypto_keys w))).
Proof.
  intros Hnd Hd Hc.
  destruct (rotate_each_returns MASTER_KEY
              (filter (fun k => is_active k && negb (is_revoked k)) (crypto_keys w))
              0%Z w Hd) as [m Hm].
  { intros t Ht. apply Hc.
    pose proof (filter_length_le (fun k => is_active k && negb (is_revoked k))
                  (crypto_keys w)). lia. }
  destruct (auto_rotate_keys_effect MASTER_KEY rotation_days w Hnd)
    as (_ & _ & _ & _ & _ & _ & Hcount).
  change (rotate_each MASTER_KEY
            (filter (fun k => is_active k && negb (is_revoked k)) (crypto_keys w))
            rotation_days 0%Z w)
    with (auto_rotate_keys MASTER_KEY rotation_days w) in Hm.
  specialize (Hcount m Hm).
  destruct (auto_rotate_keys MASTER_KEY rotation_days w) as [r w'].
  cbn [fst snd] in *. subst r. exists m, w'. split; [reflexivity | exact Hcount].
Qed.

Lemma sweep_returns_rotation_count_witness :
  let w := toy_world [active_key; revoked_key_2] in
  NoDup (map id (crypto_keys w)) /\
  (-999999999 <= 0 <= 999999999)%Z /\
  (forall t, tick w <= t < tick w + 2 * length (crypto_keys w) ->
             (0 <= clock w t - 0 * MICROS_PER_DAY < DATETIME_END)%Z) /\
  exists rotated_count w',
    @auto_rotate_keys Toy.lib Toy.MASTER_KEY 0 w = (Ok rotated_count, w') /\
    rotated_count = Z.of_nat (length (filter (rotated_in w') (crypto_keys w))).
Proof.
  assert (Hnd : NoDup (map id (crypto_keys (toy_world [active_key; revoked_key_2])))).
  { cbn. apply NoDup_cons; [intros [H|[]]; discriminate H|].
    apply NoDup_cons; [intros [] | apply NoDup_nil]. }
  split; [exact Hnd|].
  split; [lia|].
  split; [intros t Ht; unfold toy_world in *; cbn [clock tick crypto_keys length] in *;
          unfold DATETIME_END, MICROS_PER_DAY; lia|].
  apply (@sweep_returns_rotation_count Toy.lib Toy.MASTER_KEY 0%Z
           (toy_world [active_key; revoked_key_2]) Hnd).
  - lia.
  - intros t Ht. unfold toy_world in *. cbn [clock tick crypto_keys length] in *.
    unfold DATETIME_END, MICROS_PER_DAY. lia.
Defined.

(** X6: a rotation period outside the range of [timedelta] makes
    [auto_rotate_keys] raise [OverflowError] at the first key that is active
    and not revoked, before anything is rotated; without such a key the
    sweep returns 0 and changes nothing. *)
Theorem sweep_period_out_of_range {L : CryptoLib} (MASTER_KEY : bytes)
    (rotation_days : Z) (w : World) :
  (rotation_days < -999999999 \/ 999999999 < rotation_days)%Z ->
  ((forall k, In k (crypto_keys w) -> is_active k = false \/ is_revoked k = true) ->
   auto_rotate_keys MASTER_KEY rotation_days w = (Ok 0%Z, w)) /\
  ((exists k, In k (crypto_keys w) /\ is_active k = true /\ is_revoked k = false) ->
   auto_rotate_keys MASTER_KEY rotation_days w
     = (Err OverflowError, set_tick (S (tick w)) w)).
Proof.
  intros Hd. unfold auto_rotate_keys. split.
  - intros Hnone.
    replace (filter (fun k => is_active k && negb (is_revoked k)) (crypto_keys w))
      with (@nil CryptoKey); [reflexivity|].
    symmetry. induction (crypto_keys w) as [|k l IH]; [reflexivity|]. cbn [filter].
    destruct (Hnone k (or_introl eq_refl)) as [-> | ->]; cbn [andb negb].
    + apply IH. intros x Hx. apply Hnone. now right.
    + rewrite andb_false_r. apply IH. intros x Hx. apply Hnone. now right.
  - intros (k & Hin & Ha & Hr).
    destruct (filter (fun k => is_active k && negb (is_revoked k)) (crypto_keys w))
      as [|k0 rest] eqn:Hf.
    + exfalso.
      assert (Hk : In k (filter (fun k => is_active k && negb (is_revoked k))
                           (crypto_keys w)))
        by (apply filter_In; split; [exact Hin | now rewrite Ha, Hr]).
      rewrite Hf in Hk. exact Hk.
    + assert (Hk0 : In k0 (filter (fun k => is_active k && negb (is_revoked k))
                             (crypto_keys w))) by (rewrite Hf; now left).
      apply filter_In in Hk0 as [_ Hsel]. apply andb_true_iff in Hsel as [Ha0 Hr0].
      apply negb_true_iff in Hr0.
      rewrite rotate_each_cons.
      unfold rotate_key_if_needed, bindE, utcnow, liftE, should_rotate_key.
      rewrite Ha0, Hr0. cbn [orb negb]. unfold timedelta_days.
      replace ((-999999999 <=? rotation_days) && (rotation_days <=? 999999999))%Z
        with false; [reflexivity|].
      symmetry. apply andb_false_iff.
      destruct Hd; [left; apply Z.leb_gt | right; apply Z.leb_gt]; lia.
Qed.

Lemma sweep_period_out_of_range_witness :
  let w := toy_world [active_key] in
  (1000000000 < -999999999 \/ 999999999 < 1000000000)%Z /\
  @auto_rotate_keys Toy.lib Toy.MASTER_KEY 1000000000 w
    = (Err OverflowError, set_tick (S (tick w)) w).
Proof.
  assert (Hd : (1000000000 < -999999999 \/ 999999999 < 1000000000)%Z) by (right; lia).
  split; [exact Hd|].
  apply (@sweep_period_out_of_range Toy.lib Toy.MASTER_KEY 1000000000%Z
           (toy_world [active_key]) Hd).
  exists active_key. split; [now left | split; reflexivity].
Defined.

(* ------------------------------------------------------------------------- *)
(** ** Which records a request touches, and who may change the table *)

Section OneRecord.

Context {L : CryptoLib}.
Variable MASTER_KEY : bytes.
Variable AUDIT_SECRET : pystr.
Variable isoformat : datetime -> pystr.
Variable verify_token : pystr -> outcome (Z * pystr).
Variable require_role : pystr -> list pystr -> outcome unit.
Variable b64encode : bytes -> bytes.
Variable b64decode : pystr -> result bytes.

Lemma revoke_key_others key_id credentials (w : World) (j : Z) :
  j <> key_id ->
  find_key j (crypto_keys (snd (revoke_key AUDIT_SECRET isoformat verify_token
                                  require_role key_id credentials w)))
  = find_key j (crypto_keys w).
Proof.
  intros Hj. unfold revoke_key, bindH, pureH.
  destruct (verify_token credentials) as [[uid role]| |]; try reflexivity.
  destruct (require_role role [py "admin"]) as [[]| |]; try reflexivity.
  destruct (find_key key_id (crypto_keys w)) as [k|] eqn:Hfind; [|reflexivity].
  pose proof (find_key_id _ _ Hfind) as Hid.
  unfold liftH, bindE, utcnow, commit_key, retE.
  destruct (audit _ _ _ _ _ _ _ _) as [[[]|e] w2] eqn:Ha; apply audit_frame in Ha;
    world_fields; destruct Ha as (-> & _); apply find_key_update_other;
    cbn [with_revocation id]; congruence.
Qed.

Lemma rotate_key_others key_id credentials (w : World) (j : Z) :
  j <> key_id ->
  find_key j (crypto_keys (snd (rotate_key MASTER_KEY AUDIT_SECRET isoformat verify_token
                                  require_role key_id credentials w)))
  = find_key j (crypto_keys w).
Proof.
  intros Hj. unfold rotate_key, bindH, pureH.
  destruct (verify_token credentials) as [[uid role]| |]; try reflexivity.
  destruct (require_role role [py "admin"]) as [[]| |]; try reflexivity.
  destruct (find_key key_id (crypto_keys w)) as [k|] eqn:Hfind; [|reflexivity].
  pose proof (find_key_id _ _ Hfind) as Hid.
  destruct (is_revoked k); [reflexivity|].
  assert (Hrow : find_key j (crypto_keys (snd (rotate_row MASTER_KEY k w)))
                 = find_key j (crypto_keys w)).
  { pose proof (rotate_row_result MASTER_KEY k w) as Hr.
    destruct (fst (rotate_row MASTER_KEY k w)); [|now rewrite Hr].
    destruct Hr as (wr & nw & _ & ->). apply find_key_update_other.
    cbn [with_rotation id]. congruence. }
  unfold try_except, bindE, retE, liftH, bindH, raiseH.
  destruct (rotate_row MASTER_KEY k w) as [[k'|e] w1]; cbn [snd] in Hrow.
  - destruct (audit _ _ _ _ _ _ _ w1) as [[[]|e'] w2] eqn:Ha; apply audit_frame in Ha;
      destruct Ha as (Hk & _); cbn [snd]; [congruence|].
    destruct (audit _ _ _ _ _ _ _ w2) as [[[]|e''] w3] eqn:Ha2;
      apply audit_frame in Ha2; destruct Ha2 as (Hk2 & _); cbn [snd]; congruence.
  - destruct (audit _ _ _ _ _ _ _ w1) as [[[]|e'] w2] eqn:Ha; apply audit_frame in Ha;
      destruct Ha as (Hk & _); cbn [snd]; congruence.
Qed.

Lemma delete_key_others key_id credentials (w : World) (j : Z) :
  j <> key_id ->
  find_key j (crypto_keys (snd (delete_key AUDIT_SECRET isoformat verify_token
                                  require_role key_id credentials w)))
  = find_key j (crypto_keys w).
Proof.
  intros Hj. unfold delete_key, bindH, pureH.
  destruct (verify_token credentials) as [[uid role]| |]; try reflexivity.
  destruct (require_role role [py "admin"]) as [[]| |]; try reflexivity.
  destruct (find_key key_id (crypto_keys w)) as [k|] eqn:Hfind; [|reflexivity].
  unfold liftH.
  destruct (audit _ _ _ _ _ _ _ _) as [[[]|e] w2] eqn:Ha; apply audit_frame in Ha;
    world_fields; destruct Ha as (-> & _); now apply find_key_remove_other.
Qed.

End OneRecord.

(** X7: a rotate, revoke or delete request for one key leaves the record of
    every other key as it was, on every path (refused, failed or done). *)
Theorem key_request_touches_one_record {L : CryptoLib} (MASTER_KEY : bytes)
    (AUDIT_SECRET : pystr) (isoformat : datetime -> pystr)
    (verify_token : pystr -> outcome (Z * pystr))
    (require_role : pystr -> list pystr -> outcome unit)
    (key_id : Z) (credentials : pystr) (w : World) (other_id : Z) :
  other_id <> key_id ->
  find_key other_id
    (crypto_keys (snd (rotate_key MASTER_KEY AUDIT_SECRET isoformat verify_token
                         require_role key_id credentials w)))
    = find_key other_id (crypto_keys w) /\
  find_key other_id
    (crypto_keys (snd (revoke_key AUDIT_SECRET isoformat verify_token require_role
                         key_id credentials w)))
    = find_key other_id (crypto_keys w) /\
  find_key other_id
    (crypto_keys (snd (delete_key AUDIT_SECRET isoformat verify_token require_role
                         key_id credentials w)))
    = find_key other_id (crypto_keys w).
Proof.
  intros Hj. split; [|split].
  - now apply rotate_key_others.
  - now apply revoke_key_others.
  - now apply delete_key_others.
Qed.

Lemma key_request_touches_one_record_witness :
  let w := toy_world [active_key; revoked_key_2] in
  2%Z <> 1%Z /\
  find_key 2
    (crypto_keys (snd (@rotate_key Toy.lib Toy.MASTER_KEY Toy.AUDIT_SECRET Toy.isoformat
                         Toy.verify_token Toy.require_role 1 (py "admin-token") w)))
    = find_key 2 (crypto_keys w) /\
  find_key 2
    (crypto_keys (snd (@revoke_key Toy.lib Toy.AUDIT_SECRET Toy.isoformat
                         Toy.verify_token Toy.require_role 1 (py "admin-token") w)))
    = find_key 2 (crypto_keys w) /\
  find_key 2
    (crypto_keys (snd (@delete_key Toy.lib Toy.AUDIT_SECRET Toy.isoformat
                         Toy.verify_token Toy.require_role 1 (py "admin-token") w)))
    = find_key 2 (crypto_keys w).
Proof.
  assert (H : 2%Z <> 1%Z) by discriminate.
  split; [exact H|].
  exact (@key_request_touches_one_record Toy.lib Toy.MASTER_KEY Toy.AUDIT_SECRET
           Toy.isoformat Toy.verify_token Toy.require_role 1%Z (py "admin-token")
           (toy_world [active_key; revoked_key_2]) 2%Z H).
Defined.

(** X8: [encrypt_data], [decrypt_data] and [list_keys] never change the
    table of keys or its id sequence, whatever they answer. *)
Theorem data_requests_leave_keys {L : CryptoLib} (MASTER_KEY : bytes)
    (AUDIT_SECRET : pystr) (isoformat : datetime -> pystr)
    (verify_token : pystr -> outcome (Z * pystr))
    (b64encode : bytes -> bytes) (b64decode : pystr -> result bytes)
    (key_id : Z) (text credentials : pystr) (w : World) :
  let w1 := snd (encrypt_data MASTER_KEY AUDIT_SECRET isoformat verify_token b64encode
                   key_id text credentials w) in
  let w2 := snd (decrypt_data MASTER_KEY AUDIT_SECRET isoformat verify_token b64decode
                   key_id text credentials w) in
  let w3 := snd (list_keys AUDIT_SECRET isoformat verify_token credentials w) in
  (crypto_keys w1 = crypto_keys w /\ key_seq w1 = key_seq w) /\
  (crypto_keys w2 = crypto_keys w /\ key_seq w2 = key_seq w) /\
  (crypto_keys w3 = crypto_keys w /\ key_seq w3 = key_seq w).
Proof.
  cbv zeta. split; [|split].
  - apply encrypt_data_step.
  - apply decrypt_data_step.
  - apply list_keys_step.
Qed.

Section Admins.

Context {L : CryptoLib}.
Variable MASTER_KEY : bytes.
Variable AUDIT_SECRET : pystr.
Variable isoformat : datetime -> pystr.
Variable verify_token : pystr -> outcome (Z * pystr).
Variable require_role : pystr -> list pystr -> outcome unit.
Variable b64encode : bytes -> bytes.
Variable b64decode : pystr -> result bytes.

Lemma handle_not_admin (r : request) (credentials : pystr) (w : World) :
  credentials_of r = Some credentials ->
  ~ is_admin verify_token require_role credentials ->
  let w' := handle MASTER_KEY AUDIT_SECRET isoformat verify_token require_role
              b64encode b64decode r w in
  crypto_keys w' = crypto_keys w /\ key_seq w' = key_seq w.
Proof.
  intros Hc Hna. unfold is_admin in Hna.
  destruct r; cbn [credentials_of] in Hc; try discriminate Hc; injection Hc as ->;
    cbn [handle];
    try apply list_keys_step; try apply encrypt_data_step; try apply decrypt_data_step;
    unfold create_key, rotate_key, revoke_key, delete_key, bindH, pureH;
    (destruct (verify_token credentials) as [[uid role]| |] eqn:Hv; [|now split ..]);
    (destruct (require_role role [py "admin"]) as [[]| |] eqn:Hr; [|now split ..]);
    exfalso; apply Hna; exists uid, role; now split.
Qed.

End Admins.

(** X9: requests whose credentials do not pass both [verify_token] and the
    admin check of [require_role] never change the table of keys or its id
    sequence, however many of them are handled. *)
Theorem only_admins_change_keys {L : CryptoLib} (MASTER_KEY : bytes)
    (AUDIT_SECRET : pystr) (isoformat : datetime -> pystr)
    (verify_token : pystr -> outcome (Z * pystr))
    (require_role : pystr -> list pystr -> outcome unit)
    (b64encode : bytes -> bytes) (b64decode : pystr -> result bytes)
    (rs : list request) (w : World) :
  Forall (fun r => exists credentials,
                     credentials_of r = Some credentials /\
                     ~ is_admin verify_token require_role credentials) rs ->
  let w' := handle_all MASTER_KEY AUDIT_SECRET isoformat verify_token require_role
              b64encode b64decode rs w in
  crypto_keys w' = crypto_keys w /\ key_seq w' = key_seq w.
Proof.
  intros Hrs. cbv zeta. revert w.
  induction Hrs as [|r rs (c & Hc & Hna) _ IH]; intros w; [now split|].
  cbn [handle_all].
  destruct (handle_not_admin MASTER_KEY AUDIT_SECRET isoformat b64encode b64decode r w
              Hc Hna) as [H1 H2].
  destruct (IH (handle MASTER_KEY AUDIT_SECRET isoformat verify_token require_role
                  b64encode b64decode r w)) as [H3 H4].
  split; congruence.
Qed.

Lemma only_admins_change_keys_witness :
  let w := toy_world [active_key] in
  let w' := @handle_all Toy.lib Toy.MASTER_KEY Toy.AUDIT_SECRET Toy.isoformat
              Toy.verify_token Toy.require_role Toy.b64encode Toy.b64decode
              user_requests w in
  Forall (fun r => exists credentials,
                     credentials_of r = Some credentials /\
                     ~ is_admin Toy.verify_token Toy.require_role credentials)
    user_requests /\
  crypto_keys w' = crypto_keys w /\ key_seq w' = key_seq w.
Proof.
  assert (Hu : ~ is_admin Toy.verify_token Toy.require_role (py "user-token")).
  { intros (u & r & Hv & Hr). vm_compute in Hv. injection Hv as <- <-.
    vm_compute in Hr. discriminate Hr. }
  assert (Hn : ~ is_admin Toy.verify_token Toy.require_role (py "nobody")).
  { intros (u & r & Hv & _). vm_compute in Hv. discriminate Hv. }
  assert (Hrs : Forall (fun r => exists credentials,
                     credentials_of r = Some credentials /\
                     ~ is_admin Toy.verify_token Toy.require_role credentials)
                  user_requests).
  { unfold user_requests.
    repeat (apply Forall_cons; [eexists; split; [reflexivity | assumption]|]).
    apply Forall_nil. }
  split; [exact Hrs|].
  exact (@only_admins_change_keys Toy.lib Toy.MASTER_KEY Toy.AUDIT_SECRET Toy.isoformat
           Toy.verify_token Toy.require_role Toy.b64encode Toy.b64decode user_requests
           (toy_world [active_key]) Hrs).
Defined.

(* ------------------------------------------------------------------------- *)
(** ** The audit trail *)

Lemma calculate_hmac_ascii {L : CryptoLib} (AUDIT_SECRET : pystr)
    (log_data : list (pystr * json)) (sig : pystr) :
  calculate_hmac AUDIT_SECRET log_data = Ok sig -> is_ascii sig = true.
Proof.
  unfold calculate_hmac. destruct (Utf8.encode AUDIT_SECRET); [|discriminate].
  cbn [bind]. destruct (Utf8.encode (json_dumps log_data)); [|discriminate].
  cbn [bind]. intros H. injection H as <-. apply is_ascii_true, hexdigest_ascii.
Qed.

Lemma seq_ids (a : Z) (s n : nat) :
  map (fun i => (a + Z.of_nat i)%Z) (seq s n)
  = map (fun i => (a + Z.of_nat s + Z.of_nat i)%Z) (seq 0 n).
Proof.
  revert s. induction n as [|n IH]; intros s; [reflexivity|].
  cbn [seq map]. f_equal; [lia|].
  rewrite IH, <- seq_shift, map_map. apply map_ext. intros i. lia.
Qed.

Section Trail.

Context {L : CryptoLib}.
Variable MASTER_KEY : bytes.
Variable AUDIT_SECRET : pystr.
Variable isoformat : datetime -> pystr.
Variable verify_token : pystr -> outcome (Z * pystr).
Variable require_role : pystr -> list pystr -> outcome unit.
Variable b64encode : bytes -> bytes.
Variable b64decode : pystr -> result bytes.

Lemma trail_same (w w' : World) :
  audit_logs w' = audit_logs w -> log_seq w' = log_seq w ->
  trail_grows AUDIT_SECRET isoformat w w'.
Proof.
  intros H1 H2. exists []. cbn [length seq map]. rewrite app_nil_r.
  split; [exact H1|]. split; [rewrite H2; lia|]. split; [reflexivity | apply Forall_nil].
Qed.

Lemma trail_refl (w : World) : trail_grows AUDIT_SECRET isoformat w w.
Proof. now apply trail_same. Qed.

Lemma trail_trans (w w1 w2 : World) :
  trail_grows AUDIT_SECRET isoformat w w1 -> trail_grows AUDIT_SECRET isoformat w1 w2 ->
  trail_grows AUDIT_SECRET isoformat w w2.
Proof.
  intros (l1 & A1 & A2 & A3 & A4) (l2 & B1 & B2 & B3 & B4). exists (l1 ++ l2).
  split; [rewrite B1, A1; now rewrite app_assoc|].
  split; [rewrite B2, A2, length_app; lia|].
  split; [|now apply Forall_app].
  rewrite map_app, length_app, seq_app, map_app, A3, B3. f_equal.
  cbn [Nat.add]. rewrite (seq_ids (log_seq w) (length l1) (length l2)).
  apply map_ext. intros i. rewrite A2. reflexivity.
Qed.

Local Ltac intro_world :=
  let w := fresh "w" in unfold keeps_trail at 1; intros w; cbv zeta.

Lemma keeps_elim {X} (m : World -> X * World) (w : World) :
  keeps_trail AUDIT_SECRET isoformat m -> trail_grows AUDIT_SECRET isoformat w (snd (m w)).
Proof. intros Hm. apply Hm. Qed.

Lemma keepsE_ret {A} (a : A) : keeps_trail AUDIT_SECRET isoformat (retE a).
Proof. intros w. apply trail_refl. Qed.

Lemma keepsE_liftE {A} (r : result A) : keeps_trail AUDIT_SECRET isoformat (liftE r).
Proof. intros w. apply trail_refl. Qed.

Lemma keepsE_randE {A} (m : Rand A) : keeps_trail AUDIT_SECRET isoformat (randE m).
Proof. intros w. unfold randE. destruct (m (rng w)). now apply trail_same. Qed.

Lemma keepsE_utcnow : keeps_trail AUDIT_SECRET isoformat utcnow.
Proof. intros w. now apply trail_same. Qed.

Lemma keepsE_commit_key (k : CryptoKey) : keeps_trail AUDIT_SECRET isoformat (commit_key k).
Proof. intros w. now apply trail_same. Qed.

Lemma keepsE_bind {A B} (m : E A) (k : A -> E B) :
  keeps_trail AUDIT_SECRET isoformat m ->
  (forall a, keeps_trail AUDIT_SECRET isoformat (k a)) ->
  keeps_trail AUDIT_SECRET isoformat (bindE m k).
Proof.
  intros Hm Hk w. unfold bindE. specialize (Hm w).
  destruct (m w) as [[a|e] w1]; cbn [snd] in Hm; [|exact Hm].
  eapply trail_trans; [exact Hm | apply Hk].
Qed.

Lemma keepsE_insert_key name' key_type' encrypted_key' created_by' :
  keeps_trail AUDIT_SECRET isoformat
    (insert_key name' key_type' encrypted_key' created_by').
Proof. intros w. now apply trail_same. Qed.

Lemma keepsE_rotate_row (k : CryptoKey) :
  keeps_trail AUDIT_SECRET isoformat (rotate_row MASTER_KEY k).
Proof.
  intros w. destruct (rotate_row_frame MASTER_KEY k w) as (_ & H1 & H2 & _).
  now apply trail_same.
Qed.

Lemma keepsE_log_audit user_id' action' resource_type' resource_id' ip_address' status'
    details' user_agent' :
  keeps_trail AUDIT_SECRET isoformat
    (log_audit AUDIT_SECRET isoformat user_id' action' resource_type' resource_id'
       ip_address' status' details' user_agent').
Proof.
  intros w. unfold log_audit, bindE, utcnow, liftE.
  destruct (calculate_hmac _ _) as [sig|e] eqn:Hsig; cbn [snd]; [|now apply trail_same].
  match goal with |- context [add_audit_log ?a _] => exists [a] end.
  cbn [audit_logs add_audit_log set_tick log_seq length seq map log_id].
  split; [reflexivity|]. split; [reflexivity|]. split; [f_equal; lia|].
  apply Forall_cons; [|apply Forall_nil].
  unfold verify_audit_log.
  cbn [user_id action resource_type resource_id ip_address status details user_agent
       timestamp hmac_signature].
  rewrite Hsig. cbn [bind]. unfold compare_digest_str.
  rewrite (calculate_hmac_ascii _ _ Hsig). cbn [andb]. now rewrite pystr_eqb_refl.
Qed.

Lemma keepsE_audit user_id' action' resource_type' resource_id' status' :
  keeps_trail AUDIT_SECRET isoformat
    (audit AUDIT_SECRET isoformat user_id' action' resource_type' resource_id' status').
Proof. apply keepsE_log_audit. Qed.

Lemma keepsH_ret {A} (a : A) : keeps_trail AUDIT_SECRET isoformat (retH a).
Proof. intros w. apply trail_refl. Qed.

Lemma keepsH_raise {A} c d : keeps_trail AUDIT_SECRET isoformat (@raiseH L A c d).
Proof. intros w. apply trail_refl. Qed.

Lemma keepsH_pure {A} (o : outcome A) : keeps_trail AUDIT_SECRET isoformat (pureH o).
Proof. intros w. apply trail_refl. Qed.

Lemma keepsH_lift {A} (m : E A) :
  keeps_trail AUDIT_SECRET isoformat m -> keeps_trail AUDIT_SECRET isoformat (liftH m).
Proof.
  intros Hm w. unfold liftH. specialize (Hm w). now destruct (m w) as [[a|e] w1].
Qed.

Lemma keepsH_bind {A B} (m : H A) (k : A -> H B) :
  keeps_trail AUDIT_SECRET isoformat m ->
  (forall a, keeps_trail AUDIT_SECRET isoformat (k a)) ->
  keeps_trail AUDIT_SECRET isoformat (bindH m k).
Proof.
  intros Hm Hk w. unfold bindH. specialize (Hm w).
  destruct (m w) as [[a|c d|e] w1]; cbn [snd] in Hm; try exact Hm.
  eapply trail_trans; [exact Hm | apply Hk].
Qed.

Lemma keepsH_try {A} (body : E A) (handler : PyExn -> H A) :
  keeps_trail AUDIT_SECRET isoformat body ->
  (forall e, keeps_trail AUDIT_SECRET isoformat (handler e)) ->
  keeps_trail AUDIT_SECRET isoformat (try_except body handler).
Proof.
  intros Hm Hk w. unfold try_except. specialize (Hm w).
  destruct (body w) as [[a|e] w1]; cbn [snd] in Hm; [exact Hm|].
  eapply trail_trans; [exact Hm | apply Hk].
Qed.

Ltac keeps_step :=
  lazymatch goal with
  | |- keeps_trail _ _ (bindH _ _) => apply keepsH_bind; [|intros ?]
  | |- keeps_trail _ _ (try_except _ _) => apply keepsH_try; [|intros ?]
  | |- keeps_trail _ _ (liftH _) => apply keepsH_lift
  | |- keeps_trail _ _ (pureH _) => apply keepsH_pure
  | |- keeps_trail _ _ (raiseH _ _) => apply keepsH_raise
  | |- keeps_trail _ _ (retH _) => apply keepsH_ret
  | |- keeps_trail _ _ (audit _ _ _ _ _ _ _) => apply keepsE_audit
  | |- keeps_trail _ _ (rotate_row _ _) => apply keepsE_rotate_row
  | |- keeps_trail _ _ (insert_key _ _ _ _) => apply keepsE_insert_key
  | |- keeps_trail _ _ (commit_key _) => apply keepsE_commit_key
  | |- keeps_trail _ _ utcnow => apply keepsE_utcnow
  | |- keeps_trail _ _ (randE _) => apply keepsE_randE
  | |- keeps_trail _ _ (liftE _) => apply keepsE_liftE
  | |- keeps_trail _ _ (retE _) => apply keepsE_ret
  | |- keeps_trail _ _ (bindE _ _) => apply keepsE_bind; [|intros ?]
  | |- keeps_trail _ _ (let (_, _) := ?p in _) => destruct p
  | |- keeps_trail _ _ (let _ := _ in _) => cbv zeta
  | |- keeps_trail _ _ (if ?b then _ else _) => destruct b
  | |- keeps_trail _ _ (fun _ => _) => intro_world
  | |- trail_grows _ _ _ (snd (match find_key ?i ?l with _ => _ end)) =>
      destruct (find_key i l)
  | |- trail_grows _ _ _ (snd (if ?b then _ else _)) => destruct b
  | |- trail_grows _ _ ?w (snd (?m ?w')) =>
      apply trail_trans with w'; [now apply trail_same | apply keeps_elim]
  end.

Lemma create_key_trail name' key_type' credentials :
  keeps_trail AUDIT_SECRET isoformat
    (create_key MASTER_KEY AUDIT_SECRET isoformat verify_token require_role name'
       key_type' credentials).
Proof. unfold create_key. repeat keeps_step. Qed.

Lemma list_keys_trail credentials :
  keeps_trail AUDIT_SECRET isoformat
    (list_keys AUDIT_SECRET isoformat verify_token credentials).
Proof. unfold list_keys. repeat keeps_step. Qed.

Lemma rotate_key_trail key_id credentials :
  keeps_trail AUDIT_SECRET isoformat
    (rotate_key MASTER_KEY AUDIT_SECRET isoformat verify_token require_role key_id
       credentials).
Proof. unfold rotate_key. repeat keeps_step. Qed.

Lemma revoke_key_trail key_id credentials :
  keeps_trail AUDIT_SECRET isoformat
    (revoke_key AUDIT_SECRET isoformat verify_token require_role key_id credentials).
Proof. unfold revoke_key. repeat keeps_step. Qed.

Lemma delete_key_trail key_id credentials :
  keeps_trail AUDIT_SECRET isoformat
    (delete_key AUDIT_SECRET isoformat verify_token require_role key_id credentials).
Proof. unfold delete_key. repeat keeps_step. Qed.

Lemma encrypt_data_trail key_id plaintext credentials :
  keeps_trail AUDIT_SECRET isoformat
    (encrypt_data MASTER_KEY AUDIT_SECRET isoformat verify_token b64encode key_id
       plaintext credentials).
Proof. unfold encrypt_data. repeat keeps_step. Qed.

Lemma decrypt_data_trail key_id ciphertext credentials :
  keeps_trail AUDIT_SECRET isoformat
    (decrypt_data MASTER_KEY AUDIT_SECRET isoformat verify_token b64decode key_id
       ciphertext credentials).
Proof. unfold decrypt_data. repeat keeps_step. Qed.

Lemma handle_trail (r : request) (w : World) :
  NoDup (map id (crypto_keys w)) ->
  trail_grows AUDIT_SECRET isoformat w
    (handle MASTER_KEY AUDIT_SECRET isoformat verify_token require_role b64encode
       b64decode r w).
Proof.
  intros Hnd. destruct r; cbn [handle].
  - apply create_key_trail.
  - apply list_keys_trail.
  - apply rotate_key_trail.
  - apply revoke_key_trail.
  - apply delete_key_trail.
  - apply encrypt_data_trail.
  - apply decrypt_data_trail.
  - destruct (auto_rotate_keys_effect MASTER_KEY rotation_days w Hnd)
      as (_ & _ & H1 & H2 & _).
    now apply trail_same.
Qed.

Lemma handle_all_trail (rs : list request) :
  forall w : World,
  wf_keys w ->
  trail_grows AUDIT_SECRET isoformat w
    (handle_all MASTER_KEY AUDIT_SECRET isoformat verify_token require_role
       b64encode b64decode rs w).
Proof.
  induction rs as [|r rs IH]; intros w Hwf; [apply trail_refl|].
  cbn [handle_all]. eapply trail_trans; [apply handle_trail; exact (proj1 Hwf)|].
  apply IH.
  pose proof (@handle_steps L MASTER_KEY AUDIT_SECRET isoformat verify_token
                require_role b64encode b64decode r w (proj1 Hwf)) as Hs.
  exact (proj1 (keys_steps_invariant Hwf Hs)).
Qed.

End Trail.

(** X10: whatever requests are handled, the audit trail only grows: the
    records that were there stay as they were and in place, the new ones
    come after them with the next ids of the sequence, and
    [verify_audit_log] accepts the signature of each new record. *)
Theorem audit_trail_only_grows {L : CryptoLib} (MASTER_KEY : bytes)
    (AUDIT_SECRET : pystr) (isoformat : datetime -> pystr)
    (verify_token : pystr -> outcome (Z * pystr))
    (require_role : pystr -> list pystr -> outcome unit)
    (b64encode : bytes -> bytes) (b64decode : pystr -> result bytes)
    (rs : list request) (w : World) :
  wf_keys w ->
  let w' := handle_all MASTER_KEY AUDIT_SECRET isoformat verify_token require_role
              b64encode b64decode rs w in
  exists new_logs,
    audit_logs w' = audit_logs w ++ new_logs /\
    log_seq w' = (log_seq w + Z.of_nat (length new_logs))%Z /\
    map log_id new_logs
      = map (fun i => (log_seq w + Z.of_nat i)%Z) (seq 0 (length new_logs)) /\
    Forall (fun a => verify_audit_log AUDIT_SECRET isoformat a = Ok true) new_logs.
Proof.
  intros Hwf. exact (handle_all_trail MASTER_KEY AUDIT_SECRET isoformat verify_token
                       require_role b64encode b64decode rs Hwf).
Qed.

Lemma audit_trail_only_grows_witness :
  let w := toy_world [active_key] in
  let w' := @handle_all Toy.lib Toy.MASTER_KEY Toy.AUDIT_SECRET Toy.isoformat
              Toy.verify_token Toy.require_role Toy.b64encode Toy.b64decode
              sample_requests w in
  wf_keys w /\
  exists new_logs,
    audit_logs w' = audit_logs w ++ new_logs /\
    log_seq w' = (log_seq w + Z.of_nat (length new_logs))%Z /\
    map log_id new_logs
      = map (fun i => (log_seq w + Z.of_nat i)%Z) (seq 0 (length new_logs)) /\
    Forall (fun a => @verify_audit_log Toy.lib Toy.AUDIT_SECRET Toy.isoformat a = Ok true)
      new_logs.
Proof.
  split; [exact toy_world_wf|].
  exact (@audit_trail_only_grows Toy.lib Toy.MASTER_KEY Toy.AUDIT_SECRET Toy.isoformat
           Toy.verify_token Toy.require_role Toy.b64encode Toy.b64decode sample_requests
           (toy_world [active_key]) toy_world_wf).
Defined.

Section OneAuditRecord.

Context {L : CryptoLib}.
Variable MASTER_KEY : bytes.
Variable AUDIT_SECRET : pystr.
Variable isoformat : datetime -> pystr.
Variable verify_token : pystr -> outcome (Z * pystr).
Variable b64encode : bytes -> bytes.
Variable b64decode : pystr -> result bytes.
Variable secret_bytes : bytes.
Hypothesis AUDIT_SECRET_encodes : Utf8.encode AUDIT_SECRET = Ok secret_bytes.

(** With a secret that encodes, [audit] returns and adds one record. *)
Lemma audit_record user_id' action' resource_type' resource_id' status' (w : World) :
  exists l,
    audit AUDIT_SECRET isoformat user_id' action' resource_type' resource_id' status' w
      = (Ok tt, add_audit_log l (set_tick (S (tick w)) w)) /\
    user_id l = Some user_id' /\ action l = action' /\
    resource_type l = resource_type' /\ resource_id l = resource_id' /\
    status l = status'.
Proof using AUDIT_SECRET_encodes.
  unfold audit, log_audit, bindE, utcnow, liftE.
  destruct (@calculate_hmac_returns L AUDIT_SECRET secret_bytes AUDIT_SECRET_encodes
              (log_data_of isoformat (Some user_id') action' resource_type' resource_id'
                 LOCALHOST status' None None (clock w (tick w)))) as (sig & -> & _).
  eexists. split; [reflexivity|]. cbn. repeat split.
Qed.

Lemma decrypt_data_one_record key_id ciphertext credentials uid role (w : World) :
  verify_token credentials = Resp (uid, role) ->
  exists o w' l,
    decrypt_data MASTER_KEY AUDIT_SECRET isoformat verify_token b64decode key_id
      ciphertext credentials w = (o, w') /\
    audit_logs w' = audit_logs w ++ [l] /\
    user_id l = Some uid /\ action l = py "decrypt" /\ resource_type l = py "data" /\
    resource_id l = Some (str_of_int key_id) /\
    (((exists r, o = Resp r) /\ status l = py "success") \/
     ((exists c d, o = HTTPException c d) /\ status l = py "failure")).
Proof using AUDIT_SECRET_encodes.
  intros Hv. unfold decrypt_data, bindH, pureH. rewrite Hv. cbn [fst].
  assert (Hfail : forall c d w0,
            audit_logs w0 = audit_logs w ->
            exists o w' l,
              (fun w1 => match liftH (audit AUDIT_SECRET isoformat uid (py "decrypt")
                                  (py "data") (Some (str_of_int key_id)) (py "failure")) w1
               with
               | (Resp a, w') => @raiseH L DecryptResponse c d w'
               | (HTTPException c0 d0, w') => (HTTPException c0 d0, w')
               | (Unhandled e, w') => (Unhandled e, w')
               end) w0 = (o, w') /\
              audit_logs w' = audit_logs w ++ [l] /\
              user_id l = Some uid /\ action l = py "decrypt" /\
              resource_type l = py "data" /\
              resource_id l = Some (str_of_int key_id) /\
              (((exists r, o = Resp r) /\ status l = py "success") \/
               ((exists c d, o = HTTPException c d) /\ status l = py "failure"))).
  { intros c d w0 Hw0. unfold liftH, raiseH.
    destruct (audit_record uid (py "decrypt") (py "data") (Some (str_of_int key_id))
                (py "failure") w0) as (l & -> & H1 & H2 & H3 & H4 & H5).
    eexists _, _, l. split; [reflexivity|]. cbn [audit_logs add_audit_log set_tick].
    rewrite Hw0. repeat (split; [assumption || reflexivity|]).
    right. split; [eauto | assumption]. }
  destruct (find_key key_id (crypto_keys w)) as [k|]; [|now apply Hfail].
  destruct (decrypt_refused k); [now apply Hfail|].
  unfold try_except, bindE, liftE, retE.
  destruct (decrypt_key_with_master MASTER_KEY (encrypted_key k)) as [raw|e];
    [|now apply Hfail].
  destruct (b64decode ciphertext) as [cb|e]; [|now apply Hfail].
  destruct (decrypt_with_key cb raw (key_type k)) as [p|e]; [|now apply Hfail].
  destruct (audit_record uid (py "decrypt") (py "data") (Some (str_of_int key_id))
              (py "success") w) as (l & -> & H1 & H2 & H3 & H4 & H5).
  eexists _, _, l. split; [reflexivity|]. cbn [audit_logs add_audit_log set_tick].
  repeat (split; [assumption || reflexivity|]).
  left. split; [eauto | assumption].
Qed.

Lemma encrypt_data_one_record key_id plaintext credentials uid role (w : World) :
  (forall c, exists text, Utf8.decode (b64encode c) = Ok text) ->
  verify_token credentials = Resp (uid, role) ->
  exists o w' l,
    encrypt_data MASTER_KEY AUDIT_SECRET isoformat verify_token b64encode key_id
      plaintext credentials w = (o, w') /\
    audit_logs w' = audit_logs w ++ [l] /\
    user_id l = Some uid /\ action l = py "encrypt" /\ resource_type l = py "data" /\
    resource_id l = Some (str_of_int key_id) /\
    (((exists r, o = Resp r) /\ status l = py "success") \/
     ((exists c d, o = HTTPException c d) /\ status l = py "failure")).
Proof using AUDIT_SECRET_encodes.
  intros Hb64 Hv. unfold encrypt_data, bindH, pureH. rewrite Hv. cbn [fst].
  assert (Hfail : forall c d w0,
            audit_logs w0 = audit_logs w ->
            exists o w' l,
              (fun w1 => match liftH (audit AUDIT_SECRET isoformat uid (py "encrypt")
                                  (py "data") (Some (str_of_int key_id)) (py "failure")) w1
               with
               | (Resp a, w') => @raiseH L EncryptResponse c d w'
               | (HTTPException c0 d0, w') => (HTTPException c0 d0, w')
               | (Unhandled e, w') => (Unhandled e, w')
               end) w0 = (o, w') /\
              audit_logs w' = audit_logs w ++ [l] /\
              user_id l = Some uid /\ action l = py "encrypt" /\
              resource_type l = py "data" /\
              resource_id l = Some (str_of_int key_id) /\
              (((exists r, o = Resp r) /\ status l = py "success") \/
               ((exists c d, o = HTTPException c d) /\ status l = py "failure"))).
  { intros c d w0 Hw0. unfold liftH, raiseH.
    destruct (audit_record uid (py "encrypt") (py "data") (Some (str_of_int key_id))
                (py "failure") w0) as (l & -> & H1 & H2 & H3 & H4 & H5).
    eexists _, _, l. split; [reflexivity|]. cbn [audit_logs add_audit_log set_tick].
    rewrite Hw0. repeat (split; [assumption || reflexivity|]).
    right. split; [eauto | assumption]. }
  destruct (find_key key_id (crypto_keys w)) as [k|]; [|now apply Hfail].
  destruct (encrypt_refused k); [now apply Hfail|].
  unfold try_except, bindE, liftE, randE, retE.
  destruct (decrypt_key_with_master MASTER_KEY (encrypted_key k)) as [raw|e];
    [|now apply Hfail].
  destruct (encrypt_with_key plaintext raw (key_type k) (rng w)) as [[c|e] g'];
    [|now apply Hfail].
  destruct (audit_record uid (py "encrypt") (py "data") (Some (str_of_int key_id))
              (py "success") (set_rng g' w)) as (l & -> & H1 & H2 & H3 & H4 & H5).
  destruct (Hb64 c) as [text ->].
  eexists _, _, l. split; [reflexivity|].
  cbn [audit_logs add_audit_log set_tick set_rng].
  repeat (split; [assumption || reflexivity|]).
  left. split; [eauto | assumption].
Qed.

End OneAuditRecord.

(** X11: with an audit secret that encodes, every authenticated call of
    [decrypt_data] and of [encrypt_data] (base64 text being text) adds
    exactly one audit record, for the caller, the action and the key id; the
    call ends in a response and the record says "success", or it ends in an
    [HTTPException] and the record says "failure". *)
Theorem data_request_leaves_one_record {L : CryptoLib} (MASTER_KEY : bytes)
    (AUDIT_SECRET : pystr) (isoformat : datetime -> pystr)
    (verify_token : pystr -> outcome (Z * pystr))
    (b64encode : bytes -> bytes) (b64decode : pystr -> result bytes)
    (secret_bytes : bytes) (key_id : Z) (text credentials : pystr)
    (user_id' : Z) (user_role : pystr) (w : World) :
  Utf8.encode AUDIT_SECRET = Ok secret_bytes ->
  verify_token credentials = Resp (user_id', user_role) ->
  (exists o w' l,
     decrypt_data MASTER_KEY AUDIT_SECRET isoformat verify_token b64decode key_id
       text credentials w = (o, w') /\
     audit_logs w' = audit_logs w ++ [l] /\
     user_id l = Some user_id' /\ action l = py "decrypt" /\
     resource_type l = py "data" /\ resource_id l = Some (str_of_int key_id) /\
     (((exists r, o = Resp r) /\ status l = py "success") \/
      ((exists c d, o = HTTPException c d) /\ status l = py "failure"))) /\
  ((forall c, exists t, Utf8.decode (b64encode c) = Ok t) ->
   exists o w' l,
     encrypt_data MASTER_KEY AUDIT_SECRET isoformat verify_token b64encode key_id
       text credentials w = (o, w') /\
     audit_logs w' = audit_logs w ++ [l] /\
     user_id l = Some user_id' /\ action l = py "encrypt" /\
     resource_type l = py "data" /\ resource_id l = Some (str_of_int key_id) /\
     (((exists r, o = Resp r) /\ status l = py "success") \/
      ((exists c d, o = HTTPException c d) /\ status l = py "failure"))).
Proof.
  intros Hs Hv. split.
  - eapply decrypt_data_one_record; eassumption.
  - intros Hb. eapply encrypt_data_one_record; eassumption.
Qed.

Lemma data_request_leaves_one_record_witness :
  let w := toy_world [revoked_key] in
  Utf8.encode Toy.AUDIT_SECRET = Ok (b_ "audit-secret") /\
  Toy.verify_token (py "user-token") = Resp (2%Z, py "user") /\
  exists o w' l,
    @decrypt_data Toy.lib Toy.MASTER_KEY Toy.AUDIT_SECRET Toy.isoformat Toy.verify_token
      Toy.b64decode 1 (py "hello") (py "user-token") w = (o, w') /\
    audit_logs w' = audit_logs w ++ [l] /\
    user_id l = Some 2%Z /\ action l = py "decrypt" /\
    resource_type l = py "data" /\ resource_id l = Some (str_of_int 1) /\
    (((exists r, o = Resp r) /\ status l = py "success") \/
     ((exists c d, o = HTTPException c d) /\ status l = py "failure")).
Proof.
  split; [reflexivity|]. split; [reflexivity|].
  exact (proj1 (@data_request_leaves_one_record Toy.lib Toy.MASTER_KEY Toy.AUDIT_SECRET
                  Toy.isoformat Toy.verify_token Toy.b64encode Toy.b64decode
                  (b_ "audit-secret") 1%Z (py "hello") (py "user-token") 2%Z (py "user")
                  (toy_world [revoked_key]) eq_refl eq_refl)).
Defined.

(* ------------------------------------------------------------------------- *)
(** ** Creating a key, and the round trip through the handlers *)

Lemma str_in_true (x : pystr) (l : list pystr) : In x l -> str_in x l = true.
Proof.
  intros Hin. unfold str_in. apply existsb_exists. exists x. split; [exact Hin|].
  apply pystr_eqb_refl.
Qed.

Lemma str_in_In (x : pystr) (l : list pystr) : str_in x l = true -> In x l.
Proof.
  unfold str_in. intros H. apply existsb_exists in H as (y & Hy & Heq).
  apply pystr_eqb_eq in Heq. now subst y.
Qed.

Section Creation.

Context {L : CryptoLib}.
Variable MASTER_KEY : bytes.
Variable AUDIT_SECRET : pystr.
Variable isoformat : datetime -> pystr.
Variable verify_token : pystr -> outcome (Z * pystr).
Variable require_role : pystr -> list pystr -> outcome unit.
Variable b64encode : bytes -> bytes.
Variable b64decode : pystr -> result bytes.
Variable secret_bytes : bytes.
Hypothesis AUDIT_SECRET_encodes : Utf8.encode AUDIT_SECRET = Ok secret_bytes.
Hypothesis MASTER_KEY_length : 32 <= length MASTER_KEY.

Lemma create_key_unsupported name' key_type' credentials uid role (w : World) :
  verify_token credentials = Resp (uid, role) ->
  require_role role [py "admin"] = Resp tt ->
  ~ In key_type' supported_key_types ->
  create_key MASTER_KEY AUDIT_SECRET isoformat verify_token require_role name'
    key_type' credentials w
  = (HTTPException 400 (py "Invalid key type. Supported types: "
                        ++ join (py ", ") supported_key_types), w).
Proof using Type.
  intros Hv Hr Hnot. unfold create_key, bindH, pureH. rewrite Hv, Hr.
  rewrite (@str_in_false key_type' supported_key_types supported_key_types Hnot)
    by apply incl_refl.
  reflexivity.
Qed.

Lemma create_key_supported name' key_type' credentials uid role (w : World) :
  verify_token credentials = Resp (uid, role) ->
  require_role role [py "admin"] = Resp tt ->
  In key_type' supported_key_types ->
  exists raw g1 wrapped g2 w',
    generate_key key_type' (rng w) = (Ok raw, g1) /\
    encrypt_key_with_master MASTER_KEY raw g1 = (Ok wrapped, g2) /\
    decrypt_key_with_master MASTER_KEY wrapped = Ok raw /\
    let k := {| id := key_seq w; name := name'; key_type := key_type';
                encrypted_key := wrapped; key_version := 1; is_active := true;
                is_revoked := false; created_by := uid;
                created_at := clock w (tick w); rotated_at := None;
                revoked_at := None |} in
    create_key MASTER_KEY AUDIT_SECRET isoformat verify_token require_role name'
      key_type' credentials w = (Resp (key_response k), w') /\
    crypto_keys w' = crypto_keys w ++ [k] /\
    key_seq w' = (key_seq w + 1)%Z /\
    rng w' = g2.
Proof using AUDIT_SECRET_encodes MASTER_KEY_length.
  intros Hv Hr Hin.
  destruct (generate_key_supported (rng w) Hin) as (raw & g1 & Hgen).
  destruct (@wrap_unwrap L MASTER_KEY MASTER_KEY_length raw g1)
    as (Hwrap & _ & _ & Hunwrap).
  cbv zeta in Hwrap, Hunwrap.
  exists raw, g1. eexists. eexists.
  assert (Hrun : forall wrapped g2,
            encrypt_key_with_master MASTER_KEY raw g1 = (Ok wrapped, g2) ->
            let k := {| id := key_seq w; name := name'; key_type := key_type';
                        encrypted_key := wrapped; key_version := 1; is_active := true;
                        is_revoked := false; created_by := uid;
                        created_at := clock w (tick w); rotated_at := None;
                        revoked_at := None |} in
            exists w',
              create_key MASTER_KEY AUDIT_SECRET isoformat verify_token require_role
                name' key_type' credentials w = (Resp (key_response k), w') /\
              crypto_keys w' = crypto_keys w ++ [k] /\
              key_seq w' = (key_seq w + 1)%Z /\
              rng w' = g2).
  { intros wrapped g2 Hw. cbv zeta.
    unfold create_key, bindH, pureH. rewrite Hv, Hr.
    rewrite (str_in_true _ _ Hin). cbn [negb].
    unfold try_except, bindE, randE, insert_key, utcnow, retE.
    rewrite Hgen. cbn [rng set_rng]. rewrite Hw. unfold bindE.
    cbn [rng set_rng tick clock crypto_keys key_seq set_tick id].
    match goal with
    | |- context [audit ?a ?b ?c ?d ?e ?f ?g ?w1] =>
        destruct (@audit_record L AUDIT_SECRET isoformat secret_bytes
                    AUDIT_SECRET_encodes c d e f g w1) as (l & -> & _)
    end.
    eexists. split; [reflexivity|]. repeat split. }
  destruct (Hrun _ _ Hwrap) as (w' & H1 & H2 & H3 & H4).
  exists w'. split; [exact Hgen|]. split; [exact Hwrap|]. split; [exact Hunwrap|].
  cbv zeta. split; [exact H1|]. split; [exact H2|]. split; [exact H3 | exact H4].
Qed.

End Creation.

Section HandlerRoundTrip.

Context {L : CryptoLib}.
Variable MASTER_KEY : bytes.
Variable AUDIT_SECRET : pystr.
Variable isoformat : datetime -> pystr.
Variable verify_token : pystr -> outcome (Z * pystr).
Variable require_role : pystr -> list pystr -> outcome unit.
Variable b64encode : bytes -> bytes.
Variable b64decode : pystr -> result bytes.
Variable secret_bytes : bytes.
Hypothesis AUDIT_SECRET_encodes : Utf8.encode AUDIT_SECRET = Ok secret_bytes.
Hypothesis b64decode_b64encode :
  forall c, exists text, Utf8.decode (b64encode c) = Ok text /\ b64decode text = Ok c.

Lemma encrypt_data_inv key_id P credentials (w w1 : World) (k : CryptoKey) raw r :
  find_key key_id (crypto_keys w) = Some k ->
  decrypt_key_with_master MASTER_KEY (encrypted_key k) = Ok raw ->
  encrypt_data MASTER_KEY AUDIT_SECRET isoformat verify_token b64encode key_id P
    credentials w = (Resp r, w1) ->
  exists sealed g',
    encrypt_with_key P raw (key_type k) (rng w) = (Ok sealed, g') /\
    Utf8.decode (b64encode sealed) = Ok (e_ciphertext r) /\
    e_key_id r = key_id /\ e_key_version r = key_version k /\
    encrypt_refused k = false /\
    crypto_keys w1 = crypto_keys w.
Proof using Type.
  intros Hfind Hraw. unfold encrypt_data, bindH, pureH.
  destruct (verify_token credentials) as [td| |]; try discriminate. rewrite Hfind.
  destruct (encrypt_refused k).
  { unfold liftH, raiseH. destruct (audit _ _ _ _ _ _ _ _) as [[[]|e] w2]; discriminate. }
  unfold try_except, bindE, liftE, randE, retE. rewrite Hraw.
  destruct (encrypt_with_key P raw (key_type k) (rng w)) as [[sealed|e] g'].
  - destruct (audit _ _ _ _ _ _ _ (set_rng g' w)) as [[[]|e] w2] eqn:Ha.
    + destruct (Utf8.decode (b64encode sealed)) as [text|e] eqn:Ht.
      * intros H. injection H as <- <-. exists sealed, g'.
        apply audit_frame in Ha. destruct Ha as (Hk & _).
        cbn [e_ciphertext e_key_id e_key_version].
        repeat split; auto. now apply find_key_id in Hfind.
      * unfold liftH, bindH, raiseH.
        destruct (audit _ _ _ _ _ _ _ w2) as [[[]|e'] w3]; discriminate.
    + unfold liftH, bindH, raiseH.
      destruct (audit _ _ _ _ _ _ _ w2) as [[[]|e'] w3]; discriminate.
  - unfold liftH, bindH, raiseH.
    destruct (audit _ _ _ _ _ _ _ _) as [[[]|e'] w3]; discriminate.
Qed.

Lemma encrypt_then_decrypt key_id P pb cred_e cred_d td_d (w : World) (k : CryptoKey)
    raw g0 g1 :
  verify_token cred_d = Resp td_d ->
  find_key key_id (crypto_keys w) = Some k ->
  In (key_type k) supported_key_types ->
  decrypt_key_with_master MASTER_KEY (encrypted_key k) = Ok raw ->
  generate_key (key_type k) g0 = (Ok raw, g1) ->
  Utf8.encode P = Ok pb ->
  (In (key_type k) proof_families ->
   split_once (marker_of (key_type k)) (pb ++ marker_of (key_type k)) = Some (pb, [])) ->
  forall r w1,
    encrypt_data MASTER_KEY AUDIT_SECRET isoformat verify_token b64encode key_id P
      cred_e w = (Resp r, w1) ->
    exists w2,
      decrypt_data MASTER_KEY AUDIT_SECRET isoformat verify_token b64decode key_id
        (e_ciphertext r) cred_d w1
      = (Resp {| d_plaintext := P; d_key_id := key_id;
                 d_key_version := key_version k |}, w2).
Proof using AUDIT_SECRET_encodes b64decode_b64encode.
  intros Hvd Hfind Hin Hraw Hgen Hpb Hmark r w1 Henc.
  destruct (encrypt_data_inv _ _ _ _ Hfind Hraw Henc)
    as (sealed & g' & Hseal & Htext & _ & _ & Hgate & Hkeys).
  destruct (b64decode_b64encode sealed) as (text & Ht & Hdec).
  rewrite Htext in Ht. injection Ht as <-.
  assert (Hopen : decrypt_with_key sealed raw (key_type k) = Ok P).
  { destruct (@seal_open L (key_type k) g0 raw g1 P pb (rng w) Hin Hgen Hpb Hmark)
      as [[_ Hall] | [_ (sealed' & g'' & Hs' & Ho')]].
    - exact (Hall _ _ Hseal).
    - rewrite Hseal in Hs'. injection Hs' as <- <-. exact Ho'. }
  assert (Hgate' : decrypt_refused k = false).
  { unfold encrypt_refused in Hgate. unfold decrypt_refused.
    destruct (is_active k); [reflexivity | discriminate Hgate]. }
  rewrite <- Hkeys in Hfind.
  destruct (@decrypt_data_passed L MASTER_KEY AUDIT_SECRET isoformat verify_token
              b64decode secret_bytes AUDIT_SECRET_encodes key_id (e_ciphertext r) cred_d
              td_d w1 k raw sealed P Hvd Hfind Hgate' Hraw Hdec Hopen) as (w2 & Hrun & _).
  exists w2. rewrite Hrun. now rewrite (find_key_id _ _ Hfind).
Qed.

Lemma encrypt_data_returns key_id P pb cred_e td_e (w : World) (k : CryptoKey)
    raw g0 g1 :
  verify_token cred_e = Resp td_e ->
  find_key key_id (crypto_keys w) = Some k ->
  is_active k = true -> is_revoked k = false ->
  In (key_type k) supported_key_types ->
  ~ In (key_type k) [py "RSA"; py "RSA2048"; py "RSA4096"] ->
  decrypt_key_with_master MASTER_KEY (encrypted_key k) = Ok raw ->
  generate_key (key_type k) g0 = (Ok raw, g1) ->
  Utf8.encode P = Ok pb ->
  (In (key_type k) proof_families ->
   split_once (marker_of (key_type k)) (pb ++ marker_of (key_type k)) = Some (pb, [])) ->
  exists r w1,
    encrypt_data MASTER_KEY AUDIT_SECRET isoformat verify_token b64encode key_id P
      cred_e w = (Resp r, w1).
Proof using AUDIT_SECRET_encodes b64decode_b64encode.
  intros Hve Hfind Hact Hrev Hin Hnrsa Hraw Hgen Hpb Hmark.
  destruct (@seal_open L (key_type k) g0 raw g1 P pb (rng w) Hin Hgen Hpb Hmark)
    as [[Hrsa _] | [_ (sealed & g' & Hseal & _)]]; [contradiction|].
  destruct (b64decode_b64encode sealed) as (text & Ht & _).
  assert (Hgate : encrypt_refused k = false)
    by (unfold encrypt_refused; now rewrite Hact, Hrev).
  destruct (@encrypt_data_passed L MASTER_KEY AUDIT_SECRET isoformat verify_token
              b64encode secret_bytes AUDIT_SECRET_encodes key_id P cred_e td_e w k raw
              sealed g' text Hve Hfind Hgate Hraw Hseal Ht) as (w1 & Hrun & _).
  eauto.
Qed.

End HandlerRoundTrip.

Lemma hex_char_facts (n : N) :
  (n < 16)%N ->
  hex_digit (hex_char n) = Some n /\ is_ascii_space (hex_char n) = false /\
  (hex_char n < 128)%N.
Proof.
  intros Hn. rewrite <- (N2Nat.id n).
  assert (Hm : N.to_nat n < 16) by lia.
  generalize dependent (N.to_nat n). intros m Hm.
  do 16 (destruct m as [|m]; [repeat split|]). lia.
Qed.

Lemma byte_of_N_val (x : byte) : byte_of_N (byte_val x) = x.
Proof.
  unfold byte_of_N, byte_val. pose proof (Byte.to_N_bounded x).
  rewrite N.mod_small by lia. now rewrite Byte.of_to_N.
Qed.

Lemma hex_codec (c : bytes) :
  Utf8.decode (hex_encode c) = Ok (hexdigest c) /\ hex_decode (hexdigest c) = Ok c.
Proof.
  unfold hex_encode, hex_decode. induction c as [|x c [IH1 IH2]]; [now split|].
  pose proof (Byte.to_N_bounded x) as Hx. fold (byte_val x) in Hx.
  assert (Hhi : (byte_val x / 16 < 16)%N)
    by (apply N.Div0.div_lt_upper_bound; lia).
  assert (Hlo : (byte_val x mod 16 < 16)%N) by (apply N.mod_lt; lia).
  destruct (hex_char_facts Hhi) as (A1 & A2 & A3).
  destruct (hex_char_facts Hlo) as (B1 & B2 & B3).
  change (hexdigest (x :: c))
    with (hex_char (byte_val x / 16) :: hex_char (byte_val x mod 16) :: hexdigest c).
  split.
  - cbn [map].
    rewrite decode_1 by (rewrite byte_val_of_N by lia; now apply N.ltb_lt).
    rewrite decode_1 by (rewrite byte_val_of_N by lia; now apply N.ltb_lt).
    rewrite IH1, !byte_val_of_N by lia. reflexivity.
  - cbn [fromhex]. rewrite A2, A1, B1, IH2. f_equal. f_equal.
    rewrite <- (byte_of_N_val x) at 3. f_equal.
    pose proof (N.div_mod (byte_val x) 16). lia.
Qed.

(** X12: for an administrator, [create_key] answers 400 and changes nothing
    when the type is not a supported one; for a supported type it returns
    the new record (version 1, active, not revoked, the caller as owner, the
    next id of the sequence), appends it to the table, and the wrapped key
    it stores unwraps to the material [generate_key] made for that type. *)
Theorem create_key_makes_key {L : CryptoLib} (MASTER_KEY : bytes)
    (AUDIT_SECRET : pystr) (isoformat : datetime -> pystr)
    (verify_token : pystr -> outcome (Z * pystr))
    (require_role : pystr -> list pystr -> outcome unit) (secret_bytes : bytes)
    (name' key_type' credentials : pystr) (user_id' : Z) (user_role : pystr)
    (w : World) :
  32 <= length MASTER_KEY ->
  Utf8.encode AUDIT_SECRET = Ok secret_bytes ->
  verify_token credentials = Resp (user_id', user_role) ->
  require_role user_role [py "admin"] = Resp tt ->
  let create := create_key MASTER_KEY AUDIT_SECRET isoformat verify_token require_role in
  (~ In key_type' supported_key_types ->
   create name' key_type' credentials w
   = (HTTPException 400 (py "Invalid key type. Supported types: "
                         ++ join (py ", ") supported_key_types), w)) /\
  (In key_type' supported_key_types ->
   exists raw g1 wrapped g2 w',
     generate_key key_type' (rng w) = (Ok raw, g1) /\
     encrypt_key_with_master MASTER_KEY raw g1 = (Ok wrapped, g2) /\
     decrypt_key_with_master MASTER_KEY wrapped = Ok raw /\
     let k := {| id := key_seq w; name := name'; key_type := key_type';
                 encrypted_key := wrapped; key_version := 1; is_active := true;
                 is_revoked := false; created_by := user_id';
                 created_at := clock w (tick w); rotated_at := None;
                 revoked_at := None |} in
     create name' key_type' credentials w = (Resp (key_response k), w') /\
     crypto_keys w' = crypto_keys w ++ [k] /\
     key_seq w' = (key_seq w + 1)%Z /\
     (find_key (key_seq w) (crypto_keys w) = None ->
      find_key (key_seq w) (crypto_keys w') = Some k)).
Proof.
  intros Hmk Hs Hv Hr create. split.
  - intros Hnot. unfold create. eapply create_key_unsupported; eassumption.
  - intros Hin.
    destruct (@create_key_supported L MASTER_KEY AUDIT_SECRET isoformat verify_token
                require_role secret_bytes Hs Hmk name' key_type' credentials user_id'
                user_role w Hv Hr Hin)
      as (raw & g1 & wrapped & g2 & w' & H1 & H2 & H3 & H4 & H5 & H6 & _).
    exists raw, g1, wrapped, g2, w'. split; [exact H1|]. split; [exact H2|].
    split; [exact H3|]. cbv zeta. split; [exact H4|]. split; [exact H5|].
    split; [exact H6|]. intros Hnone. rewrite H5, find_key_app_new, Hnone.
    cbn [id]. now rewrite Z.eqb_refl.
Qed.

Lemma create_key_makes_key_witness :
  let w := toy_world [active_key] in
  32 <= length Toy.MASTER_KEY /\
  Utf8.encode Toy.AUDIT_SECRET = Ok (b_ "audit-secret") /\
  Toy.verify_token (py "admin-token") = Resp (1%Z, py "admin") /\
  Toy.require_role (py "admin") [py "admin"] = Resp tt /\
  In (py "HMAC256") supported_key_types /\
  exists raw g1 wrapped g2 w',
    @generate_key Toy.lib (py "HMAC256") (rng w) = (Ok raw, g1) /\
    @encrypt_key_with_master Toy.lib Toy.MASTER_KEY raw g1 = (Ok wrapped, g2) /\
    @decrypt_key_with_master Toy.lib Toy.MASTER_KEY wrapped = Ok raw /\
    let k := {| id := key_seq w; name := py "second"; key_type := py "HMAC256";
                encrypted_key := wrapped; key_version := 1; is_active := true;
                is_revoked := false; created_by := 1;
                created_at := clock w (tick w); rotated_at := None;
                revoked_at := None |} in
    @create_key Toy.lib Toy.MASTER_KEY Toy.AUDIT_SECRET Toy.isoformat Toy.verify_token
      Toy.require_role (py "second") (py "HMAC256") (py "admin-token") w
      = (Resp (key_response k), w') /\
    crypto_keys w' = crypto_keys w ++ [k] /\
    key_seq w' = (key_seq w + 1)%Z /\
    (find_key (key_seq w) (crypto_keys w) = None ->
     find_key (key_seq w) (crypto_keys w') = Some k).
Proof.
  assert (Hmk : 32 <= length Toy.MASTER_KEY) by (vm_compute; lia).
  assert (Hin : In (py "HMAC256") supported_key_types) by in_supported.
  split; [exact Hmk|]. split; [reflexivity|]. split; [reflexivity|].
  split; [reflexivity|]. split; [exact Hin|].
  exact (proj2 (@create_key_makes_key Toy.lib Toy.MASTER_KEY Toy.AUDIT_SECRET
                  Toy.isoformat Toy.verify_token Toy.require_role (b_ "audit-secret")
                  (py "second") (py "HMAC256") (py "admin-token") 1%Z (py "admin")
                  (toy_world [active_key]) Hmk eq_refl eq_refl eq_refl) Hin).
Defined.

(** X13: what [encrypt_data] returns for a stored key, [decrypt_data] turns
    back into the plaintext, for the same key id and any authenticated
    caller: when the stored material unwraps to a key that [generate_key]
    makes for the record's type, base64 decoding undoes base64 encoding, and
    for the MAC and signature types the first marker of the sealed bytes is
    the one that was appended.  For the types other than RSA the encryption
    does return on an active key that is not revoked. *)
Theorem encrypt_data_decrypt_data {L : CryptoLib} (MASTER_KEY : bytes)
    (AUDIT_SECRET : pystr) (isoformat : datetime -> pystr)
    (verify_token : pystr -> outcome (Z * pystr))
    (b64encode : bytes -> bytes) (b64decode : pystr -> result bytes)
    (secret_bytes : bytes) (key_id : Z) (plaintext : pystr) (plaintext_bytes : bytes)
    (credentials credentials' : pystr) (token_data token_data' : Z * pystr)
    (w : World) (k : CryptoKey) (raw : bytes) (g0 g1 : RNG) :
  Utf8.encode AUDIT_SECRET = Ok secret_bytes ->
  (forall c, exists text, Utf8.decode (b64encode c) = Ok text /\ b64decode text = Ok c) ->
  verify_token credentials = Resp token_data ->
  verify_token credentials' = Resp token_data' ->
  find_key key_id (crypto_keys w) = Some k ->
  In (key_type k) supported_key_types ->
  decrypt_key_with_master MASTER_KEY (encrypted_key k) = Ok raw ->
  generate_key (key_type k) g0 = (Ok raw, g1) ->
  Utf8.encode plaintext = Ok plaintext_bytes ->
  (In (key_type k) proof_families ->
   split_once (marker_of (key_type k)) (plaintext_bytes ++ marker_of (key_type k))
   = Some (plaintext_bytes, [])) ->
  (forall r w1,
     encrypt_data MASTER_KEY AUDIT_SECRET isoformat verify_token b64encode key_id
       plaintext credentials w = (Resp r, w1) ->
     exists w2,
       decrypt_data MASTER_KEY AUDIT_SECRET isoformat verify_token b64decode key_id
         (e_ciphertext r) credentials' w1
       = (Resp {| d_plaintext := plaintext; d_key_id := key_id;
                  d_key_version := key_version k |}, w2)) /\
  (is_active k = true -> is_revoked k = false ->
   ~ In (key_type k) [py "RSA"; py "RSA2048"; py "RSA4096"] ->
   exists r w1,
     encrypt_data MASTER_KEY AUDIT_SECRET isoformat verify_token b64encode key_id
       plaintext credentials w = (Resp r, w1)).
Proof.
  intros Hs Hb Hv Hv' Hfind Hin Hraw Hgen Hpb Hmark. split.
  - eapply encrypt_then_decrypt; eassumption.
  - intros Hact Hrev Hnrsa. eapply encrypt_data_returns; eassumption.
Qed.

Lemma encrypt_data_decrypt_data_witness :
  let w := toy_world [wrapped_row] in
  Utf8.encode Toy.AUDIT_SECRET = Ok (b_ "audit-secret") /\
  (forall c, exists text,
     Utf8.decode (hex_encode c) = Ok text /\ hex_decode text = Ok c) /\
  find_key 1 (crypto_keys w) = Some wrapped_row /\
  @decrypt_key_with_master Toy.lib Toy.MASTER_KEY (encrypted_key wrapped_row)
    = Ok (repeat x00 32) /\
  @generate_key Toy.lib (key_type wrapped_row) 0 = (Ok (repeat x00 32), 1) /\
  exists r w1 w2,
    @encrypt_data Toy.lib Toy.MASTER_KEY Toy.AUDIT_SECRET Toy.isoformat Toy.verify_token
      hex_encode 1 (py "hello") (py "user-token") w = (Resp r, w1) /\
    @decrypt_data Toy.lib Toy.MASTER_KEY Toy.AUDIT_SECRET Toy.isoformat Toy.verify_token
      hex_decode 1 (e_ciphertext r) (py "admin-token") w1
    = (Resp {| d_plaintext := py "hello"; d_key_id := 1; d_key_version := 1 |}, w2).
Proof.
  assert (Hcodec : forall c, exists text,
            Utf8.decode (hex_encode c) = Ok text /\ hex_decode text = Ok c)
    by (intros c; exists (hexdigest c); apply hex_codec).
  assert (Hin : In (key_type wrapped_row) supported_key_types) by (cbn; in_supported).
  assert (Hraw : @decrypt_key_with_master Toy.lib Toy.MASTER_KEY
                   (encrypted_key wrapped_row) = Ok (repeat x00 32))
    by (vm_compute; reflexivity).
  assert (Hgen : @generate_key Toy.lib (key_type wrapped_row) 0
                 = (Ok (repeat x00 32), 1)) by (vm_compute; reflexivity).
  assert (Hmark : In (key_type wrapped_row) proof_families ->
                  split_once (marker_of (key_type wrapped_row))
                    (b_ "hello" ++ marker_of (key_type wrapped_row))
                  = Some (b_ "hello", [])) by (intros _; vm_compute; reflexivity).
  split; [reflexivity|]. split; [exact Hcodec|]. split; [reflexivity|].
  split; [exact Hraw|]. split; [exact Hgen|].
  destruct (@encrypt_data_decrypt_data Toy.lib Toy.MASTER_KEY Toy.AUDIT_SECRET
              Toy.isoformat Toy.verify_token hex_encode hex_decode (b_ "audit-secret")
              1%Z (py "hello") (b_ "hello") (py "user-token") (py "admin-token")
              (2%Z, py "user") (1%Z, py "admin") (toy_world [wrapped_row]) wrapped_row
              (repeat x00 32) 0 1 eq_refl Hcodec eq_refl eq_refl eq_refl Hin Hraw Hgen
              eq_refl Hmark) as [Hback Hrun].
  destruct Hrun as (r & w1 & Henc).
  - reflexivity.
  - reflexivity.
  - cbn. intros [H|[H|[H|[]]]]; discriminate H.
  - destruct (Hback r w1 Henc) as (w2 & Hdec). exists r, w1, w2. split; assumption.
Defined.

(* ------------------------------------------------------------------------- *)
(** ** Deleting a key *)

Section Deletion.

Context {L : CryptoLib}.
Variable MASTER_KEY : bytes.
Variable AUDIT_SECRET : pystr.
Variable isoformat : datetime -> pystr.
Variable verify_token : pystr -> outcome (Z * pystr).
Variable require_role : pystr -> list pystr -> outcome unit.
Variable b64encode : bytes -> bytes.
Variable b64decode : pystr -> result bytes.
Variable secret_bytes : bytes.
Hypothesis AUDIT_SECRET_encodes : Utf8.encode AUDIT_SECRET = Ok secret_bytes.

Lemma data_requests_absent key_id text credentials token_data (w : World) :
  verify_token credentials = Resp token_data ->
  find_key key_id (crypto_keys w) = None ->
  fst (encrypt_data MASTER_KEY AUDIT_SECRET isoformat verify_token b64encode key_id
         text credentials w) = HTTPException 404 (py "Key not found") /\
  fst (decrypt_data MASTER_KEY AUDIT_SECRET isoformat verify_token b64decode key_id
         text credentials w) = HTTPException 404 (py "Key not found").
Proof using AUDIT_SECRET_encodes.
  intros Hv Hnone. unfold encrypt_data, decrypt_data, bindH, pureH.
  rewrite Hv, Hnone. unfold liftH, raiseH. split.
  - destruct (@audit_record L AUDIT_SECRET isoformat secret_bytes AUDIT_SECRET_encodes
                (fst token_data) (py "encrypt") (py "data") (Some (str_of_int key_id))
                (py "failure") w) as (l & -> & _).
    reflexivity.
  - destruct (@audit_record L AUDIT_SECRET isoformat secret_bytes AUDIT_SECRET_encodes
                (fst token_data) (py "decrypt") (py "data") (Some (str_of_int key_id))
                (py "failure") w) as (l & -> & _).
    reflexivity.
Qed.

Lemma key_requests_absent key_id credentials uid role (w : World) :
  verify_token credentials = Resp (uid, role) ->
  require_role role [py "admin"] = Resp tt ->
  find_key key_id (crypto_keys w) = None ->
  rotate_key MASTER_KEY AUDIT_SECRET isoformat verify_token require_role key_id
    credentials w = (HTTPException 404 (py "Key not found"), w) /\
  revoke_key AUDIT_SECRET isoformat verify_token require_role key_id credentials w
    = (HTTPException 404 (py "Key not found"), w) /\
  delete_key AUDIT_SECRET isoformat verify_token require_role key_id credentials w
    = (HTTPException 404 (py "Key not found"), w).
Proof using Type.
  intros Hv Hr Hnone. unfold rotate_key, revoke_key, delete_key, bindH, pureH.
  rewrite Hv, Hr, Hnone. repeat split.
Qed.

Lemma delete_key_found key_id credentials uid role (w : World) (k : CryptoKey) :
  verify_token credentials = Resp (uid, role) ->
  require_role role [py "admin"] = Resp tt ->
  find_key key_id (crypto_keys w) = Some k ->
  exists w',
    delete_key AUDIT_SECRET isoformat verify_token require_role key_id credentials w
      = (Resp tt, w') /\
    crypto_keys w' = remove_key key_id (crypto_keys w) /\
    key_seq w' = key_seq w.
Proof using AUDIT_SECRET_encodes.
  intros Hv Hr Hfind. unfold delete_key, bindH, pureH. rewrite Hv, Hr, Hfind.
  unfold liftH.
  destruct (@audit_record L AUDIT_SECRET isoformat secret_bytes AUDIT_SECRET_encodes
              uid (py "delete_key") (py "key") (Some (str_of_int key_id)) (py "success")
              (set_crypto_keys (remove_key key_id (crypto_keys w)) w)) as (l & -> & _).
  eexists. split; [reflexivity|]. split; reflexivity.
Qed.

End Deletion.

(** X14: for an administrator, [delete_key] answers 404 and changes nothing
    when the id is absent; when it is there the record is removed, the other
    records stay, and from then on every request for that id (rotate,
    revoke, delete, encrypt, decrypt) answers 404 "Key not found". *)
Theorem delete_key_removes_key {L : CryptoLib} (MASTER_KEY : bytes)
    (AUDIT_SECRET : pystr) (isoformat : datetime -> pystr)
    (verify_token : pystr -> outcome (Z * pystr))
    (require_role : pystr -> list pystr -> outcome unit)
    (b64encode : bytes -> bytes) (b64decode : pystr -> result bytes)
    (secret_bytes : bytes) (key_id : Z) (credentials : pystr) (user_id' : Z)
    (user_role : pystr) (w : World) :
  NoDup (map id (crypto_keys w)) ->
  Utf8.encode AUDIT_SECRET = Ok secret_bytes ->
  verify_token credentials = Resp (user_id', user_role) ->
  require_role user_role [py "admin"] = Resp tt ->
  (find_key key_id (crypto_keys w) = None ->
   delete_key AUDIT_SECRET isoformat verify_token require_role key_id credentials w
   = (HTTPException 404 (py "Key not found"), w)) /\
  (forall k,
     find_key key_id (crypto_keys w) = Some k ->
     exists w',
       delete_key AUDIT_SECRET isoformat verify_token require_role key_id credentials w
         = (Resp tt, w') /\
       find_key key_id (crypto_keys w') = None /\
       (forall other_id, other_id <> key_id ->
          find_key other_id (crypto_keys w') = find_key other_id (crypto_keys w)) /\
       rotate_key MASTER_KEY AUDIT_SECRET isoformat verify_token require_role key_id
         credentials w' = (HTTPException 404 (py "Key not found"), w') /\
       revoke_key AUDIT_SECRET isoformat verify_token require_role key_id credentials w'
         = (HTTPException 404 (py "Key not found"), w') /\
       delete_key AUDIT_SECRET isoformat verify_token require_role key_id credentials w'
         = (HTTPException 404 (py "Key not found"), w') /\
       (forall text,
          fst (encrypt_data MASTER_KEY AUDIT_SECRET isoformat verify_token b64encode
                 key_id text credentials w')
          = HTTPException 404 (py "Key not found") /\
          fst (decrypt_data MASTER_KEY AUDIT_SECRET isoformat verify_token b64decode
                 key_id text credentials w')
          = HTTPException 404 (py "Key not found"))).
Proof.
  intros Hnd Hs Hv Hr. split.
  - intros Hnone.
    exact (proj2 (proj2 (key_requests_absent MASTER_KEY AUDIT_SECRET isoformat
                           verify_token require_role key_id credentials w Hv Hr Hnone))).
  - intros k Hfind.
    destruct (@delete_key_found L AUDIT_SECRET isoformat verify_token require_role
                secret_bytes Hs key_id credentials user_id' user_role w k Hv Hr Hfind)
      as (w' & Hrun & Hkeys & _).
    assert (Hnone : find_key key_id (crypto_keys w') = None)
      by (rewrite Hkeys; now apply find_key_remove_same).
    destruct (key_requests_absent MASTER_KEY AUDIT_SECRET isoformat verify_token
                require_role key_id credentials w' Hv Hr Hnone) as (R1 & R2 & R3).
    exists w'. split; [exact Hrun|]. split; [exact Hnone|]. split.
    { intros j Hj. rewrite Hkeys. now apply find_key_remove_other. }
    split; [exact R1|]. split; [exact R2|]. split; [exact R3|].
    intros text.
    exact (@data_requests_absent L MASTER_KEY AUDIT_SECRET isoformat verify_token
             b64encode b64decode secret_bytes Hs key_id text credentials
             (user_id', user_role) w' Hv Hnone).
Qed.

Lemma delete_key_removes_key_witness :
  let w := toy_world [active_key; revoked_key_2] in
  NoDup (map id (crypto_keys w)) /\
  Utf8.encode Toy.AUDIT_SECRET = Ok (b_ "audit-secret") /\
  find_key 1 (crypto_keys w) = Some active_key /\
  exists w',
    @delete_key Toy.lib Toy.AUDIT_SECRET Toy.isoformat Toy.verify_token
      Toy.require_role 1 (py "admin-token") w = (Resp tt, w') /\
    find_key 1 (crypto_keys w') = None /\
    find_key 2 (crypto_keys w') = Some revoked_key_2 /\
    fst (@decrypt_data Toy.lib Toy.MASTER_KEY Toy.AUDIT_SECRET Toy.isoformat
           Toy.verify_token Toy.b64decode 1 (py "hello") (py "admin-token") w')
      = HTTPException 404 (py "Key not found").
Proof.
  assert (Hnd : NoDup (map id (crypto_keys (toy_world [active_key; revoked_key_2])))).
  { cbn. apply NoDup_cons; [intros [H|[]]; discriminate H|].
    apply NoDup_cons; [intros [] | apply NoDup_nil]. }
  split; [exact Hnd|]. split; [reflexivity|]. split; [reflexivity|].
  destruct (proj2 (@delete_key_removes_key Toy.lib Toy.MASTER_KEY Toy.AUDIT_SECRET
                     Toy.isoformat Toy.verify_token Toy.require_role Toy.b64encode
                     Toy.b64decode (b_ "audit-secret") 1%Z (py "admin-token") 1%Z
                     (py "admin") (toy_world [active_key; revoked_key_2]) Hnd eq_refl
                     eq_refl eq_refl) active_key eq_refl)
    as (w' & H1 & H2 & H3 & _ & _ & _ & H4).
  exists w'. split; [exact H1|]. split; [exact H2|]. split.
  - rewrite H3 by discriminate. reflexivity.
  - exact (proj2 (H4 (py "hello"))).
Defined.

(* ------------------------------------------------------------------------- *)
(** ** What opening accepts *)

Lemma starts_with_sound (sep s : bytes) :
  starts_with sep s = true -> s = sep ++ skipn (length sep) s.
Proof.
  revert s. induction sep as [|x sep IH]; intros [|y s]; cbn [starts_with]; try discriminate.
  - reflexivity.
  - reflexivity.
  - intros H. apply andb_true_iff in H as [Hxy Hrest].
    apply Byte.byte_dec_bl in Hxy. subst y. cbn [length skipn app]. f_equal. now apply IH.
Qed.

Lemma split_once_sound (sep s a b : bytes) :
  split_once sep s = Some (a, b) -> s = a ++ sep ++ b.
Proof.
  revert a b. induction s as [|x s IH]; intros a b; cbn [split_once].
  - destruct (starts_with sep []) eqn:Hs; [|discriminate].
    intros H. injection H as <- <-. now apply starts_with_sound.
  - destruct (starts_with sep (x :: s)) eqn:Hs.
    + intros H. injection H as <- <-. now apply starts_with_sound.
    + destruct (split_once sep s) as [[a' b']|]; [|discriminate].
      intros H. injection H as <- <-. cbn [app]. f_equal. now apply IH.
Qed.

Section OpenSound.

Context {L : CryptoLib}.

Lemma hmac_open_sound ciphertext key key_type P :
  In key_type [py "HMAC256"; py "HMAC512"] ->
  decrypt_with_key ciphertext key key_type = Ok P ->
  exists pb,
    ciphertext = pb ++ HMAC_MARKER ++ hmac_of key_type key pb /\
    split_once HMAC_MARKER ciphertext = Some (pb, hmac_of key_type key pb) /\
    Utf8.decode pb = Ok P.
Proof.
  intros Hin. unfold decrypt_with_key, hmac_of.
  destruct Hin as [<- | [<- | []]]; eval_tags; unfold split_unpack;
    (destruct (split_once HMAC_MARKER ciphertext) as [[a b]|] eqn:Hsplit;
     cbn [try_except_ValueError bind]; [|discriminate]);
    (match goal with
     | |- context [compare_digest b ?d] => destruct (compare_digest b d) eqn:Hcmp
     end; cbn [negb]; [|discriminate]);
    intros Hdec; apply bytes_eqb_eq in Hcmp; subst b;
    exists a; (split; [now apply split_once_sound | split; [reflexivity | exact Hdec]]).
Qed.

Lemma ecc_open_sound ciphertext key key_type P :
  In key_type [py "ECC256"; py "ECC384"] ->
  decrypt_with_key ciphertext key key_type = Ok P ->
  exists pb sig k,
    ciphertext = pb ++ ECC_MARKER ++ sig /\
    pem_parse key = Some (ECPrivateKey k) /\
    ecdsa_verify (ec_public k) sig pb = true /\
    Utf8.decode pb = Ok P.
Proof.
  intros Hin. unfold decrypt_with_key.
  destruct Hin as [<- | [<- | []]]; eval_tags; unfold split_unpack;
    (destruct (split_once ECC_MARKER ciphertext) as [[a b]|] eqn:Hsplit;
     cbn [try_except_ValueError bind]; [|discriminate]);
    unfold load_pem_private_key;
    (destruct (pem_parse key) as [[r|e|d]|] eqn:Hpem; cbn [bind public_key lib_ec_verify
       try_except_Exception]; try discriminate);
    (destruct (ecdsa_verify (ec_public e) b a) eqn:Hver;
     cbn [try_except_Exception bind]; [|discriminate]);
    intros Hdec; exists a, b, e;
    (split; [now apply split_once_sound | split; [reflexivity | split; assumption]]).
Qed.

Lemma ed_open_sound ciphertext key P :
  decrypt_with_key ciphertext key (py "Ed25519") = Ok P ->
  exists pb sig k,
    ciphertext = pb ++ ED25519_MARKER ++ sig /\
    pem_parse key = Some (Ed25519PrivateKey k) /\
    ed_verify (ed_public k) sig pb = true /\
    Utf8.decode pb = Ok P.
Proof.
  unfold decrypt_with_key. eval_tags. unfold split_unpack.
  destruct (split_once ED25519_MARKER ciphertext) as [[a b]|] eqn:Hsplit;
    cbn [try_except_ValueError bind]; [|discriminate].
  unfold load_pem_private_key.
  destruct (pem_parse key) as [[r|e|d]|] eqn:Hpem;
    cbn [bind public_key lib_ed_verify try_except_Exception]; try discriminate.
  destruct (ed_verify (ed_public d) b a) eqn:Hver;
    cbn [try_except_Exception bind]; [|discriminate].
  intros Hdec. exists a, b, d.
  split; [now apply split_once_sound | split; [reflexivity | split; assumption]].
Qed.

End OpenSound.

(** X15: [generate_key] accepts exactly the types that [create_key] lets
    through: for each of them it returns material of the type's form (16, 32
    or 64 random bytes, or the PEM of a new RSA, elliptic-curve or Ed25519
    key); for any other type it raises [ValueError] and draws nothing from
    the random source. *)
Theorem generate_key_accepts_supported {L : CryptoLib} (key_type : pystr) (g : RNG) :
  (In key_type supported_key_types ->
   exists raw g',
     generate_key key_type g = (Ok raw, g') /\
     (key_type = py "AES128GCM" -> length raw = 16) /\
     (In key_type [py "AES256GCM"; py "AES256CBC"; py "ChaCha20Poly1305"; py "HMAC256"] ->
      length raw = 32) /\
     (key_type = py "HMAC512" -> length raw = 64) /\
     (In key_type [py "RSA"; py "RSA2048"; py "RSA4096"] ->
      exists k : RSAKey, raw = private_bytes (RSAPrivateKey k)) /\
     (In key_type [py "ECC256"; py "ECC384"] ->
      exists k : ECKey, raw = private_bytes (ECPrivateKey k)) /\
     (key_type = py "Ed25519" ->
      exists k : EdKey, raw = private_bytes (Ed25519PrivateKey k))) /\
  (~ In key_type supported_key_types ->
   generate_key key_type g
   = (Err (ValueError (py "Unsupported key type: " ++ key_type)), g)).
Proof.
  split.
  - intros Hin. destruct (generate_key_supported g Hin) as (raw & g' & Hgen).
    exists raw, g'. split; [exact Hgen|].
    split; [|split; [|split; [|split; [|split]]]].
    + intros ->. unfold generate_key in Hgen. eval_tags_in Hgen.
      now apply generate_key_draw in Hgen.
    + intros Hk. destruct Hk as [<- | [<- | [<- | [<- | []]]]];
        unfold generate_key in Hgen; eval_tags_in Hgen;
        now apply generate_key_draw in Hgen.
    + intros ->. unfold generate_key in Hgen. eval_tags_in Hgen.
      now apply generate_key_draw in Hgen.
    + intros Hk. eapply generate_key_rsa; eassumption.
    + intros Hk. eapply generate_key_ecc; eassumption.
    + intros ->. eapply generate_key_ed; eassumption.
  - intros Hnot. unfold generate_key.
    repeat match goal with
      | |- context [pystr_eqb key_type ?t] =>
          rewrite (@pystr_eqb_false key_type t supported_key_types Hnot) by in_supported
      end.
    reflexivity.
Qed.

(** X16: for the HMAC types [decrypt_with_key] returns only on bytes that
    are a text, the marker and the MAC of that text under the key: the text
    it returns is the one the MAC was checked against, taken up to the
    first marker. *)
Theorem hmac_open_accepts_only_authentic {L : CryptoLib}
    (ciphertext key : bytes) (key_type plaintext : pystr) :
  In key_type [py "HMAC256"; py "HMAC512"] ->
  decrypt_with_key ciphertext key key_type = Ok plaintext ->
  exists plaintext_part,
    ciphertext = plaintext_part ++ HMAC_MARKER ++ hmac_of key_type key plaintext_part /\
    split_once HMAC_MARKER ciphertext
      = Some (plaintext_part, hmac_of key_type key plaintext_part) /\
    Utf8.decode plaintext_part = Ok plaintext.
Proof. intros Hin Hopen. eapply hmac_open_sound; eassumption. Qed.

Lemma hmac_open_accepts_only_authentic_witness :
  In (py "HMAC256") [py "HMAC256"; py "HMAC512"] /\
  @decrypt_with_key Toy.lib sample_mac_payload (repeat x00 32) (py "HMAC256")
    = Ok (py "hello") /\
  exists plaintext_part,
    sample_mac_payload
      = plaintext_part ++ HMAC_MARKER
        ++ @hmac_of Toy.lib (py "HMAC256") (repeat x00 32) plaintext_part /\
    split_once HMAC_MARKER sample_mac_payload
      = Some (plaintext_part,
              @hmac_of Toy.lib (py "HMAC256") (repeat x00 32) plaintext_part) /\
    Utf8.decode plaintext_part = Ok (py "hello").
Proof.
  assert (Hin : In (py "HMAC256") [py "HMAC256"; py "HMAC512"]) by now left.
  assert (Hopen : @decrypt_with_key Toy.lib sample_mac_payload (repeat x00 32)
                    (py "HMAC256") = Ok (py "hello")) by (vm_compute; reflexivity).
  split; [exact Hin|]. split; [exact Hopen|].
  exact (@hmac_open_accepts_only_authentic Toy.lib sample_mac_payload (repeat x00 32)
           (py "HMAC256") (py "hello") Hin Hopen).
Defined.

(** X17: for the signature types [decrypt_with_key] returns only on bytes
    that are a text, the type's marker and a signature of that text which
    the public key of the stored private key verifies (ECDSA for ECC256 and
    ECC384, Ed25519 for Ed25519). *)
Theorem signature_open_accepts_only_verified {L : CryptoLib}
    (ciphertext key : bytes) (key_type plaintext : pystr) :
  In key_type [py "ECC256"; py "ECC384"; py "Ed25519"] ->
  decrypt_with_key ciphertext key key_type = Ok plaintext ->
  exists plaintext_part signature_part,
    ciphertext = plaintext_part ++ marker_of key_type ++ signature_part /\
    Utf8.decode plaintext_part = Ok plaintext /\
    ((In key_type [py "ECC256"; py "ECC384"] /\
      exists k : ECKey,
        pem_parse key = Some (ECPrivateKey k) /\
        ecdsa_verify (ec_public k) signature_part plaintext_part = true) \/
     (key_type = py "Ed25519" /\
      exists k : EdKey,
        pem_parse key = Some (Ed25519PrivateKey k) /\
        ed_verify (ed_public k) signature_part plaintext_part = true)).
Proof.
  intros Hin Hopen. destruct Hin as [<- | [<- | [<- | []]]].
  - destruct (@ecc_open_sound L ciphertext key (py "ECC256") plaintext
                (or_introl eq_refl) Hopen) as (pb & sig & k & H1 & H2 & H3 & H4).
    exists pb, sig. split; [exact H1|]. split; [exact H4|]. left.
    split; [now left|]. exists k. now split.
  - destruct (@ecc_open_sound L ciphertext key (py "ECC384") plaintext
                (or_intror (or_introl eq_refl)) Hopen)
      as (pb & sig & k & H1 & H2 & H3 & H4).
    exists pb, sig. split; [exact H1|]. split; [exact H4|]. left.
    split; [right; now left|]. exists k. now split.
  - destruct (ed_open_sound ciphertext key Hopen) as (pb & sig & k & H1 & H2 & H3 & H4).
    exists pb, sig. split; [exact H1|]. split; [exact H4|]. right.
    split; [reflexivity|]. exists k. now split.
Qed.

Lemma signature_open_accepts_only_verified_witness :
  In (py "ECC256") [py "ECC256"; py "ECC384"; py "Ed25519"] /\
  @decrypt_with_key Toy.lib sample_signed_payload ("E"%byte :: repeat x00 4)
    (py "ECC256") = Ok (py "hello") /\
  exists plaintext_part signature_part,
    sample_signed_payload
      = plaintext_part ++ marker_of (py "ECC256") ++ signature_part /\
    Utf8.decode plaintext_part = Ok (py "hello") /\
    ((In (py "ECC256") [py "ECC256"; py "ECC384"] /\
      exists k : @ECKey Toy.lib,
        @pem_parse Toy.lib ("E"%byte :: repeat x00 4) = Some (ECPrivateKey k) /\
        @ecdsa_verify Toy.lib (@ec_public Toy.lib k) signature_part plaintext_part
          = true) \/
     (py "ECC256" = py "Ed25519" /\
      exists k : @EdKey Toy.lib,
        @pem_parse Toy.lib ("E"%byte :: repeat x00 4) = Some (Ed25519PrivateKey k) /\
        @ed_verify Toy.lib (@ed_public Toy.lib k) signature_part plaintext_part
          = true)).
Proof.
  assert (Hin : In (py "ECC256") [py "ECC256"; py "ECC384"; py "Ed25519"]) by now left.
  assert (Hopen : @decrypt_with_key Toy.lib sample_signed_payload
                    ("E"%byte :: repeat x00 4) (py "ECC256") = Ok (py "hello"))
    by (vm_compute; reflexivity).
  split; [exact Hin|]. split; [exact Hopen|].
  exact (@signature_open_accepts_only_verified Toy.lib sample_signed_payload
           ("E"%byte :: repeat x00 4) (py "ECC256") (py "hello") Hin Hopen).
Defined.

(* ------------------------------------------------------------------------- *)
(** ** Verifying an audit record; the master key given as text *)

Lemma is_ascii_ascii_str (s : pystr) : is_ascii s = true -> ascii_str s.
Proof.
  unfold is_ascii, ascii_str. intros H. apply Forall_forall. intros c Hc.
  rewrite forallb_forall in H. now apply N.ltb_lt, H.
Qed.

(** X18: with an audit secret that encodes, [verify_audit_log] recomputes
    the signature of the record's fields and returns whether the stored one
    is equal to it, so it returns [True] exactly for the stored signature
    that [calculate_hmac] gives; a stored signature with a character outside
    ASCII makes it raise [TypeError] instead of returning [False]. *)
Theorem verify_audit_log_compares {L : CryptoLib} (AUDIT_SECRET : pystr)
    (isoformat : datetime -> pystr) (secret_bytes : bytes) (log : AuditLog) :
  Utf8.encode AUDIT_SECRET = Ok secret_bytes ->
  exists expected_signature,
    calculate_hmac AUDIT_SECRET
      (log_data_of isoformat (user_id log) (action log) (resource_type log)
         (resource_id log) (ip_address log) (status log) (details log)
         (user_agent log) (timestamp log)) = Ok expected_signature /\
    (is_ascii (hmac_signature log) = true ->
     verify_audit_log AUDIT_SECRET isoformat log
     = Ok (expected_signature =?s hmac_signature log)) /\
    (is_ascii (hmac_signature log) = false ->
     verify_audit_log AUDIT_SECRET isoformat log = Err TypeError) /\
    (verify_audit_log AUDIT_SECRET isoformat log = Ok true <->
     hmac_signature log = expected_signature).
Proof.
  intros Hs.
  destruct (@calculate_hmac_returns L AUDIT_SECRET secret_bytes Hs
              (log_data_of isoformat (user_id log) (action log) (resource_type log)
                 (resource_id log) (ip_address log) (status log) (details log)
                 (user_agent log) (timestamp log))) as (sig & Hsig & Hascii).
  exists sig. split; [exact Hsig|].
  unfold verify_audit_log. rewrite Hsig. cbn [bind]. unfold compare_digest_str.
  rewrite Hascii. cbn [andb]. split; [|split].
  - now intros ->.
  - now intros ->.
  - destruct (is_ascii (hmac_signature log)) eqn:Hstored.
    + split.
      * intros H. injection H as H. apply pystr_eqb_eq in H. now symmetry.
      * intros ->. now rewrite pystr_eqb_refl.
    + split; [discriminate|]. intros H. rewrite H, Hascii in Hstored. discriminate.
Qed.

Lemma verify_audit_log_compares_witness :
  Utf8.encode Toy.AUDIT_SECRET = Ok (b_ "audit-secret") /\
  exists expected_signature,
    @calculate_hmac Toy.lib Toy.AUDIT_SECRET
      (log_data_of Toy.isoformat (Some 7%Z) (py "rotate_key") (py "key") (Some (py "3"))
         (py "127.0.0.1") (py "success") None None 1000%Z) = Ok expected_signature /\
    @verify_audit_log Toy.lib Toy.AUDIT_SECRET Toy.isoformat (sample_log (py "forged"))
      = Ok (expected_signature =?s py "forged") /\
    @verify_audit_log Toy.lib Toy.AUDIT_SECRET Toy.isoformat (sample_log [233%N])
      = Err TypeError.
Proof.
  split; [reflexivity|].
  destruct (@verify_audit_log_compares Toy.lib Toy.AUDIT_SECRET Toy.isoformat
              (b_ "audit-secret") (sample_log (py "forged")) eq_refl)
    as (sig & Hsig & Hcmp & _).
  exists sig. split; [exact Hsig|]. split; [apply Hcmp; reflexivity|].
  destruct (@verify_audit_log_compares Toy.lib Toy.AUDIT_SECRET Toy.isoformat
              (b_ "audit-secret") (sample_log [233%N]) eq_refl)
    as (sig' & _ & _ & Hraise & _).
  apply Hraise. reflexivity.
Defined.

(** X19: a [MASTER_KEY] value that is not hexadecimal is taken as text and
    cut to the first 32 bytes of its UTF-8 encoding: with at least 32 bytes
    the master key is exactly these 32 bytes, so two such values with the
    same first 32 bytes give the same master key. *)
Theorem text_master_key_is_truncated (env env' : Env) (s s' : pystr) (b b' : bytes) :
  getenv env (py "MASTER_KEY") = Some s ->
  getenv env' (py "MASTER_KEY") = Some s' ->
  is_ok (fromhex s) = false -> is_ok (fromhex s') = false ->
  Utf8.encode s = Ok b -> Utf8.encode s' = Ok b' ->
  32 <= length b ->
  firstn 32 b' = firstn 32 b ->
  load_master_key env = Ok (firstn 32 b) /\
  load_master_key env' = load_master_key env.
Proof.
  intros Hg Hg' Hh Hh' He He' Hlen Heq.
  assert (Hload : forall env0 s0 b0,
            getenv env0 (py "MASTER_KEY") = Some s0 ->
            is_ok (fromhex s0) = false -> Utf8.encode s0 = Ok b0 ->
            firstn 32 b0 = firstn 32 b ->
            load_master_key env0 = Ok (firstn 32 b)).
  { intros env0 s0 b0 Hg0 Hh0 He0 Heq0. unfold load_master_key. rewrite Hg0.
    destruct s0 as [|c s0]; [discriminate Hh0|].
    destruct (fromhex (c :: s0)) as [x|e] eqn:Hfh; [discriminate Hh0|].
    apply fromhex_error_only in Hfh. subst e. unfold fromhex_error.
    rewrite He0. cbn [bind]. unfold slice_to. rewrite Heq0.
    replace (length (firstn 32 b) <? 32) with false; [reflexivity|].
    symmetry. apply Nat.ltb_ge. rewrite length_firstn. lia. }
  split.
  - now apply (Hload env s b).
  - rewrite (Hload env s b Hg Hh He eq_refl). now apply (Hload env' s' b').
Qed.

Lemma text_master_key_is_truncated_witness :
  let s := py "correct horse battery staple, forty-two" in
  let s' := py "correct horse battery staple, fo" in
  is_ok (fromhex s) = false /\ is_ok (fromhex s') = false /\
  Utf8.encode s = Ok (b_ "correct horse battery staple, forty-two") /\
  32 <= length (b_ "correct horse battery staple, forty-two") /\
  load_master_key [(py "MASTER_KEY", s)] = Ok (b_ "correct horse battery staple, fo") /\
  load_master_key [(py "MASTER_KEY", s')] = load_master_key [(py "MASTER_KEY", s)].
Proof.
  assert (Hlen : 32 <= length (b_ "correct horse battery staple, forty-two"))
    by (vm_compute; lia).
  split; [reflexivity|]. split; [reflexivity|]. split; [reflexivity|].
  split; [exact Hlen|].
  exact (@text_master_key_is_truncated
           [(py "MASTER_KEY", py "correct horse battery staple, forty-two")]
           [(py "MASTER_KEY", py "correct horse battery staple, fo")]
           (py "correct horse battery staple, forty-two")
           (py "correct horse battery staple, fo")
           (b_ "correct horse battery staple, forty-two")
           (b_ "correct horse battery staple, fo")
           eq_refl eq_refl eq_refl eq_refl eq_refl eq_refl Hlen eq_refl).
Defined.

(* ------------------------------------------------------------------------- *)
(** ** Revoked keys, and keys just rotated *)

Section Revoked.

Context {L : CryptoLib}.
Variable MASTER_KEY : bytes.
Variable AUDIT_SECRET : pystr.
Variable isoformat : datetime -> pystr.
Variable verify_token : pystr -> outcome (Z * pystr).
Variable require_role : pystr -> list pystr -> outcome unit.
Variable b64encode : bytes -> bytes.
Variable b64decode : pystr -> result bytes.

Lemma encrypt_data_resp_found key_id plaintext credentials (w w' : World) r :
  encrypt_data MASTER_KEY AUDIT_SECRET isoformat verify_token b64encode key_id
    plaintext credentials w = (Resp r, w') ->
  exists k, find_key key_id (crypto_keys w) = Some k /\
            is_active k = true /\ is_revoked k = false.
Proof.
  unfold encrypt_data, bindH, pureH.
  destruct (verify_token credentials) as [td| |]; try discriminate.
  destruct (find_key key_id (crypto_keys w)) as [k|] eqn:Hfind.
  - destruct (encrypt_refused k) eqn:Hgate.
    + unfold liftH, raiseH. destruct (audit _ _ _ _ _ _ _ _) as [[[]|e] w2]; discriminate.
    + intros _. exists k. split; [reflexivity|]. unfold encrypt_refused in Hgate.
      destruct (is_active k), (is_revoked k); try discriminate Hgate. now split.
  - unfold liftH, raiseH. destruct (audit _ _ _ _ _ _ _ _) as [[[]|e] w2]; discriminate.
Qed.

Lemma rotate_key_resp_found key_id credentials (w w' : World) r :
  rotate_key MASTER_KEY AUDIT_SECRET isoformat verify_token require_role key_id
    credentials w = (Resp r, w') ->
  exists k, find_key key_id (crypto_keys w) = Some k /\ is_revoked k = false.
Proof.
  unfold rotate_key, bindH, pureH.
  destruct (verify_token credentials) as [[uid role]| |]; try discriminate.
  destruct (require_role role [py "admin"]) as [[]| |]; try discriminate.
  destruct (find_key key_id (crypto_keys w)) as [k|] eqn:Hfind; [|discriminate].
  destruct (is_revoked k) eqn:Hrev; [discriminate|].
  intros _. exists k. now split.
Qed.

End Revoked.

(** X20: revocation is final: once a key is revoked, whatever requests are
    handled afterwards, [encrypt_data] never returns a response for its id
    and [rotate_key] never does either. *)
Theorem revoked_key_stays_unusable {L : CryptoLib} (MASTER_KEY : bytes)
    (AUDIT_SECRET : pystr) (isoformat : datetime -> pystr)
    (verify_token : pystr -> outcome (Z * pystr))
    (require_role : pystr -> list pystr -> outcome unit)
    (b64encode : bytes -> bytes) (b64decode : pystr -> result bytes)
    (rs : list request) (w : World) (key_id : Z) (k : CryptoKey) :
  wf_keys w ->
  find_key key_id (crypto_keys w) = Some k ->
  is_revoked k = true ->
  let w' := handle_all MASTER_KEY AUDIT_SECRET isoformat verify_token require_role
              b64encode b64decode rs w in
  (forall plaintext credentials r w'',
     encrypt_data MASTER_KEY AUDIT_SECRET isoformat verify_token b64encode key_id
       plaintext credentials w' <> (Resp r, w'')) /\
  (forall credentials r w'',
     rotate_key MASTER_KEY AUDIT_SECRET isoformat verify_token require_role key_id
       credentials w' <> (Resp r, w'')).
Proof.
  intros Hwf Hk Hrev w'.
  pose proof (handle_all_steps MASTER_KEY AUDIT_SECRET isoformat verify_token
                require_role b64encode b64decode rs Hwf) as Hs.
  destruct (keys_steps_invariant Hwf Hs) as (_ & _ & Hrec).
  specialize (Hrec key_id). rewrite Hk in Hrec. fold w' in Hrec.
  assert (Hstill : forall k', find_key key_id (crypto_keys w') = Some k' ->
                              is_revoked k' = true).
  { intros k' Hk'. destruct Hrec as [Hnone | (k2 & Hk2 & Hev)]; [congruence|].
    rewrite Hk' in Hk2. injection Hk2 as <-. now apply Hev. }
  split.
  - intros plaintext credentials r w'' Hrun.
    apply encrypt_data_resp_found in Hrun as (k' & Hk' & _ & Hr).
    rewrite (Hstill k' Hk') in Hr. discriminate Hr.
  - intros credentials r w'' Hrun.
    apply rotate_key_resp_found in Hrun as (k' & Hk' & Hr).
    rewrite (Hstill k' Hk') in Hr. discriminate Hr.
Qed.

Lemma revoked_key_stays_unusable_witness :
  let w := toy_world [revoked_key] in
  let w' := @handle_all Toy.lib Toy.MASTER_KEY Toy.AUDIT_SECRET Toy.isoformat
              Toy.verify_token Toy.require_role Toy.b64encode Toy.b64decode
              sample_requests w in
  wf_keys w /\ find_key 1 (crypto_keys w) = Some revoked_key /\
  is_revoked revoked_key = true /\
  (forall plaintext credentials r w'',
     @encrypt_data Toy.lib Toy.MASTER_KEY Toy.AUDIT_SECRET Toy.isoformat
       Toy.verify_token Toy.b64encode 1 plaintext credentials w' <> (Resp r, w'')) /\
  (forall credentials r w'',
     @rotate_key Toy.lib Toy.MASTER_KEY Toy.AUDIT_SECRET Toy.isoformat Toy.verify_token
       Toy.require_role 1 credentials w' <> (Resp r, w'')).
Proof.
  assert (Hwf : wf_keys (toy_world [revoked_key])).
  { split; cbn.
    - apply NoDup_cons; [intros [] | apply NoDup_nil].
    - apply Forall_cons; [reflexivity | apply Forall_nil]. }
  split; [exact Hwf|]. split; [reflexivity|]. split; [reflexivity|].
  exact (@revoked_key_stays_unusable Toy.lib Toy.MASTER_KEY Toy.AUDIT_SECRET
           Toy.isoformat Toy.verify_token Toy.require_role Toy.b64encode Toy.b64decode
           sample_requests (toy_world [revoked_key]) 1%Z revoked_key Hwf eq_refl eq_refl).
Defined.

(** X21: a key that [rotate_key_if_needed] has just rotated is not rotated
    by the next call, as long as the clock has not passed the rotation time
    by more than the period: the record in the table has the version raised
    by one and the rotation time, and on it the next call returns [False]
    and leaves the table as it is. *)
Theorem rotation_restarts_the_period {L : CryptoLib} (MASTER_KEY : bytes)
    (key : CryptoKey) (rotation_days : Z) (w : World) :
  find_key (id key) (crypto_keys w) = Some key ->
  fst (rotate_key_if_needed MASTER_KEY key rotation_days w) = Ok true ->
  let w1 := snd (rotate_key_if_needed MASTER_KEY key rotation_days w) in
  exists key',
    find_key (id key) (crypto_keys w1) = Some key' /\
    key_version key' = (key_version key + 1)%Z /\
    rotated_at key' = Some (clock w (S (tick w))) /\
    forall rotation_days',
      (-999999999 <= rotation_days' <= 999999999)%Z ->
      (0 <= clock w1 (tick w1) - rotation_days' * MICROS_PER_DAY < DATETIME_END)%Z ->
      (clock w1 (tick w1) - rotation_days' * MICROS_PER_DAY <= clock w (S (tick w)))%Z ->
      rotate_key_if_needed MASTER_KEY key' rotation_days' w1
      = (Ok false, set_tick (S (tick w1)) w1).
Proof.
  intros Hfind. unfold rotate_key_if_needed at 1 2.
  unfold bindE, utcnow, liftE, retE.
  destruct (should_rotate_key (clock w (tick w)) key rotation_days) as [due|e] eqn:Hdue;
    [|discriminate].
  destruct due; cbn [negb]; [|discriminate].
  assert (Hst : is_active key = true /\ is_revoked key = false).
  { unfold should_rotate_key in Hdue.
    destruct (is_revoked key), (is_active key); cbn [orb negb] in Hdue;
      try discriminate Hdue. now split. }
  destruct Hst as [Hact Hrev].
  unfold rotate_row, bindE, randE, utcnow, commit_key, retE.
  cbn [rng set_tick].
  destruct (generate_key (key_type key) (rng w)) as [[raw|e] g1]; [|discriminate].
  cbn [rng set_rng].
  destruct (encrypt_key_with_master MASTER_KEY raw g1) as [[wrapped|e] g2];
    [|discriminate].
  cbn [fst snd clock tick set_rng set_tick crypto_keys set_crypto_keys].
  intros _. exists (with_rotation key wrapped (clock w (S (tick w)))).
  split; [eapply find_key_update; [exact Hfind | reflexivity]|].
  split; [reflexivity|]. split; [reflexivity|].
  intros rd' Hd Hrange Hle.
  unfold rotate_key_if_needed, bindE, utcnow, liftE, retE, should_rotate_key.
  cbn [clock tick set_crypto_keys set_tick set_rng with_rotation is_revoked is_active
       rotated_at].
  rewrite Hact, Hrev. cbn [orb negb]. unfold timedelta_days.
  replace ((-999999999 <=? rd') && (rd' <=? 999999999))%Z with true
    by (symmetry; apply andb_true_iff; split; apply Z.leb_le; lia).
  cbn [bind]. unfold datetime_sub, datetime_in_range.
  cbn [clock tick set_crypto_keys set_tick set_rng] in Hrange, Hle.
  replace ((0 <=? clock w (S (S (tick w))) - rd' * MICROS_PER_DAY)
           && (clock w (S (S (tick w))) - rd' * MICROS_PER_DAY <? DATETIME_END))%Z
    with true
    by (symmetry; apply andb_true_iff; split; [apply Z.leb_le | apply Z.ltb_lt]; lia).
  cbn [bind].
  replace (clock w (S (tick w)) <? clock w (S (S (tick w))) - rd' * MICROS_PER_DAY)%Z
    with false by (symmetry; apply Z.ltb_ge; lia).
  reflexivity.
Qed.

Lemma rotation_restarts_the_period_witness :
  let w := day_world [active_key] in
  let w1 := snd (@rotate_key_if_needed Toy.lib Toy.MASTER_KEY active_key 90 w) in
  find_key (id active_key) (crypto_keys w) = Some active_key /\
  fst (@rotate_key_if_needed Toy.lib Toy.MASTER_KEY active_key 90 w) = Ok true /\
  exists key',
    find_key (id active_key) (crypto_keys w1) = Some key' /\
    key_version key' = 4%Z /\
    @rotate_key_if_needed Toy.lib Toy.MASTER_KEY key' 90 w1
    = (Ok false, set_tick (S (tick w1)) w1).
Proof.
  assert (Hdue : fst (@rotate_key_if_needed Toy.lib Toy.MASTER_KEY active_key 90
                        (day_world [active_key])) = Ok true) by (vm_compute; reflexivity).
  split; [reflexivity|]. split; [exact Hdue|].
  destruct (@rotation_restarts_the_period Toy.lib Toy.MASTER_KEY active_key 90%Z
              (day_world [active_key]) eq_refl Hdue) as (key' & H1 & H2 & _ & H4).
  exists key'. split; [exact H1|]. split; [exact H2|].
  apply H4.
  - lia.
  - vm_compute. split; [discriminate | reflexivity].
  - vm_compute. discriminate.
Defined.

(* ------------------------------------------------------------------------- *)
(** ** The form of sealed bytes, empty input, listing, and revocation after use *)

Section SealedForm.

Context {L : CryptoLib}.

Lemma proof_seal_form key_type key P pb g sealed g' :
  In key_type proof_families ->
  Utf8.encode P = Ok pb ->
  encrypt_with_key P key key_type g = (Ok sealed, g') ->
  exists proof, sealed = pb ++ marker_of key_type ++ proof.
Proof.
  intros Hin Hpb. unfold proof_families in Hin. unfold encrypt_with_key, bindR, lift.
  rewrite Hpb.
  destruct Hin as [<- | [<- | [<- | [<- | [<- | []]]]]]; eval_tags; unfold ret.
  - intros H. injection H as <- _. eexists. reflexivity.
  - intros H. injection H as <- _. eexists. reflexivity.
  - destruct (load_pem_private_key key) as [k|e]; [|discriminate].
    destruct (lib_ec_sign k pb g) as [[sg|e] g1]; [|discriminate].
    intros H. injection H as <- _. eexists. reflexivity.
  - destruct (load_pem_private_key key) as [k|e]; [|discriminate].
    destruct (lib_ec_sign k pb g) as [[sg|e] g1]; [|discriminate].
    intros H. injection H as <- _. eexists. reflexivity.
  - destruct (load_pem_private_key key) as [k|e]; [|discriminate].
    destruct (lib_ed_sign k pb) as [sg|e]; [|discriminate].
    intros H. injection H as <- _. eexists. reflexivity.
Qed.

Lemma cbc_seal_length key P pb g sealed g' :
  Utf8.encode P = Ok pb ->
  encrypt_with_key P key (py "AES256CBC") g = (Ok sealed, g') ->
  length sealed = 16 + 16 * (length pb / 16 + 1).
Proof.
  intros Hpb. unfold encrypt_with_key, bindR, lift. rewrite Hpb. eval_tags.
  unfold draw. pose proof (token_bytes_length 16 g) as Hiv.
  destruct (token_bytes 16 g) as [iv g1]. cbn [fst] in Hiv.
  unfold lib_cbc. destruct (lib_aes key); cbn [bind]; [|discriminate].
  rewrite Hiv. cbn [Nat.eqb negb].
  rewrite pkcs7_pad_length. cbn [Nat.eqb negb]. unfold ret.
  intros H. injection H as <- _.
  rewrite length_app, cbc_encrypt_length, Hiv. f_equal.
  unfold pkcs7_pad. rewrite length_app, repeat_length.
  pose proof (Nat.div_mod_eq (length pb) 16).
  pose proof (Nat.mod_upper_bound (length pb) 16). lia.
Qed.

End SealedForm.

(** X22: what [encrypt_with_key] returns for the MAC and signature types
    holds the plaintext in the clear: it is the UTF-8 bytes of the
    plaintext, the type's marker and the MAC or signature. *)
Theorem proof_types_keep_plaintext_clear {L : CryptoLib} (key_type : pystr)
    (key : bytes) (plaintext : pystr) (plaintext_bytes : bytes) (g : RNG)
    (sealed : bytes) (g' : RNG) :
  In key_type proof_families ->
  Utf8.encode plaintext = Ok plaintext_bytes ->
  encrypt_with_key plaintext key key_type g = (Ok sealed, g') ->
  (exists proof, sealed = plaintext_bytes ++ marker_of key_type ++ proof) /\
  firstn (length plaintext_bytes) sealed = plaintext_bytes.
Proof.
  intros Hin Hpb Hseal.
  destruct (proof_seal_form _ _ _ Hin Hpb Hseal) as [proof ->].
  split; [now exists proof|]. now apply firstn_exact.
Qed.

Lemma proof_types_keep_plaintext_clear_witness :
  In (py "HMAC256") proof_families /\
  Utf8.encode (py "hello") = Ok (b_ "hello") /\
  @encrypt_with_key Toy.lib (py "hello") (repeat x00 32) (py "HMAC256") 1
    = (Ok sample_mac_payload, 1) /\
  (exists proof, sample_mac_payload = b_ "hello" ++ marker_of (py "HMAC256") ++ proof) /\
  firstn (length (b_ "hello")) sample_mac_payload = b_ "hello".
Proof.
  assert (Hin : In (py "HMAC256") proof_families) by now left.
  assert (Hseal : @encrypt_with_key Toy.lib (py "hello") (repeat x00 32) (py "HMAC256") 1
                  = (Ok sample_mac_payload, 1)) by (vm_compute; reflexivity).
  split; [exact Hin|]. split; [reflexivity|]. split; [exact Hseal|].
  exact (@proof_types_keep_plaintext_clear Toy.lib (py "HMAC256") (repeat x00 32)
           (py "hello") (b_ "hello") 1 sample_mac_payload 1 Hin eq_refl Hseal).
Defined.

(** X23: for AES256CBC the sealed bytes are the 16 bytes of the IV and the
    padded plaintext, and the padding always adds from 1 to 16 bytes: the
    length is 16 plus the next multiple of 16 above the length of the
    plaintext (32 for the empty plaintext). *)
Theorem cbc_sealed_length {L : CryptoLib} (key : bytes) (plaintext : pystr)
    (plaintext_bytes : bytes) (g : RNG) (sealed : bytes) (g' : RNG) :
  Utf8.encode plaintext = Ok plaintext_bytes ->
  encrypt_with_key plaintext key (py "AES256CBC") g = (Ok sealed, g') ->
  length sealed = 16 + 16 * (length plaintext_bytes / 16 + 1).
Proof. intros Hpb Hseal. eapply cbc_seal_length; eassumption. Qed.

Lemma cbc_sealed_length_witness :
  exists sealed g',
    Utf8.encode [] = Ok [] /\
    @encrypt_with_key Toy.lib [] (repeat x00 32) (py "AES256CBC") 1 = (Ok sealed, g') /\
    length sealed = 32.
Proof.
  destruct (@encrypt_with_key Toy.lib [] (repeat x00 32) (py "AES256CBC") 1)
    as [[sealed|e] g'] eqn:Hseal; [|vm_compute in Hseal; discriminate Hseal].
  exists sealed, g'. split; [reflexivity|]. split; [reflexivity|].
  exact (@cbc_sealed_length Toy.lib (repeat x00 32) [] [] 1 sealed g' eq_refl Hseal).
Defined.

Section EmptyInput.

Context {L : CryptoLib}.

Lemma lib_gcm_decryptor_empty_nonce key tag data :
  exists e, lib_gcm_decryptor key [] tag data = Err e.
Proof.
  unfold lib_gcm_decryptor. destruct (lib_aes key); cbn [bind]; [|eauto].
  unfold lib_gcm_mode. cbn [length Nat.ltb Nat.leb orb bind]. eauto.
Qed.

Lemma decrypt_empty key key_type :
  In key_type supported_key_types ->
  ~ In key_type [py "RSA"; py "RSA2048"; py "RSA4096"] ->
  exists e, decrypt_with_key [] key key_type = Err e.
Proof.
  intros Hin Hnrsa. unfold supported_key_types in Hin.
  destruct Hin as [<-|[<-|[<-|[<-|[<-|[<-|[<-|[<-|[<-|[<-|[<-|[<-|[]]]]]]]]]]]]];
    try (exfalso; apply Hnrsa; cbn; tauto);
    unfold decrypt_with_key; eval_tags;
    unfold slice_to, slice, slice_from; cbn [firstn skipn Nat.sub].
  - destruct (lib_gcm_decryptor_empty_nonce key [] []) as [e ->]. cbn [bind]. eauto.
  - destruct (lib_gcm_decryptor_empty_nonce key [] []) as [e ->]. cbn [bind]. eauto.
  - unfold lib_cbc. destruct (lib_aes key); cbn [bind length Nat.eqb negb]; eauto.
  - unfold lib_chacha_decrypt, lib_chacha_key, lib_chacha_nonce.
    destruct (length key =? 32); cbn [bind length Nat.eqb]; eauto.
  - cbn. eauto.
  - cbn. eauto.
  - cbn. eauto.
  - cbn. eauto.
  - cbn. eauto.
Qed.

End EmptyInput.

(** X24: on empty bytes [decrypt_with_key] raises for every supported type
    other than the RSA ones: it never returns a text for them. *)
Theorem open_of_empty_bytes_raises {L : CryptoLib} (key : bytes) (key_type : pystr) :
  In key_type supported_key_types ->
  ~ In key_type [py "RSA"; py "RSA2048"; py "RSA4096"] ->
  exists e, decrypt_with_key [] key key_type = Err e.
Proof. intros Hin Hnrsa. now apply decrypt_empty. Qed.

Lemma open_of_empty_bytes_raises_witness :
  In (py "AES256CBC") supported_key_types /\
  ~ In (py "AES256CBC") [py "RSA"; py "RSA2048"; py "RSA4096"] /\
  exists e, @decrypt_with_key Toy.lib [] (repeat x00 32) (py "AES256CBC") = Err e.
Proof.
  assert (Hin : In (py "AES256CBC") supported_key_types) by in_supported.
  assert (Hn : ~ In (py "AES256CBC") [py "RSA"; py "RSA2048"; py "RSA4096"])
    by (cbn; intros [H|[H|[H|[]]]]; discriminate H).
  split; [exact Hin|]. split; [exact Hn|].
  exact (@open_of_empty_bytes_raises Toy.lib (repeat x00 32) (py "AES256CBC") Hin Hn).
Defined.

(** X25: [list_keys] answers any caller whose token [verify_token] accepts,
    whatever the role: with an audit secret that encodes it returns the
    public fields of every row of the table, in the table's order, changes
    no row and adds one audit record for the caller. *)
Theorem list_keys_lists_every_key {L : CryptoLib} (AUDIT_SECRET : pystr)
    (isoformat : datetime -> pystr) (verify_token : pystr -> outcome (Z * pystr))
    (secret_bytes : bytes) (credentials : pystr) (user_id' : Z) (user_role : pystr)
    (w : World) :
  Utf8.encode AUDIT_SECRET = Ok secret_bytes ->
  verify_token credentials = Resp (user_id', user_role) ->
  exists w' l,
    list_keys AUDIT_SECRET isoformat verify_token credentials w
      = (Resp (map key_response (crypto_keys w)), w') /\
    crypto_keys w' = crypto_keys w /\
    audit_logs w' = audit_logs w ++ [l] /\
    user_id l = Some user_id' /\ action l = py "list_keys" /\ status l = py "success".
Proof.
  intros Hs Hv. unfold list_keys, bindH, pureH. rewrite Hv. cbn [fst]. cbv zeta.
  unfold liftH, retH.
  destruct (@audit_record L AUDIT_SECRET isoformat secret_bytes Hs user_id'
              (py "list_keys") (py "key") None (py "success") w)
    as (l & -> & H1 & H2 & _ & _ & H5).
  eexists _, l. split; [reflexivity|]. repeat split; assumption.
Qed.

Lemma list_keys_lists_every_key_witness :
  let w := toy_world [active_key; revoked_key_2] in
  Utf8.encode Toy.AUDIT_SECRET = Ok (b_ "audit-secret") /\
  Toy.verify_token (py "user-token") = Resp (2%Z, py "user") /\
  exists w' l,
    @list_keys Toy.lib Toy.AUDIT_SECRET Toy.isoformat Toy.verify_token (py "user-token") w
      = (Resp [key_response active_key; key_response revoked_key_2], w') /\
    crypto_keys w' = crypto_keys w /\
    audit_logs w' = audit_logs w ++ [l] /\
    user_id l = Some 2%Z /\ action l = py "list_keys" /\ status l = py "success".
Proof.
  split; [reflexivity|]. split; [reflexivity|].
  exact (@list_keys_lists_every_key Toy.lib Toy.AUDIT_SECRET Toy.isoformat
           Toy.verify_token (b_ "audit-secret") (py "user-token") 2%Z (py "user")
           (toy_world [active_key; revoked_key_2]) eq_refl eq_refl).
Defined.

Section RevokedStillOpens.

Context {L : CryptoLib}.
Variable MASTER_KEY : bytes.
Variable AUDIT_SECRET : pystr.
Variable isoformat : datetime -> pystr.
Variable verify_token : pystr -> outcome (Z * pystr).
Variable require_role : pystr -> list pystr -> outcome unit.
Variable b64encode : bytes -> bytes.
Variable b64decode : pystr -> result bytes.
Variable secret_bytes : bytes.
Hypothesis AUDIT_SECRET_encodes : Utf8.encode AUDIT_SECRET = Ok secret_bytes.
Hypothesis b64decode_b64encode :
  forall c, exists text, Utf8.decode (b64encode c) = Ok text /\ b64decode text = Ok c.

Lemma encrypt_revoke_decrypt key_id P pb cred_e cred_r cred_d uid role td_d (w : World)
    (k : CryptoKey) raw g0 g1 r w1 :
  verify_token cred_r = Resp (uid, role) ->
  require_role role [py "admin"] = Resp tt ->
  verify_token cred_d = Resp td_d ->
  find_key key_id (crypto_keys w) = Some k ->
  In (key_type k) supported_key_types ->
  decrypt_key_with_master MASTER_KEY (encrypted_key k) = Ok raw ->
  generate_key (key_type k) g0 = (Ok raw, g1) ->
  Utf8.encode P = Ok pb ->
  (In (key_type k) proof_families ->
   split_once (marker_of (key_type k)) (pb ++ marker_of (key_type k)) = Some (pb, [])) ->
  encrypt_data MASTER_KEY AUDIT_SECRET isoformat verify_token b64encode key_id P
    cred_e w = (Resp r, w1) ->
  exists r2 w2 w3,
    revoke_key AUDIT_SECRET isoformat verify_token require_role key_id cred_r w1
      = (Resp r2, w2) /\
    r_is_revoked r2 = true /\
    decrypt_data MASTER_KEY AUDIT_SECRET isoformat verify_token b64decode key_id
      (e_ciphertext r) cred_d w2
    = (Resp {| d_plaintext := P; d_key_id := key_id;
               d_key_version := key_version k |}, w3).
Proof using AUDIT_SECRET_encodes b64decode_b64encode.
  intros Hvr Hr Hvd Hfind Hin Hraw Hgen Hpb Hmark Henc.
  destruct (@encrypt_data_inv L MASTER_KEY AUDIT_SECRET isoformat verify_token b64encode
              key_id P cred_e w w1 k raw r Hfind Hraw Henc)
    as (sealed & g' & Hseal & Htext & _ & _ & Hgate & Hkeys).
  destruct (b64decode_b64encode sealed) as (text & Ht & Hdec).
  rewrite Htext in Ht. injection Ht as <-.
  assert (Hopen : decrypt_with_key sealed raw (key_type k) = Ok P).
  { destruct (@seal_open L (key_type k) g0 raw g1 P pb (rng w) Hin Hgen Hpb Hmark)
      as [[_ Hall] | [_ (sealed' & g'' & Hs' & Ho')]].
    - exact (Hall _ _ Hseal).
    - rewrite Hseal in Hs'. injection Hs' as <- <-. exact Ho'. }
  pose proof Hfind as Hfind1. rewrite <- Hkeys in Hfind1.
  destruct (@revoke_key_found L AUDIT_SECRET isoformat verify_token require_role
              secret_bytes AUDIT_SECRET_encodes key_id cred_r uid role w1 k Hvr Hr Hfind1)
    as (w2 & Hrev & Hfind2).
  cbv zeta in Hrev, Hfind2.
  destruct (@decrypt_data_passed L MASTER_KEY AUDIT_SECRET isoformat verify_token
              b64decode secret_bytes AUDIT_SECRET_encodes key_id (e_ciphertext r) cred_d
              td_d w2 (with_revocation k (clock w1 (tick w1))) raw sealed P Hvd Hfind2
              eq_refl Hraw Hdec Hopen) as (w3 & Hrun & _).
  eexists _, w2, w3. split; [exact Hrev|]. split; [reflexivity|].
  rewrite Hrun. cbn [with_revocation id key_version].
  now rewrite (find_key_id _ _ Hfind).
Qed.

End RevokedStillOpens.

(** X26: revoking a key does not lose what was encrypted under it: the
    text that [encrypt_data] returned before the key was revoked,
    [decrypt_data] still turns back into the plaintext after [revoke_key]
    (under the conditions of the round trip without revocation). *)
Theorem revoked_key_still_decrypts {L : CryptoLib} (MASTER_KEY : bytes)
    (AUDIT_SECRET : pystr) (isoformat : datetime -> pystr)
    (verify_token : pystr -> outcome (Z * pystr))
    (require_role : pystr -> list pystr -> outcome unit)
    (b64encode : bytes -> bytes) (b64decode : pystr -> result bytes)
    (secret_bytes : bytes) (key_id : Z) (plaintext : pystr) (plaintext_bytes : bytes)
    (credentials admin_credentials credentials' : pystr) (user_id' : Z)
    (user_role : pystr) (token_data' : Z * pystr)
    (w : World) (k : CryptoKey) (raw : bytes) (g0 g1 : RNG)
    (r : EncryptResponse) (w1 : World) :
  Utf8.encode AUDIT_SECRET = Ok secret_bytes ->
  (forall c, exists text, Utf8.decode (b64encode c) = Ok text /\ b64decode text = Ok c) ->
  verify_token admin_credentials = Resp (user_id', user_role) ->
  require_role user_role [py "admin"] = Resp tt ->
  verify_token credentials' = Resp token_data' ->
  find_key key_id (crypto_keys w) = Some k ->
  In (key_type k) supported_key_types ->
  decrypt_key_with_master MASTER_KEY (encrypted_key k) = Ok raw ->
  generate_key (key_type k) g0 = (Ok raw, g1) ->
  Utf8.encode plaintext = Ok plaintext_bytes ->
  (In (key_type k) proof_families ->
   split_once (marker_of (key_type k)) (plaintext_bytes ++ marker_of (key_type k))
   = Some (plaintext_bytes, [])) ->
  encrypt_data MASTER_KEY AUDIT_SECRET isoformat verify_token b64encode key_id
    plaintext credentials w = (Resp r, w1) ->
  exists r2 w2 w3,
    revoke_key AUDIT_SECRET isoformat verify_token require_role key_id
      admin_credentials w1 = (Resp r2, w2) /\
    r_is_revoked r2 = true /\
    decrypt_data MASTER_KEY AUDIT_SECRET isoformat verify_token b64decode key_id
      (e_ciphertext r) credentials' w2
    = (Resp {| d_plaintext := plaintext; d_key_id := key_id;
               d_key_version := key_version k |}, w3).
Proof.
  intros Hs Hb Hvr Hr Hvd Hfind Hin Hraw Hgen Hpb Hmark Henc.
  eapply encrypt_revoke_decrypt; eassumption.
Qed.

Lemma revoked_key_still_decrypts_witness :
  let w := toy_world [wrapped_row] in
  exists r w1 r2 w2 w3,
    @encrypt_data Toy.lib Toy.MASTER_KEY Toy.AUDIT_SECRET Toy.isoformat Toy.verify_token
      hex_encode 1 (py "hello") (py "user-token") w = (Resp r, w1) /\
    @revoke_key Toy.lib Toy.AUDIT_SECRET Toy.isoformat Toy.verify_token
      Toy.require_role 1 (py "admin-token") w1 = (Resp r2, w2) /\
    r_is_revoked r2 = true /\
    @decrypt_data Toy.lib Toy.MASTER_KEY Toy.AUDIT_SECRET Toy.isoformat Toy.verify_token
      hex_decode 1 (e_ciphertext r) (py "user-token") w2
    = (Resp {| d_plaintext := py "hello"; d_key_id := 1; d_key_version := 1 |}, w3).
Proof.
  assert (Hcodec : forall c, exists text,
            Utf8.decode (hex_encode c) = Ok text /\ hex_decode text = Ok c)
    by (intros c; exists (hexdigest c); apply hex_codec).
  assert (Hin : In (key_type wrapped_row) supported_key_types) by (cbn; in_supported).
  assert (Hraw : @decrypt_key_with_master Toy.lib Toy.MASTER_KEY
                   (encrypted_key wrapped_row) = Ok (repeat x00 32))
    by (vm_compute; reflexivity).
  assert (Hgen : @generate_key Toy.lib (key_type wrapped_row) 0
                 = (Ok (repeat x00 32), 1)) by (vm_compute; reflexivity).
  assert (Hmark : In (key_type wrapped_row) proof_families ->
                  split_once (marker_of (key_type wrapped_row))
                    (b_ "hello" ++ marker_of (key_type wrapped_row))
                  = Some (b_ "hello", [])) by (intros _; vm_compute; reflexivity).
  assert (Hnrsa : ~ In (key_type wrapped_row) [py "RSA"; py "RSA2048"; py "RSA4096"])
    by (cbn; intros [H|[H|[H|[]]]]; discriminate H).
  destruct (@encrypt_data_returns Toy.lib Toy.MASTER_KEY Toy.AUDIT_SECRET Toy.isoformat
              Toy.verify_token hex_encode hex_decode (b_ "audit-secret") eq_refl Hcodec
              1%Z (py "hello") (b_ "hello") (py "user-token") (2%Z, py "user")
              (toy_world [wrapped_row]) wrapped_row (repeat x00 32) 0 1
              eq_refl eq_refl eq_refl eq_refl Hin Hnrsa Hraw Hgen eq_refl Hmark)
    as (r & w1 & Henc).
  destruct (@revoked_key_still_decrypts Toy.lib Toy.MASTER_KEY Toy.AUDIT_SECRET
              Toy.isoformat Toy.verify_token Toy.require_role hex_encode hex_decode
              (b_ "audit-secret") 1%Z (py "hello") (b_ "hello") (py "user-token")
              (py "admin-token") (py "user-token") 1%Z (py "admin") (2%Z, py "user")
              (toy_world [wrapped_row]) wrapped_row (repeat x00 32) 0 1 r w1
              eq_refl Hcodec eq_refl eq_refl eq_refl eq_refl Hin Hraw Hgen eq_refl Hmark
              Henc) as (r2 & w2 & w3 & H1 & H2 & H3).
  exists r, w1, r2, w2, w3. split; [exact Henc|]. split; [exact H1|].
  split; [exact H2 | exact H3].
Defined.
